(** * CPUTune: the MSR reconciliation engine of [CPUTune.cpp]

    A shallow embedding of [src/CPUTune/CPUTune.cpp].  The driver object is a
    record, the model-specific registers are a total map from addresses to
    64-bit values, and every effect of the code (register reads and writes,
    bounded file reads, log lines, timer arming) is threaded through a small
    state-and-trace monad so that statements about "how many writes" and
    "what was read before a write" can be made on the emitted trace. *)

From Stdlib Require Import ZArith List String Bool Lia.
From Stdlib.Strings Require Import Byte.
Import ListNotations.
Local Open Scope string_scope.
Local Open Scope list_scope.
Local Open Scope Z_scope.

(** ** Architectural constants

    The register addresses come from [<i386/proc_reg.h>] and the Intel SDM;
    [ERANGE] comes from [<sys/errno.h>]. *)

Definition MSR_IA32_PERF_CTL : Z := 0x199.
Definition MSR_IA32_MISC_ENABLE : Z := 0x1A0.
Definition MSR_IA32_POWER_CTL : Z := 0x1FC.
Definition MSR_IA32_PM_ENABLE : Z := 0x770.
Definition MSR_IA32_HWP_REQUEST : Z := 0x774.
Definition ERANGE : Z := 34.

Definition two64 : Z := 2 ^ 64.
Definition two32 : Z := 2 ^ 32.

(** [static_cast<uint64_t>] of a [long]. *)
Definition to_uint64 (x : Z) : Z := x mod two64.

(** Bitwise complement of a [uint64_t]. *)
Definition not64 (x : Z) : Z := Z.lxor x (two64 - 1).

(** ** Declarations taken from headers that are not part of the sources

    [CPUTune.cpp] uses six bit-mask constants declared in [CPUTune.hpp] and
    the parser [hexToInt] declared in [kern_util.hpp].  Neither header is
    available, so the engine is parameterised over them. *)

Class Header : Type := {
  kEnableTurboBoostBits : Z;
  kDisableTurboBoostBits : Z;
  kEnableProcHotBit : Z;
  kDisableProcHotBit : Z;
  kEnableSpeedShiftBit : Z;
  kDisableSpeedShiftBit : Z;
  hexToInt : list byte -> Z
}.

(** ** Effects *)

Inductive Event : Type :=
| EvRdmsr (msr value : Z)
| EvWrmsr (msr value : Z)
| EvReadFile (path : string) (off n : nat)
| EvLog (msg : string)
| EvSetTimeoutMS (ms : Z)
| EvCancelTimeout
| EvSetKextPanicKey
| EvClearKextPanicKey
| EvAllowUnrestrictedFS
| EvRegisterService.

(** The hardware and the timer the driver acts on. *)
Record Machine : Type := {
  msrs : Z -> Z;
  timer : option Z
}.

(** A computation returns a value, the new machine and the events it
    emitted, oldest first. *)
Definition M (A : Type) : Type := Machine -> A * Machine * list Event.

Definition ret {A} (a : A) : M A := fun m => (a, m, []).

Definition bind {A B} (c : M A) (k : A -> M B) : M B :=
  fun m =>
    let '(a, m1, t1) := c m in
    let '(b, m2, t2) := k a m1 in
    (b, m2, t1 ++ t2).

Declare Scope cpu_scope.
Delimit Scope cpu_scope with cpu.
Notation "x <- c ;; k" := (bind c (fun x => k))
  (at level 100, c at next level, right associativity) : cpu_scope.
Notation "c ;;; k" := (bind c (fun _ => k))
  (at level 100, right associativity) : cpu_scope.
Local Open Scope cpu_scope.

Definition value {A} (r : A * Machine * list Event) : A := fst (fst r).
Definition machine {A} (r : A * Machine * list Event) : Machine := snd (fst r).
Definition events {A} (r : A * Machine * list Event) : list Event := snd r.

Definition emit (e : Event) : M unit := fun m => (tt, m, [e]).
Definition myLOG (msg : string) : M unit := emit (EvLog msg).

Definition rdmsr64 (msr : Z) : M Z :=
  fun m => (msrs m msr, m, [EvRdmsr msr (msrs m msr)]).

Definition wrmsr64 (msr value : Z) : M unit :=
  fun m =>
    (tt,
     {| msrs := fun a => if a =? msr then value else msrs m a;
        timer := timer m |},
     [EvWrmsr msr value]).

Definition setTimeoutMS (ms : Z) : M unit :=
  fun m => (tt, {| msrs := msrs m; timer := Some ms |}, [EvSetTimeoutMS ms]).

Definition cancelTimeout : M unit :=
  fun m => (tt, {| msrs := msrs m; timer := None |}, [EvCancelTimeout]).

(** ** External desired-state sources *)

(** The files visible to the driver during one cycle: [None] when the path
    cannot be read. *)
Definition FileSystem : Type := string -> option (list byte).

(** Modelled from the spec: [readFileNBytes] is defined in [kern_util],
    which is not part of the sources.  The spec describes it as a bounded
    read that yields at most the requested number of bytes, or a null buffer
    when the source is absent. *)
Definition readFileNBytes (fs : FileSystem) (path : string) (off n : nat)
  : M (option (list byte)) :=
  fun m => (option_map (fun c => firstn n (skipn off c)) (fs path), m,
            [EvReadFile path off n]).

(** The test that the buffer is non-null and its first byte is the
    character 1 (lines 170, 190 and 231). *)
Definition requestsEnable (buffer : option (list byte)) : bool :=
  match buffer with
  | Some (b :: _) => Byte.eqb b "1"%byte
  | _ => false
  end.

(** [buffer] as a null test. *)
Definition nonNull {A} (buffer : option A) : bool :=
  match buffer with Some _ => true | None => false end.

(** ** The driver object *)

Record CPUInfo : Type := { supportedHWP : bool; model : Z }.

Record CPUTune : Type := {
  ProcHotPath : option string;
  turboBoostPath : option string;
  speedShiftPath : option string;
  hwpRequestConfigPath : option string;
  enableIntelTurboBoost : bool;
  enableIntelProcHot : bool;
  enableIntelSpeedShift : bool;
  allowUnrestrictedFS : bool;
  updateInterval : Z;
  hwpEnableOnceSet : bool;
  timerSource : bool;
  org_MSR_IA32_MISC_ENABLE : Z;
  org_MSR_IA32_PERF_CTL : Z;
  org_MSR_IA32_POWER_CTL : Z;
  org_MSR_IA32_PM_ENABLE : Z;
  org_HWPRequest : Z
}.

Inductive OSObject : Type :=
| OSString (s : string)
| OSBoolean (b : bool)
| OSNumber (n : Z).

(** The property table of the service, as [getProperty] sees it. *)
Definition OSDictionary : Type := string -> option OSObject.

Definition getStringPropertyOrElse (dict : OSDictionary) (key : string)
  (defaultProperty : option string) : option string :=
  match dict key with
  | Some (OSString value) => Some value
  | _ => defaultProperty
  end.

Definition getBooleanOrElse (dict : OSDictionary) (key : string)
  (defaultValue : bool) : bool :=
  match dict key with
  | Some (OSBoolean value) => value
  | _ => defaultValue
  end.

(** What [init] learns from the kernel besides the property table. *)
Record BootEnv : Type := {
  kernelUnsupported : bool;   (* getKernelVersion() >= KernelVersion::Unsupported *)
  bootargBeta : bool;
  kextPanicLastBoot : bool;
  bootargS : bool;
  bootargX : bool;
  bootargOff : bool;
  superInit : bool
}.

(** What [start] learns from IOKit. *)
Record StartEnv : Type := {
  superStart : bool;
  providerPresent : bool;
  timerCreated : bool;
  addEventSourceOk : bool
}.

Definition loadProperties (this : CPUTune) (dict : OSDictionary) : CPUTune :=
  {| ProcHotPath := getStringPropertyOrElse dict "ProcHotAtRuntime" None;
     turboBoostPath := getStringPropertyOrElse dict "TurboBoostAtRuntime" None;
     speedShiftPath := getStringPropertyOrElse dict "SpeedShiftAtRuntime" None;
     hwpRequestConfigPath := getStringPropertyOrElse dict "HWPRequestConfigPath" None;
     enableIntelTurboBoost := getBooleanOrElse dict "EnableTurboBoost" false;
     enableIntelProcHot := getBooleanOrElse dict "EnableProcHot" false;
     enableIntelSpeedShift := getBooleanOrElse dict "EnableSpeedShift" false;
     allowUnrestrictedFS := getBooleanOrElse dict "AllowUnrestrictedFS" false;
     updateInterval :=
       match dict "UpdateInterval" with
       | Some (OSNumber timeout) => timeout mod two32
       | _ => updateInterval this
       end;
     hwpEnableOnceSet := hwpEnableOnceSet this;
     timerSource := timerSource this;
     org_MSR_IA32_MISC_ENABLE := org_MSR_IA32_MISC_ENABLE this;
     org_MSR_IA32_PERF_CTL := org_MSR_IA32_PERF_CTL this;
     org_MSR_IA32_POWER_CTL := org_MSR_IA32_POWER_CTL this;
     org_MSR_IA32_PM_ENABLE := org_MSR_IA32_PM_ENABLE this;
     org_HWPRequest := org_HWPRequest this |}.

(** The four assignments at the end of [init] (lines 68-71). *)
Definition storeOriginals (this : CPUTune) (misc perf power hwp : Z) : CPUTune :=
  {| ProcHotPath := ProcHotPath this;
     turboBoostPath := turboBoostPath this;
     speedShiftPath := speedShiftPath this;
     hwpRequestConfigPath := hwpRequestConfigPath this;
     enableIntelTurboBoost := enableIntelTurboBoost this;
     enableIntelProcHot := enableIntelProcHot this;
     enableIntelSpeedShift := enableIntelSpeedShift this;
     allowUnrestrictedFS := allowUnrestrictedFS this;
     updateInterval := updateInterval this;
     hwpEnableOnceSet := hwpEnableOnceSet this;
     timerSource := timerSource this;
     org_MSR_IA32_MISC_ENABLE := misc;
     org_MSR_IA32_PERF_CTL := perf;
     org_MSR_IA32_POWER_CTL := power;
     org_MSR_IA32_PM_ENABLE := org_MSR_IA32_PM_ENABLE this;
     org_HWPRequest := hwp |}.

Definition set_hwpEnableOnceSet (this : CPUTune) (b : bool) : CPUTune :=
  {| ProcHotPath := ProcHotPath this;
     turboBoostPath := turboBoostPath this;
     speedShiftPath := speedShiftPath this;
     hwpRequestConfigPath := hwpRequestConfigPath this;
     enableIntelTurboBoost := enableIntelTurboBoost this;
     enableIntelProcHot := enableIntelProcHot this;
     enableIntelSpeedShift := enableIntelSpeedShift this;
     allowUnrestrictedFS := allowUnrestrictedFS this;
     updateInterval := updateInterval this;
     hwpEnableOnceSet := b;
     timerSource := timerSource this;
     org_MSR_IA32_MISC_ENABLE := org_MSR_IA32_MISC_ENABLE this;
     org_MSR_IA32_PERF_CTL := org_MSR_IA32_PERF_CTL this;
     org_MSR_IA32_POWER_CTL := org_MSR_IA32_POWER_CTL this;
     org_MSR_IA32_PM_ENABLE := org_MSR_IA32_PM_ENABLE this;
     org_HWPRequest := org_HWPRequest this |}.

Definition set_timerSource (this : CPUTune) (b : bool) : CPUTune :=
  {| ProcHotPath := ProcHotPath this;
     turboBoostPath := turboBoostPath this;
     speedShiftPath := speedShiftPath this;
     hwpRequestConfigPath := hwpRequestConfigPath this;
     enableIntelTurboBoost := enableIntelTurboBoost this;
     enableIntelProcHot := enableIntelProcHot this;
     enableIntelSpeedShift := enableIntelSpeedShift this;
     allowUnrestrictedFS := allowUnrestrictedFS this;
     updateInterval := updateInterval this;
     hwpEnableOnceSet := hwpEnableOnceSet this;
     timerSource := b;
     org_MSR_IA32_MISC_ENABLE := org_MSR_IA32_MISC_ENABLE this;
     org_MSR_IA32_PERF_CTL := org_MSR_IA32_PERF_CTL this;
     org_MSR_IA32_POWER_CTL := org_MSR_IA32_POWER_CTL this;
     org_MSR_IA32_PM_ENABLE := org_MSR_IA32_PM_ENABLE this;
     org_HWPRequest := org_HWPRequest this |}.

(** ** The engine *)

Section Engine.

Context {hdr : Header}.
Variable cpu_info : CPUInfo.

(** Lines 246-252. *)
Definition setIfNotEqual (current expect msr : Z) : M bool :=
  let needWrite := negb (current =? expect) in
  if needWrite
  then wrmsr64 msr expect ;;; ret needWrite
  else ret needWrite.

(** Lines 254-264. *)
Definition enableTurboBoost : M unit :=
  cur <- rdmsr64 MSR_IA32_MISC_ENABLE ;;
  let val := Z.land cur kEnableTurboBoostBits in
  changed <- setIfNotEqual cur val MSR_IA32_MISC_ENABLE ;;
  if changed
  then myLOG "%s: change 0x%llx to 0x%llx in MSR_IA32_MISC_ENABLE(0x%llx)"
  else myLOG "%s: 0x%llx in MSR_IA32_MISC_ENABLE(0x%llx) remains the same".

(** Lines 266-276. *)
Definition disableTurboBoost : M unit :=
  cur <- rdmsr64 MSR_IA32_MISC_ENABLE ;;
  let val := Z.lor cur kDisableTurboBoostBits in
  changed <- setIfNotEqual cur val MSR_IA32_MISC_ENABLE ;;
  if changed
  then myLOG "%s: change 0x%llx to 0x%llx in MSR_IA32_MISC_ENABLE(0x%llx)"
  else myLOG "%s: 0x%llx in MSR_IA32_MISC_ENABLE(0x%llx) remains the same".

(** Lines 278-287. *)
Definition disableProcHot : M unit :=
  cur <- rdmsr64 MSR_IA32_POWER_CTL ;;
  let val := Z.land cur kDisableProcHotBit in
  changed <- setIfNotEqual cur val MSR_IA32_POWER_CTL ;;
  if changed
  then myLOG "%s: change 0x%llx to 0x%llx in MSR_IA32_POWERCTL(0x%llx)"
  else myLOG "%s: 0x%llx in MSR_IA32_POWER_CTL(0x%llx) remains the same".

(** Lines 289-298. *)
Definition enableProcHot : M unit :=
  cur <- rdmsr64 MSR_IA32_POWER_CTL ;;
  let val := Z.lor cur kEnableProcHotBit in
  changed <- setIfNotEqual cur val MSR_IA32_POWER_CTL ;;
  if changed
  then myLOG "%s: change 0x%llx to 0x%llx in MSR_IA32_POWERCTL(0x%llx)"
  else myLOG "%s: 0x%llx in MSR_IA32_POWER_CTL(0x%llx) remains the same".

(** Lines 300-308. *)
Definition enableSpeedShift : M unit :=
  cur <- rdmsr64 MSR_IA32_PM_ENABLE ;;
  changed <- setIfNotEqual cur kEnableSpeedShiftBit MSR_IA32_PM_ENABLE ;;
  if changed
  then myLOG "%s: change 0x%llx to 0x%llx in MSR_IA32_PM_ENABLE(0x%llx)"
  else myLOG "%s: 0x%llx in MSR_IA32_PM_ENABLE(0x%llx) remains the same".

(** Lines 310-318. *)
Definition disableSpeedShift : M unit :=
  cur <- rdmsr64 MSR_IA32_PM_ENABLE ;;
  changed <- setIfNotEqual cur kDisableSpeedShiftBit MSR_IA32_PM_ENABLE ;;
  if changed
  then myLOG "%s: change 0x%llx to 0x%llx in MSR_IA32_PM_ENABLE(0x%llx)"
  else myLOG "%s: 0x%llx in MSR_IA32_PM_ENABLE(0x%llx) remains the same".

(** [CPUTune::init], lines 25-74.  The result is the returned flag and the
    object as [init] leaves it. *)
Definition init (this : CPUTune) (env : BootEnv) (dict : OSDictionary)
  : M (bool * CPUTune) :=
  if kernelUnsupported env && negb (bootargBeta env) then
    myLOG "Unsupported kernel version: %d, get a CPUTune that supports current kernel from https://github.com/syscl/CPUTune" ;;;
    emit EvSetKextPanicKey ;;;
    ret (false, this)
  else
    (if kextPanicLastBoot env
     then myLOG "Found % key being set in NVRAM, CPUTune (%s) supportted kernel version %d, clear the panic key" ;;;
          emit EvClearKextPanicKey
     else ret tt) ;;;
    let isDisabled := bootargS env || bootargX env || bootargOff env in
    if isDisabled then
      myLOG "init: not allow to run." ;;;
      ret (false, this)
    else
      let r := superInit env in
      if negb r then
        myLOG "init: failed!" ;;;
        ret (r, this)
      else
        let this1 := loadProperties this dict in
        (match dict "UpdateInterval" with
         | Some (OSNumber _) => myLOG "Update time interval %u ms per cycle"
         | _ => ret tt
         end) ;;;
        myLOG "init: succeeded!" ;;;
        misc <- rdmsr64 MSR_IA32_MISC_ENABLE ;;
        perf <- rdmsr64 MSR_IA32_PERF_CTL ;;
        power <- rdmsr64 MSR_IA32_POWER_CTL ;;
        hwp <- rdmsr64 MSR_IA32_HWP_REQUEST ;;
        ret (r, storeOriginals this1 misc perf power hwp).

(** The feature logic at the end of [start], lines 121-148. *)
Definition startTurboBoost (this : CPUTune) : M unit :=
  if enableIntelTurboBoost this then enableTurboBoost else disableTurboBoost.

Definition startProcHot (this : CPUTune) : M unit :=
  if enableIntelProcHot this then enableProcHot
  else if negb (enableIntelTurboBoost this) then disableProcHot
  else myLOG "start: cannot deactivate PROCHOT while turboboost is active!".

Definition startSpeedShift (this : CPUTune) : M CPUTune :=
  if supportedHWP cpu_info then
    if negb (hwpEnableOnceSet this) && enableIntelSpeedShift this then
      enableSpeedShift ;;;
      ret (set_hwpEnableOnceSet this true)
    else ret this
  else
    myLOG "start: cpu model (0x%x) does not support Intel SpeedShift." ;;;
    ret this.

(** [CPUTune::start], lines 90-153. *)
Definition start (this : CPUTune) (env : StartEnv) : M (bool * CPUTune) :=
  let r := superStart env in
  if negb r || negb (providerPresent env) then
    myLOG "start: cannot start provider or provider does not exist." ;;;
    ret (r, this)
  else
    (if allowUnrestrictedFS this then emit EvAllowUnrestrictedFS else ret tt) ;;;
    let this1 := set_timerSource this (timerCreated env) in
    if negb (timerSource this1) then
      myLOG "start: failed to create timer event source!" ;;;
      ret (false, this1)
    else if negb (addEventSourceOk env) then
      myLOG "start: failed to add timer event source to work loop!" ;;;
      ret (false, this1)
    else
      setTimeoutMS 2000 ;;;
      startTurboBoost this1 ;;;
      startProcHot this1 ;;;
      this2 <- startSpeedShift this1 ;;
      myLOG "start: registerService" ;;;
      emit EvRegisterService ;;;
      ret (r, this2).

(** The four blocks of [readConfigAtRuntime], in source order. *)

(** Lines 164-183. *)
Definition turboBoostAtRuntime (this : CPUTune) (fs : FileSystem) : M unit :=
  match turboBoostPath this with
  | Some path =>
      cur <- rdmsr64 MSR_IA32_MISC_ENABLE ;;
      let prev :=
        cur =? Z.land (org_MSR_IA32_MISC_ENABLE this) kEnableTurboBoostBits in
      buffer <- readFileNBytes fs path 0 1 ;;
      let curr := requestsEnable buffer in
      if negb (Bool.eqb curr prev) then
        myLOG "readConfigAtRuntime: %s Intel Turbo Boost" ;;;
        if curr then enableTurboBoost else disableTurboBoost
      else ret tt
  | None => ret tt
  end.

(** Lines 185-204. *)
Definition procHotAtRuntime (this : CPUTune) (fs : FileSystem) : M unit :=
  match ProcHotPath this with
  | Some path =>
      cur <- rdmsr64 MSR_IA32_POWER_CTL ;;
      let prev := negb (Z.land cur kEnableProcHotBit =? 0) in
      buffer <- readFileNBytes fs path 0 1 ;;
      let curr := requestsEnable buffer in
      if negb (Bool.eqb curr prev) then
        myLOG "readConfigAtRunTime: %s Intel Proc Hot" ;;;
        if curr then enableProcHot
        else
          misc <- rdmsr64 MSR_IA32_MISC_ENABLE ;;
          if negb (Z.land misc kEnableTurboBoostBits =? kEnableTurboBoostBits)
          then disableProcHot
          else myLOG "readConfigAtRuntime: Cannot disable PROCHOT while turboboost is active!"
      else ret tt
  | None => ret tt
  end.

(** Lines 206-223. *)
Definition hwpRequestAtRuntime (this : CPUTune) (fs : FileSystem) : M unit :=
  if supportedHWP cpu_info then
    match hwpRequestConfigPath this with
    | Some path =>
        hex <- readFileNBytes fs path 0 10 ;;
        match hex with
        | Some h =>
            let req := hexToInt h in
            if req =? ERANGE then
              myLOG "%s: HWP Request %s is not a valid hexadecimal constant at %s"
            else
              curHWPRequest <- rdmsr64 MSR_IA32_HWP_REQUEST ;;
              let usrHWPRequest := to_uint64 req in
              changed <- setIfNotEqual curHWPRequest usrHWPRequest MSR_IA32_HWP_REQUEST ;;
              if changed
              then myLOG "%s: change MSR_IA32_HWP_REQUEST(0x%llx): 0x%llx -> 0x%llx"
              else ret tt
        | None => ret tt
        end
    | None => ret tt
    end
  else ret tt.

(** Lines 225-242. *)
Definition speedShiftAtRuntime (this : CPUTune) (fs : FileSystem) : M unit :=
  if negb (hwpEnableOnceSet this) && supportedHWP cpu_info then
    match speedShiftPath this with
    | Some path =>
        cur <- rdmsr64 MSR_IA32_PM_ENABLE ;;
        let prev := cur =? kEnableSpeedShiftBit in
        buffer <- readFileNBytes fs path 0 1 ;;
        let curr := requestsEnable buffer in
        if nonNull buffer && negb (Bool.eqb curr prev) then
          myLOG "readConfigAtRuntime: %s Intel Speed Shift" ;;;
          if curr then enableSpeedShift else disableSpeedShift
        else ret tt
    | None => ret tt
    end
  else ret tt.

(** [CPUTune::readConfigAtRuntime], lines 155-244: one reconciliation cycle.
    The object is only read; no member is assigned in this function. *)
Definition readConfigAtRuntime (this : CPUTune) (fs : FileSystem) : M unit :=
  turboBoostAtRuntime this fs ;;;
  procHotAtRuntime this fs ;;;
  hwpRequestAtRuntime this fs ;;;
  speedShiftAtRuntime this fs ;;;
  setTimeoutMS (updateInterval this).

(** Restoring one register in [stop]. *)
Definition restore (msr org : Z) (msg : string) : M unit :=
  cur <- rdmsr64 msr ;;
  changed <- setIfNotEqual cur org msr ;;
  if changed then myLOG msg else ret tt.

(** [CPUTune::stop], lines 320-354. *)
Definition stop (this : CPUTune) : M CPUTune :=
  (if timerSource this then cancelTimeout else ret tt) ;;;
  let this1 := set_timerSource this false in
  restore MSR_IA32_POWER_CTL (org_MSR_IA32_POWER_CTL this1)
    "stop: restore MSR_IA32_POWER_CTK from 0x%llx to 0x%llx" ;;;
  restore MSR_IA32_MISC_ENABLE (org_MSR_IA32_MISC_ENABLE this1)
    "stop: restore MSR_IA32_MISC_ENABLE from 0x%llx to 0x%llx" ;;;
  restore MSR_IA32_PERF_CTL (org_MSR_IA32_PERF_CTL this1)
    "stop: restore MSR_IA32_PERF_CTL from 0x%llx to 0x%llx" ;;;
  (if supportedHWP cpu_info then
     restore MSR_IA32_PM_ENABLE (org_MSR_IA32_PM_ENABLE this1)
       "stop: restore MSR_IA32_PM_ENABLE from 0x%llx to 0x%llx" ;;;
     restore MSR_IA32_HWP_REQUEST (org_HWPRequest this1)
       "%s: restore MSR_IA32_HWP_REQUEST(0x%llx) from 0x%llx to 0x%llx"
   else ret tt) ;;;
  ret this1.

(** A run of timer callbacks, one file-system view per cycle. *)
Fixpoint cycles (this : CPUTune) (fss : list FileSystem) : M unit :=
  match fss with
  | [] => ret tt
  | fs :: rest => readConfigAtRuntime this fs ;;; cycles this rest
  end.

(** A process lifetime as IOKit drives it: [init], then [start], then the
    timer callbacks, then [stop].  A failed [init] or [start] ends it. *)
Definition lifetime (this0 : CPUTune) (benv : BootEnv) (dict : OSDictionary)
  (senv : StartEnv) (fss : list FileSystem) : M (option CPUTune) :=
  r1 <- init this0 benv dict ;;
  if fst r1 then
    r2 <- start (snd r1) senv ;;
    if fst r2 && timerSource (snd r2) then
      cycles (snd r2) fss ;;;
      this3 <- stop (snd r2) ;;
      ret (Some this3)
    else ret None
  else ret None.

End Engine.

(** ** A concrete header, for running the engine on examples *)

Module SpecHeader.

(** Modelled from the spec: the mask constants of [CPUTune.hpp], which is
    not part of the sources.  The spec places the turbo disable bit at bit 38
    of MISC_ENABLE (the source comments agree: enabling flips bit 38 to 0,
    disabling flips it to 1), gives ProcHot one bit of POWER_CTL and
    SpeedShift one enable bit of PM_ENABLE with a complementary clear
    pattern; architecturally both are bit 0. *)
Definition kDisableTurboBoostBits : Z := Z.shiftl 1 38.

(** Modelled from the spec: the mask that clears the turbo disable bit. *)
Definition kEnableTurboBoostBits : Z := not64 kDisableTurboBoostBits.

(** Modelled from the spec: the ProcHot bit of POWER_CTL. *)
Definition kEnableProcHotBit : Z := 1.

(** Modelled from the spec: the mask that clears the ProcHot bit. *)
Definition kDisableProcHotBit : Z := not64 kEnableProcHotBit.

(** Modelled from the spec: the SpeedShift enable bit of PM_ENABLE. *)
Definition kEnableSpeedShiftBit : Z := 1.

(** Modelled from the spec: the complementary clear pattern. *)
Definition kDisableSpeedShiftBit : Z := 0.

Definition LONG_MAX : Z := 2 ^ 63 - 1.

Definition hexDigit (b : byte) : option Z :=
  let n := Z.of_N (Byte.to_N b) in
  if (48 <=? n) && (n <=? 57) then Some (n - 48)
  else if (65 <=? n) && (n <=? 70) then Some (n - 55)
  else if (97 <=? n) && (n <=? 102) then Some (n - 87)
  else None.

Fixpoint parseDigits (acc : Z) (l : list byte) : option Z :=
  match l with
  | [] => Some acc
  | b :: rest =>
      match hexDigit b with
      | Some d => parseDigits (acc * 16 + d) rest
      | None => None
      end
  end.

(** The C string held by a buffer: its bytes up to the first NUL. *)
Fixpoint cstring (l : list byte) : list byte :=
  match l with
  | [] => []
  | b :: rest => if Byte.eqb b x00 then [] else b :: cstring rest
  end.

Definition stripPrefix (l : list byte) : list byte :=
  match l with
  | x30 :: x78 :: rest => rest
  | x30 :: x58 :: rest => rest
  | _ => l
  end.

(** The token as a hexadecimal integer literal, when it is one. *)
Definition parseHex (l : list byte) : option Z :=
  match stripPrefix (cstring l) with
  | [] => None
  | digits => parseDigits 0 digits
  end.

(** Modelled from the spec: [hexToInt] of [kern_util], which is not part of
    the sources.  The spec has it parse a short hexadecimal token into an
    integer; content that is not hexadecimal, or a value that overflows,
    is reported by the sentinel the caller tests for, [ERANGE]. *)
Definition hexToInt (l : list byte) : Z :=
  match parseHex l with
  | Some v => if v <=? LONG_MAX then v else ERANGE
  | None => ERANGE
  end.

End SpecHeader.

#[local] Instance spec_header : Header := {
  kEnableTurboBoostBits := SpecHeader.kEnableTurboBoostBits;
  kDisableTurboBoostBits := SpecHeader.kDisableTurboBoostBits;
  kEnableProcHotBit := SpecHeader.kEnableProcHotBit;
  kDisableProcHotBit := SpecHeader.kDisableProcHotBit;
  kEnableSpeedShiftBit := SpecHeader.kEnableSpeedShiftBit;
  kDisableSpeedShiftBit := SpecHeader.kDisableSpeedShiftBit;
  hexToInt := SpecHeader.hexToInt
}.

(** Example inputs. *)

Definition bytes (s : string) : list byte := list_byte_of_string s.

(** A file system holding one file. *)
Definition oneFile (path : string) (content : string) : FileSystem :=
  fun p => if String.eqb p path then Some (bytes content) else None.

(** A file system holding nothing. *)
Definition noFiles : FileSystem := fun _ => None.

Definition emptyDict : OSDictionary := fun _ => None.

Definition setProperty (dict : OSDictionary) (key : string) (v : OSObject)
  : OSDictionary :=
  fun k => if String.eqb k key then Some v else dict k.

(** The object before [init]: no paths, all flags clear. *)
Definition freshObject (interval orgPmEnable : Z) : CPUTune :=
  {| ProcHotPath := None; turboBoostPath := None; speedShiftPath := None;
     hwpRequestConfigPath := None;
     enableIntelTurboBoost := false; enableIntelProcHot := false;
     enableIntelSpeedShift := false; allowUnrestrictedFS := false;
     updateInterval := interval; hwpEnableOnceSet := false;
     timerSource := false;
     org_MSR_IA32_MISC_ENABLE := 0; org_MSR_IA32_PERF_CTL := 0;
     org_MSR_IA32_POWER_CTL := 0; org_MSR_IA32_PM_ENABLE := orgPmEnable;
     org_HWPRequest := 0 |}.

Definition goodBoot : BootEnv :=
  {| kernelUnsupported := false; bootargBeta := false;
     kextPanicLastBoot := false; bootargS := false; bootargX := false;
     bootargOff := false; superInit := true |}.

Definition goodStart : StartEnv :=
  {| superStart := true; providerPresent := true; timerCreated := true;
     addEventSourceOk := true |}.

Definition hwpCpu : CPUInfo := {| supportedHWP := true; model := 0x8E |}.

(** A machine whose registers hold the given values (zero elsewhere). *)
Definition machineWith (regs : list (Z * Z)) : Machine :=
  {| msrs := fun a =>
       match find (fun kv => fst kv =? a) regs with
       | Some kv => snd kv
       | None => 0
       end;
     timer := None |}.

(** ** Reading traces *)

Definition isWrite (e : Event) : bool :=
  match e with
  | EvWrmsr _ _ => true
  | _ => false
  end.

(** The values written to [msr], oldest first. *)
Fixpoint writes_to (msr : Z) (t : list Event) : list Z :=
  match t with
  | [] => []
  | EvWrmsr a v :: rest =>
      if a =? msr then v :: writes_to msr rest else writes_to msr rest
  | _ :: rest => writes_to msr rest
  end.

(** The number of register writes in a trace. *)
Definition count_writes (t : list Event) : nat := List.length (filter isWrite t).

(** Every write in the trace comes directly after a read of the same
    register that returned a different value. *)
Definition read_before_write (t : list Event) : Prop :=
  forall pre a v post,
    t = pre ++ EvWrmsr a v :: post ->
    exists pre' c, pre = pre' ++ [EvRdmsr a c] /\ c <> v.

(** The executable form of [read_before_write]; [prev] is the event just
    before the trace. *)
Fixpoint checked (prev : option Event) (t : list Event) : bool :=
  match t with
  | [] => true
  | e :: rest =>
      match e with
      | EvWrmsr a v =>
          match prev with
          | Some (EvRdmsr a' c) => (a' =? a) && negb (c =? v)
          | _ => false
          end
      | _ => true
      end && checked (Some e) rest
  end.

(** ** Properties of computations *)

(** Every trace the computation can emit obeys [read_before_write], in its
    executable form. *)
Definition Disciplined {A} (c : M A) : Prop :=
  forall m, checked None (events (c m)) = true.

(** The computation writes only registers selected by [W] and leaves every
    other register as it found it. *)
Definition Footprint {A} (W : Z -> bool) (c : M A) : Prop :=
  forall m,
    (forall a v, In (EvWrmsr a v) (events (c m)) -> W a = true) /\
    (forall a, W a = false -> msrs (machine (c m)) a = msrs m a).

(** [init], [start] and a run of cycles, without the final [stop]. *)
Definition session {hdr : Header} (cpu_info : CPUInfo) (this0 : CPUTune)
  (benv : BootEnv) (dict : OSDictionary) (senv : StartEnv)
  (fss : list FileSystem) : M CPUTune :=
  r1 <- init this0 benv dict ;;
  r2 <- start cpu_info (snd r1) senv ;;
  cycles cpu_info (snd r2) fss ;;;
  ret (snd r2).

(** The value the HWP request block of a cycle wants in HWP_REQUEST, when it
    wants one. *)
Definition hwpRequested {hdr : Header} (cpu_info : CPUInfo) (this : CPUTune)
  (fs : FileSystem) : option Z :=
  if supportedHWP cpu_info then
    match hwpRequestConfigPath this with
    | Some path =>
        match fs path with
        | Some content =>
            let req := hexToInt (firstn 10 content) in
            if req =? ERANGE then None else Some (to_uint64 req)
        | None => None
        end
    | None => None
    end
  else None.

(** Every event the computation can emit satisfies [P]. *)
Definition Emits {A} (P : Event -> bool) (c : M A) : Prop :=
  forall m, forallb P (events (c m)) = true.

(** File reads of at most [n] bytes. *)
Definition readsAtMost (n : nat) (e : Event) : bool :=
  match e with
  | EvReadFile _ _ k => Nat.leb k n
  | _ => true
  end.

(** Running an operation twice in a row. *)
Definition twice {A} (c : M A) : M A := c ;;; c.

(** The bits a TurboBoost operation may change: those cleared by the enable
    mask or set by the disable mask. *)
Definition inTurboBoostMask {hdr : Header} (i : Z) : bool :=
  negb (Z.testbit kEnableTurboBoostBits i) || Z.testbit kDisableTurboBoostBits i.

(** The bits a ProcHot operation may change: those set by the enable mask or
    cleared by the disable mask. *)
Definition inProcHotMask {hdr : Header} (i : Z) : bool :=
  Z.testbit kEnableProcHotBit i || negb (Z.testbit kDisableProcHotBit i).

(** Every register but HWP_REQUEST. *)
Definition notHwpRequest (a : Z) : bool := negb (a =? MSR_IA32_HWP_REQUEST).

(** ** Example runs *)

Definition speedShiftFile : string := "/tmp/CPUTune/SpeedShift".
Definition turboBoostFile : string := "/tmp/CPUTune/TurboBoost".
Definition procHotFile : string := "/tmp/CPUTune/ProcHot".
Definition hwpRequestFile : string := "/tmp/CPUTune/HWPRequest".

(** Only the SpeedShift source is configured; nothing is enabled at start. *)
Definition speedShiftDict : OSDictionary :=
  setProperty emptyDict "SpeedShiftAtRuntime" (OSString speedShiftFile).

(** The SpeedShift source reads 1, then 0, then 1. *)
Definition toggling : list FileSystem :=
  [oneFile speedShiftFile "1"; oneFile speedShiftFile "0";
   oneFile speedShiftFile "1"].

Definition togglingRun : CPUTune * Machine * list Event :=
  session (hdr := spec_header) hwpCpu (freshObject 2000 0) goodBoot speedShiftDict goodStart
    toggling (machineWith []).

(** TurboBoost and ProcHot are both enabled at start and both have a
    runtime source. *)
Definition turboProcHotDict : OSDictionary :=
  setProperty
    (setProperty
       (setProperty
          (setProperty emptyDict "ProcHotAtRuntime" (OSString procHotFile))
          "TurboBoostAtRuntime" (OSString turboBoostFile))
       "EnableTurboBoost" (OSBoolean true))
    "EnableProcHot" (OSBoolean true).

Definition turboProcHotMachine : Machine :=
  machineWith [(MSR_IA32_MISC_ENABLE, 0x850089); (MSR_IA32_POWER_CTL, 0x24005D)].

(** The driver after [init] and [start], before the first cycle. *)
Definition turboProcHotStarted : CPUTune * Machine * list Event :=
  session (hdr := spec_header) hwpCpu (freshObject 2000 0) goodBoot turboProcHotDict goodStart
    [] turboProcHotMachine.

(** The TurboBoost source asks for enabled, the ProcHot source for
    disabled. *)
Definition procHotOffFiles : FileSystem :=
  fun p =>
    if String.eqb p turboBoostFile then Some (bytes "1")
    else if String.eqb p procHotFile then Some (bytes "0")
    else None.

(** A processor that comes up with HWP already enabled in PM_ENABLE. *)
Definition hwpOnMachine : Machine := machineWith [(MSR_IA32_PM_ENABLE, 1)].

(** Only the HWP request source is configured. *)
Definition hwpRequestObject : CPUTune :=
  loadProperties (freshObject 2000 0)
    (setProperty emptyDict "HWPRequestConfigPath" (OSString hwpRequestFile)).

(** The shape shared by every place where the engine writes a register:
    read it, hand the value just read and the desired value [f cur] to
    [setIfNotEqual], then continue with the flag. *)
Definition readThenSet {A} (msr : Z) (f : Z -> Z)
  (k : bool -> M A) : M A :=
  cur <- rdmsr64 msr ;; changed <- setIfNotEqual cur (f cur) msr ;; k changed.

Definition isTimerEvent (e : Event) : bool :=
  match e with
  | EvSetTimeoutMS _ | EvCancelTimeout => true
  | _ => false
  end.

Definition notTimerEvent (e : Event) : bool := negb (isTimerEvent e).

(** ** Further vocabulary for traces and machines *)

(** The registers read by a trace, oldest first. *)
Fixpoint reads (t : list Event) : list Z :=
  match t with
  | [] => []
  | EvRdmsr a _ :: rest => a :: reads rest
  | _ :: rest => reads rest
  end.

(** The five registers the driver manages. *)
Definition managed (a : Z) : bool :=
  (a =? MSR_IA32_MISC_ENABLE) || (a =? MSR_IA32_POWER_CTL) ||
  (a =? MSR_IA32_PERF_CTL) || (a =? MSR_IA32_PM_ENABLE) ||
  (a =? MSR_IA32_HWP_REQUEST).

(** The computation leaves the timer as it found it. *)
Definition KeepsTimer {A} (c : M A) : Prop :=
  forall m, timer (machine (c m)) = timer m.

(** Every register holds a 64-bit value. *)
Definition InRange (m : Machine) : Prop :=
  forall a, 0 <= msrs m a < two64.

(** The masks of the header are 64-bit values. *)
Definition HeaderInRange {hdr : Header} : Prop :=
  (0 <= kEnableTurboBoostBits < two64) /\
  (0 <= kDisableTurboBoostBits < two64) /\
  (0 <= kEnableProcHotBit < two64) /\
  (0 <= kDisableProcHotBit < two64) /\
  (0 <= kEnableSpeedShiftBit < two64) /\
  (0 <= kDisableSpeedShiftBit < two64).

(** Whether the one byte a boolean feature reads from its source asks for
    the feature to be enabled. *)
Definition requested (fs : FileSystem) (path : string) : bool :=
  requestsEnable (option_map (firstn 1) (fs path)).

(** ** The blocks of a cycle as functions on register values

    Each block changes one register; these give the value that register
    holds afterwards, from the values the block reads. *)

Definition turboBoostNext {hdr : Header} (this : CPUTune) (fs : FileSystem)
  (cur : Z) : Z :=
  match turboBoostPath this with
  | Some path =>
      let prev :=
        cur =? Z.land (org_MSR_IA32_MISC_ENABLE this) kEnableTurboBoostBits in
      let curr := requested fs path in
      if negb (Bool.eqb curr prev) then
        if curr then Z.land cur kEnableTurboBoostBits
        else Z.lor cur kDisableTurboBoostBits
      else cur
  | None => cur
  end.

Definition procHotNext {hdr : Header} (this : CPUTune) (fs : FileSystem)
  (misc cur : Z) : Z :=
  match ProcHotPath this with
  | Some path =>
      let prev := negb (Z.land cur kEnableProcHotBit =? 0) in
      let curr := requested fs path in
      if negb (Bool.eqb curr prev) then
        if curr then Z.lor cur kEnableProcHotBit
        else if negb (Z.land misc kEnableTurboBoostBits =? kEnableTurboBoostBits)
             then Z.land cur kDisableProcHotBit
             else cur
      else cur
  | None => cur
  end.

Definition hwpRequestNext {hdr : Header} (cpu_info : CPUInfo) (this : CPUTune)
  (fs : FileSystem) (cur : Z) : Z :=
  match hwpRequested cpu_info this fs with
  | Some v => v
  | None => cur
  end.

Definition speedShiftNext {hdr : Header} (cpu_info : CPUInfo) (this : CPUTune)
  (fs : FileSystem) (cur : Z) : Z :=
  if negb (hwpEnableOnceSet this) && supportedHWP cpu_info then
    match speedShiftPath this with
    | Some path =>
        let prev := cur =? kEnableSpeedShiftBit in
        let curr := requested fs path in
        if nonNull (fs path) && negb (Bool.eqb curr prev) then
          if curr then kEnableSpeedShiftBit else kDisableSpeedShiftBit
        else cur
    | None => cur
    end
  else cur.

(** Run from [m], the computation leaves [reg] holding [v], leaves every
    other register alone, and writes exactly when [v] is a new value. *)
Definition ActsAt {A} (reg v : Z) (c : M A) (m : Machine) : Prop :=
  (forall a, msrs (machine (c m)) a = if a =? reg then v else msrs m a) /\
  filter isWrite (events (c m)) =
    if msrs m reg =? v then [] else [EvWrmsr reg v].

(** The event accesses neither register [a] nor register [b]. *)
Definition avoids (a b : Z) (e : Event) : bool :=
  match e with
  | EvRdmsr x _ | EvWrmsr x _ => negb (x =? a) && negb (x =? b)
  | _ => true
  end.

(** * Properties *)

(** ** The monad *)

Lemma events_bind {A B} (c : M A) (k : A -> M B) (m : Machine) :
  events (bind c k m) = events (c m) ++ events (k (value (c m)) (machine (c m))).
Proof.
  unfold bind, events, value, machine.
  destruct (c m) as [[a m1] t1]; simpl.
  destruct (k a m1) as [[b m2] t2]; reflexivity.
Qed.

Lemma machine_bind {A B} (c : M A) (k : A -> M B) (m : Machine) :
  machine (bind c k m) = machine (k (value (c m)) (machine (c m))).
Proof.
  unfold bind, events, value, machine.
  destruct (c m) as [[a m1] t1]; simpl.
  destruct (k a m1) as [[b m2] t2]; reflexivity.
Qed.

Lemma value_bind {A B} (c : M A) (k : A -> M B) (m : Machine) :
  value (bind c k m) = value (k (value (c m)) (machine (c m))).
Proof.
  unfold bind, events, value, machine.
  destruct (c m) as [[a m1] t1]; simpl.
  destruct (k a m1) as [[b m2] t2]; reflexivity.
Qed.

(** ** Traces *)

Lemma writes_to_app (msr : Z) (t1 t2 : list Event) :
  writes_to msr (t1 ++ t2) = writes_to msr t1 ++ writes_to msr t2.
Proof.
  induction t1 as [|e t1 IH]; simpl; [reflexivity|].
  destruct e; try exact IH.
  destruct (msr0 =? msr); simpl; now rewrite IH.
Qed.

Lemma count_writes_app (t1 t2 : list Event) :
  count_writes (t1 ++ t2) = (count_writes t1 + count_writes t2)%nat.
Proof. unfold count_writes. now rewrite filter_app, length_app. Qed.

Lemma writes_to_nil_iff (msr : Z) (t : list Event) :
  writes_to msr t = [] <-> forall v, ~ In (EvWrmsr msr v) t.
Proof.
  induction t as [|e t IH]; simpl.
  - split; [intros _ v []|reflexivity].
  - destruct e as [a c|a w| | | | | | | |];
      try (rewrite IH; split; [intros H v [E|E]; [discriminate|exact (H v E)]
                              |intros H v E; exact (H v (or_intror E))]).
    destruct (a =? msr) eqn:E.
    + apply Z.eqb_eq in E; subst a. split; [discriminate|].
      intros H. exfalso. exact (H w (or_introl eq_refl)).
    + apply Z.eqb_neq in E. rewrite IH. split.
      * intros H v [X|X]; [congruence|exact (H v X)].
      * intros H v X. exact (H v (or_intror X)).
Qed.

Lemma checked_weaken (p : option Event) (t : list Event) :
  checked None t = true -> checked p t = true.
Proof.
  destruct t as [|e t]; simpl; [reflexivity|].
  destruct e; simpl; try (intros H; exact H). discriminate.
Qed.

Lemma checked_app (p : option Event) (t1 t2 : list Event) :
  checked p t1 = true -> checked None t2 = true -> checked p (t1 ++ t2) = true.
Proof.
  revert p. induction t1 as [|e t1 IH]; intros p H1 H2; simpl in *.
  - now apply checked_weaken.
  - apply andb_true_iff in H1 as [Ha Hb].
    rewrite Ha; simpl. now apply IH.
Qed.

Lemma checked_sound (t : list Event) (p : option Event) :
  checked p t = true ->
  forall pre a v post,
    t = pre ++ EvWrmsr a v :: post ->
    (pre = [] /\ exists c, p = Some (EvRdmsr a c) /\ c <> v) \/
    (exists pre' c, pre = pre' ++ [EvRdmsr a c] /\ c <> v).
Proof.
  revert p. induction t as [|e t IH]; intros p H pre a v post E.
  - destruct pre; discriminate.
  - simpl in H. apply andb_true_iff in H as [Hh Ht].
    destruct pre as [|e' pre]; simpl in E; injection E as E1 E2.
    + subst e t. left. split; [reflexivity|].
      destruct p as [[a' c| | | | | | | | |]|]; try discriminate.
      apply andb_true_iff in Hh as [Ha Hc].
      apply Z.eqb_eq in Ha; subst a'.
      exists c. split; [reflexivity|].
      apply negb_true_iff, Z.eqb_neq in Hc. exact Hc.
    + subst e'. right.
      destruct (IH _ Ht pre a v post E2) as [[Hp [c [Hc Hne]]]|[pre' [c [Hp Hne]]]].
      * subst pre. injection Hc as Hc. subst e.
        exists [], c. split; [reflexivity|exact Hne].
      * subst pre. exists (e :: pre'), c. split; [reflexivity|exact Hne].
Qed.

Lemma checked_read_before_write (t : list Event) :
  checked None t = true -> read_before_write t.
Proof.
  intros H pre a v post E.
  destruct (checked_sound t None H pre a v post E) as [[_ [c [Hc _]]]|Hr].
  - discriminate.
  - exact Hr.
Qed.

(** ** Every write follows a read of the same register *)

Lemma Disciplined_ret {A} (a : A) : Disciplined (ret a).
Proof. intros m; reflexivity. Qed.

Lemma Disciplined_emit (e : Event) : isWrite e = false -> Disciplined (emit e).
Proof. intros H m; destruct e; try reflexivity; discriminate. Qed.

Lemma Disciplined_myLOG (msg : string) : Disciplined (myLOG msg).
Proof. intros m; reflexivity. Qed.

Lemma Disciplined_rdmsr64 (msr : Z) : Disciplined (rdmsr64 msr).
Proof. intros m; reflexivity. Qed.

Lemma Disciplined_setTimeoutMS (ms : Z) : Disciplined (setTimeoutMS ms).
Proof. intros m; reflexivity. Qed.

Lemma Disciplined_cancelTimeout : Disciplined cancelTimeout.
Proof. intros m; reflexivity. Qed.

Lemma Disciplined_readFileNBytes fs path off n :
  Disciplined (readFileNBytes fs path off n).
Proof. intros m; reflexivity. Qed.

Lemma Disciplined_bind {A B} (c : M A) (k : A -> M B) :
  Disciplined c -> (forall a, Disciplined (k a)) -> Disciplined (bind c k).
Proof.
  intros Hc Hk m. rewrite events_bind.
  apply checked_app; [apply Hc|apply Hk].
Qed.

(** The one pattern through which the engine writes: read the register,
    then hand the value just read to [setIfNotEqual]. *)
Lemma Disciplined_read_then_set {A} (msr : Z) (f : Z -> Z) (k : bool -> M A) :
  (forall b, Disciplined (k b)) ->
  Disciplined (cur <- rdmsr64 msr ;; changed <- setIfNotEqual cur (f cur) msr ;; k changed).
Proof.
  intros Hk m.
  rewrite events_bind, events_bind.
  unfold setIfNotEqual.
  change (value (rdmsr64 msr m)) with (msrs m msr).
  change (machine (rdmsr64 msr m)) with m.
  change (events (rdmsr64 msr m)) with [EvRdmsr msr (msrs m msr)].
  destruct (msrs m msr =? f (msrs m msr)) eqn:E; cbn [negb].
  - change (checked (Some (EvRdmsr msr (msrs m msr))) (events (k false m)) = true).
    apply checked_weaken, (Hk false).
  - rewrite events_bind.
    cbn [wrmsr64 ret events value machine fst snd app checked].
    rewrite Z.eqb_refl, E. cbn [negb andb].
    apply checked_weaken, (Hk true).
Qed.

Create HintDb discipline.

Ltac disciplined :=
  repeat first
    [ solve [auto with discipline nocore]
    | apply Disciplined_ret
    | apply Disciplined_myLOG
    | apply Disciplined_rdmsr64
    | apply Disciplined_setTimeoutMS
    | apply Disciplined_cancelTimeout
    | apply Disciplined_readFileNBytes
    | apply Disciplined_emit; reflexivity
    | apply Disciplined_bind; [|intros ?]
    | match goal with
      | |- Disciplined (if ?b then _ else _) => destruct b
      | |- Disciplined (match ?x with _ => _ end) => destruct x
      end ].

Section Discipline.

Context {hdr : Header}.
Variable cpu_info : CPUInfo.

Lemma Disciplined_enableTurboBoost : Disciplined enableTurboBoost.
Proof.
  apply (Disciplined_read_then_set MSR_IA32_MISC_ENABLE
           (fun cur => Z.land cur kEnableTurboBoostBits)).
  intros b; disciplined.
Qed.

Lemma Disciplined_disableTurboBoost : Disciplined disableTurboBoost.
Proof.
  apply (Disciplined_read_then_set MSR_IA32_MISC_ENABLE
           (fun cur => Z.lor cur kDisableTurboBoostBits)).
  intros b; disciplined.
Qed.

Lemma Disciplined_disableProcHot : Disciplined disableProcHot.
Proof.
  apply (Disciplined_read_then_set MSR_IA32_POWER_CTL
           (fun cur => Z.land cur kDisableProcHotBit)).
  intros b; disciplined.
Qed.

Lemma Disciplined_enableProcHot : Disciplined enableProcHot.
Proof.
  apply (Disciplined_read_then_set MSR_IA32_POWER_CTL
           (fun cur => Z.lor cur kEnableProcHotBit)).
  intros b; disciplined.
Qed.

Lemma Disciplined_enableSpeedShift : Disciplined enableSpeedShift.
Proof.
  apply (Disciplined_read_then_set MSR_IA32_PM_ENABLE
           (fun _ => kEnableSpeedShiftBit)).
  intros b; disciplined.
Qed.

Lemma Disciplined_disableSpeedShift : Disciplined disableSpeedShift.
Proof.
  apply (Disciplined_read_then_set MSR_IA32_PM_ENABLE
           (fun _ => kDisableSpeedShiftBit)).
  intros b; disciplined.
Qed.

Lemma Disciplined_restore msr org msg : Disciplined (restore msr org msg).
Proof.
  apply (Disciplined_read_then_set msr (fun _ => org)).
  intros b; disciplined.
Qed.

#[local] Hint Resolve Disciplined_enableTurboBoost Disciplined_disableTurboBoost
  Disciplined_disableProcHot Disciplined_enableProcHot
  Disciplined_enableSpeedShift Disciplined_disableSpeedShift
  Disciplined_restore : discipline.

Lemma Disciplined_init this benv dict : Disciplined (init this benv dict).
Proof. unfold init. disciplined. Qed.

Lemma Disciplined_start this senv : Disciplined (start cpu_info this senv).
Proof.
  unfold start, startTurboBoost, startProcHot, startSpeedShift.
  disciplined; auto with discipline.
Qed.

Lemma Disciplined_turboBoostAtRuntime this fs :
  Disciplined (turboBoostAtRuntime this fs).
Proof. unfold turboBoostAtRuntime. disciplined; auto with discipline. Qed.

Lemma Disciplined_procHotAtRuntime this fs :
  Disciplined (procHotAtRuntime this fs).
Proof. unfold procHotAtRuntime. disciplined; auto with discipline. Qed.

Lemma Disciplined_hwpRequestAtRuntime this fs :
  Disciplined (hwpRequestAtRuntime cpu_info this fs).
Proof.
  unfold hwpRequestAtRuntime.
  destruct (supportedHWP cpu_info); [|disciplined].
  destruct (hwpRequestConfigPath this); [|disciplined].
  apply Disciplined_bind; [disciplined|]. intros [h|]; [|disciplined].
  destruct (hexToInt h =? ERANGE); [disciplined|].
  apply (Disciplined_read_then_set MSR_IA32_HWP_REQUEST
           (fun _ => to_uint64 (hexToInt h))).
  intros b; disciplined.
Qed.

Lemma Disciplined_speedShiftAtRuntime this fs :
  Disciplined (speedShiftAtRuntime cpu_info this fs).
Proof. unfold speedShiftAtRuntime. disciplined; auto with discipline. Qed.

Lemma Disciplined_readConfigAtRuntime this fs :
  Disciplined (readConfigAtRuntime cpu_info this fs).
Proof.
  unfold readConfigAtRuntime.
  repeat (apply Disciplined_bind; [|intros ?]);
    auto using Disciplined_turboBoostAtRuntime, Disciplined_procHotAtRuntime,
      Disciplined_hwpRequestAtRuntime, Disciplined_speedShiftAtRuntime,
      Disciplined_setTimeoutMS.
Qed.

Lemma Disciplined_stop this : Disciplined (stop cpu_info this).
Proof. unfold stop. disciplined; auto with discipline. Qed.

Lemma Disciplined_cycles this fss : Disciplined (cycles cpu_info this fss).
Proof.
  induction fss as [|fs fss IH]; simpl.
  - apply Disciplined_ret.
  - apply Disciplined_bind; [apply Disciplined_readConfigAtRuntime|intros _; exact IH].
Qed.

Lemma Disciplined_lifetime this0 benv dict senv fss :
  Disciplined (lifetime cpu_info this0 benv dict senv fss).
Proof.
  unfold lifetime.
  apply Disciplined_bind; [apply Disciplined_init|intros r1].
  destruct (fst r1); [|apply Disciplined_ret].
  apply Disciplined_bind; [apply Disciplined_start|intros r2].
  destruct (fst r2 && timerSource (snd r2)); [|apply Disciplined_ret].
  apply Disciplined_bind; [apply Disciplined_cycles|intros _].
  apply Disciplined_bind; [apply Disciplined_stop|intros ?; apply Disciplined_ret].
Qed.

End Discipline.

(** ** Which registers an operation can write *)

Lemma Footprint_ret {A} W (a : A) : Footprint W (ret a).
Proof. intros m; split; [intros a' v []|reflexivity]. Qed.

Lemma Footprint_emit W (e : Event) : isWrite e = false -> Footprint W (emit e).
Proof.
  intros H m; split; [|reflexivity].
  intros a v [E|[]]. subst e. discriminate.
Qed.

Lemma Footprint_myLOG W (msg : string) : Footprint W (myLOG msg).
Proof. apply Footprint_emit; reflexivity. Qed.

Lemma Footprint_rdmsr64 W (msr : Z) : Footprint W (rdmsr64 msr).
Proof. intros m; split; [intros a v [E|[]]; discriminate|reflexivity]. Qed.

Lemma Footprint_setTimeoutMS W (ms : Z) : Footprint W (setTimeoutMS ms).
Proof. intros m; split; [intros a v [E|[]]; discriminate|reflexivity]. Qed.

Lemma Footprint_cancelTimeout W : Footprint W cancelTimeout.
Proof. intros m; split; [intros a v [E|[]]; discriminate|reflexivity]. Qed.

Lemma Footprint_readFileNBytes W fs path off n :
  Footprint W (readFileNBytes fs path off n).
Proof. intros m; split; [intros a v [E|[]]; discriminate|reflexivity]. Qed.

Lemma Footprint_wrmsr64 (W : Z -> bool) (msr value : Z) :
  W msr = true -> Footprint W (wrmsr64 msr value).
Proof.
  intros H m; split.
  - intros a v [E|[]]. injection E as -> _. exact H.
  - intros a Ha. cbn. destruct (a =? msr) eqn:E; [|reflexivity].
    apply Z.eqb_eq in E; subst a. congruence.
Qed.

Lemma Footprint_bind {A B} W (c : M A) (k : A -> M B) :
  Footprint W c -> (forall a, Footprint W (k a)) -> Footprint W (bind c k).
Proof.
  intros Hc Hk m. rewrite events_bind, machine_bind.
  destruct (Hc m) as [Hc1 Hc2].
  destruct (Hk (value (c m)) (machine (c m))) as [Hk1 Hk2].
  split.
  - intros a v Hin. apply in_app_or in Hin as [Hin|Hin]; eauto.
  - intros a Ha. rewrite Hk2, Hc2; auto.
Qed.

Lemma Footprint_no_writes {A} W (c : M A) (msr : Z) (m : Machine) :
  Footprint W c -> W msr = false -> writes_to msr (events (c m)) = [].
Proof.
  intros H Hs. apply writes_to_nil_iff. intros v Hin.
  destruct (H m) as [H1 _]. rewrite (H1 _ _ Hin) in Hs. discriminate.
Qed.

Lemma Footprint_preserves {A} W (c : M A) (msr : Z) (m : Machine) :
  Footprint W c -> W msr = false -> msrs (machine (c m)) msr = msrs m msr.
Proof. intros H Hs. destruct (H m) as [_ H2]. auto. Qed.

Create HintDb footprint.

Ltac footprint :=
  repeat first
    [ solve [auto with footprint nocore]
    | apply Footprint_ret
    | apply Footprint_myLOG
    | apply Footprint_rdmsr64
    | apply Footprint_setTimeoutMS
    | apply Footprint_cancelTimeout
    | apply Footprint_readFileNBytes
    | apply Footprint_emit; reflexivity
    | apply Footprint_wrmsr64; assumption
    | apply Footprint_bind; [|intros ?]
    | match goal with
      | |- Footprint _ (if ?b then _ else _) => destruct b
      | |- Footprint _ (match ?x with _ => _ end) => destruct x
      end ].

Section Footprints.

Context {hdr : Header}.
Variable cpu_info : CPUInfo.
Variable W : Z -> bool.

Lemma Footprint_setIfNotEqual cur expect msr :
  W msr = true -> Footprint W (setIfNotEqual cur expect msr).
Proof. intros H. unfold setIfNotEqual. footprint. Qed.

#[local] Hint Resolve Footprint_setIfNotEqual : footprint.

Lemma Footprint_enableTurboBoost :
  W MSR_IA32_MISC_ENABLE = true -> Footprint W enableTurboBoost.
Proof. intros H. unfold enableTurboBoost. footprint. Qed.

Lemma Footprint_disableTurboBoost :
  W MSR_IA32_MISC_ENABLE = true -> Footprint W disableTurboBoost.
Proof. intros H. unfold disableTurboBoost. footprint. Qed.

Lemma Footprint_disableProcHot :
  W MSR_IA32_POWER_CTL = true -> Footprint W disableProcHot.
Proof. intros H. unfold disableProcHot. footprint. Qed.

Lemma Footprint_enableProcHot :
  W MSR_IA32_POWER_CTL = true -> Footprint W enableProcHot.
Proof. intros H. unfold enableProcHot. footprint. Qed.

Lemma Footprint_enableSpeedShift :
  W MSR_IA32_PM_ENABLE = true -> Footprint W enableSpeedShift.
Proof. intros H. unfold enableSpeedShift. footprint. Qed.

Lemma Footprint_disableSpeedShift :
  W MSR_IA32_PM_ENABLE = true -> Footprint W disableSpeedShift.
Proof. intros H. unfold disableSpeedShift. footprint. Qed.

#[local] Hint Resolve Footprint_enableTurboBoost Footprint_disableTurboBoost
  Footprint_disableProcHot Footprint_enableProcHot
  Footprint_enableSpeedShift Footprint_disableSpeedShift : footprint.

Lemma Footprint_turboBoostAtRuntime this fs :
  W MSR_IA32_MISC_ENABLE = true -> Footprint W (turboBoostAtRuntime this fs).
Proof. intros H. unfold turboBoostAtRuntime. footprint. Qed.

Lemma Footprint_procHotAtRuntime this fs :
  W MSR_IA32_POWER_CTL = true -> Footprint W (procHotAtRuntime this fs).
Proof. intros H. unfold procHotAtRuntime. footprint. Qed.

Lemma Footprint_hwpRequestAtRuntime this fs :
  W MSR_IA32_HWP_REQUEST = true ->
  Footprint W (hwpRequestAtRuntime cpu_info this fs).
Proof. intros H. unfold hwpRequestAtRuntime. footprint. Qed.

Lemma Footprint_speedShiftAtRuntime this fs :
  W MSR_IA32_PM_ENABLE = true ->
  Footprint W (speedShiftAtRuntime cpu_info this fs).
Proof. intros H. unfold speedShiftAtRuntime. footprint. Qed.

(** A latched object, or a processor without HWP, keeps the SpeedShift block
    of a cycle silent: it touches no register at all. *)
Lemma Footprint_speedShiftAtRuntime_gated this fs :
  hwpEnableOnceSet this = true \/ supportedHWP cpu_info = false ->
  Footprint W (speedShiftAtRuntime cpu_info this fs).
Proof.
  intros H. unfold speedShiftAtRuntime.
  replace (negb (hwpEnableOnceSet this) && supportedHWP cpu_info) with false.
  - apply Footprint_ret.
  - destruct H as [-> | ->]; [reflexivity|now rewrite andb_false_r].
Qed.

Lemma Footprint_hwpRequestAtRuntime_unsupported this fs :
  supportedHWP cpu_info = false ->
  Footprint W (hwpRequestAtRuntime cpu_info this fs).
Proof. intros H. unfold hwpRequestAtRuntime. rewrite H. apply Footprint_ret. Qed.

End Footprints.

(** ** Read, compare, write *)

Section ReadThenSet.

Context {A : Type}.
Variable msr : Z.
Variable f : Z -> Z.
Variable k : bool -> M A.
Hypothesis k_machine : forall b m, machine (k b m) = m.
Hypothesis k_quiet : forall b m, filter isWrite (events (k b m)) = [].

Lemma read_then_set_msrs (m : Machine) (a : Z) :
  msrs (machine (readThenSet msr f k m)) a = if a =? msr then f (msrs m msr) else msrs m a.
Proof.
  unfold readThenSet. rewrite machine_bind, machine_bind, k_machine.
  unfold setIfNotEqual.
  change (value (rdmsr64 msr m)) with (msrs m msr).
  change (machine (rdmsr64 msr m)) with m.
  destruct (msrs m msr =? f (msrs m msr)) eqn:E; cbn [negb].
  - cbn. destruct (a =? msr) eqn:Ea; [|reflexivity].
    apply Z.eqb_eq in E, Ea. congruence.
  - rewrite machine_bind. reflexivity.
Qed.

Lemma read_then_set_writes (m : Machine) :
  filter isWrite (events (readThenSet msr f k m)) =
  if msrs m msr =? f (msrs m msr) then [] else [EvWrmsr msr (f (msrs m msr))].
Proof.
  unfold readThenSet. rewrite events_bind, events_bind, !filter_app, k_quiet, app_nil_r.
  unfold setIfNotEqual.
  change (value (rdmsr64 msr m)) with (msrs m msr).
  change (machine (rdmsr64 msr m)) with m.
  destruct (msrs m msr =? f (msrs m msr)); reflexivity.
Qed.

Lemma read_then_set_count (m : Machine) :
  count_writes (events (readThenSet msr f k m)) =
  if msrs m msr =? f (msrs m msr) then 0%nat else 1%nat.
Proof.
  unfold count_writes. rewrite read_then_set_writes.
  destruct (msrs m msr =? f (msrs m msr)); reflexivity.
Qed.

(** When the desired value is a fixed point of [f], a second run finds the
    register as it wants it. *)
Lemma read_then_set_again (m : Machine) :
  (forall x, f (f x) = f x) ->
  count_writes (events (readThenSet msr f k (machine (readThenSet msr f k m)))) = 0%nat.
Proof.
  intros Hf. rewrite read_then_set_count, read_then_set_msrs.
  rewrite Z.eqb_refl, Hf, Z.eqb_refl. reflexivity.
Qed.

Lemma read_then_set_twice (m : Machine) :
  (forall x, f (f x) = f x) ->
  count_writes (events (twice (readThenSet msr f k) m)) =
  if msrs m msr =? f (msrs m msr) then 0%nat else 1%nat.
Proof.
  intros Hf. unfold twice. rewrite events_bind, count_writes_app.
  rewrite read_then_set_again by exact Hf.
  rewrite read_then_set_count. apply Nat.add_0_r.
Qed.

End ReadThenSet.

Lemma log_either_machine (s1 s2 : string) (b : bool) (m : Machine) :
  machine ((if b then myLOG s1 else myLOG s2) m) = m.
Proof. destruct b; reflexivity. Qed.

Lemma log_either_quiet (s1 s2 : string) (b : bool) (m : Machine) :
  filter isWrite (events ((if b then myLOG s1 else myLOG s2) m)) = [].
Proof. destruct b; reflexivity. Qed.

Lemma log_or_skip_machine (s : string) (b : bool) (m : Machine) :
  machine ((if b then myLOG s else ret tt) m) = m.
Proof. destruct b; reflexivity. Qed.

Lemma log_or_skip_quiet (s : string) (b : bool) (m : Machine) :
  filter isWrite (events ((if b then myLOG s else ret tt) m)) = [].
Proof. destruct b; reflexivity. Qed.

Section Operations.

Context {hdr : Header}.

Lemma enableTurboBoost_msrs m a :
  msrs (machine (enableTurboBoost m)) a =
  if a =? MSR_IA32_MISC_ENABLE
  then Z.land (msrs m MSR_IA32_MISC_ENABLE) kEnableTurboBoostBits
  else msrs m a.
Proof.
  apply (read_then_set_msrs MSR_IA32_MISC_ENABLE
           (fun cur => Z.land cur kEnableTurboBoostBits)).
  apply log_either_machine.
Qed.

Lemma disableTurboBoost_msrs m a :
  msrs (machine (disableTurboBoost m)) a =
  if a =? MSR_IA32_MISC_ENABLE
  then Z.lor (msrs m MSR_IA32_MISC_ENABLE) kDisableTurboBoostBits
  else msrs m a.
Proof.
  apply (read_then_set_msrs MSR_IA32_MISC_ENABLE
           (fun cur => Z.lor cur kDisableTurboBoostBits)).
  apply log_either_machine.
Qed.

Lemma disableProcHot_msrs m a :
  msrs (machine (disableProcHot m)) a =
  if a =? MSR_IA32_POWER_CTL
  then Z.land (msrs m MSR_IA32_POWER_CTL) kDisableProcHotBit
  else msrs m a.
Proof.
  apply (read_then_set_msrs MSR_IA32_POWER_CTL
           (fun cur => Z.land cur kDisableProcHotBit)).
  apply log_either_machine.
Qed.

Lemma enableProcHot_msrs m a :
  msrs (machine (enableProcHot m)) a =
  if a =? MSR_IA32_POWER_CTL
  then Z.lor (msrs m MSR_IA32_POWER_CTL) kEnableProcHotBit
  else msrs m a.
Proof.
  apply (read_then_set_msrs MSR_IA32_POWER_CTL
           (fun cur => Z.lor cur kEnableProcHotBit)).
  apply log_either_machine.
Qed.

Lemma enableSpeedShift_msrs m a :
  msrs (machine (enableSpeedShift m)) a =
  if a =? MSR_IA32_PM_ENABLE then kEnableSpeedShiftBit else msrs m a.
Proof.
  apply (read_then_set_msrs MSR_IA32_PM_ENABLE (fun _ => kEnableSpeedShiftBit)).
  apply log_either_machine.
Qed.

Lemma disableSpeedShift_msrs m a :
  msrs (machine (disableSpeedShift m)) a =
  if a =? MSR_IA32_PM_ENABLE then kDisableSpeedShiftBit else msrs m a.
Proof.
  apply (read_then_set_msrs MSR_IA32_PM_ENABLE (fun _ => kDisableSpeedShiftBit)).
  apply log_either_machine.
Qed.

Lemma restore_msrs msr org msg m a :
  msrs (machine (restore msr org msg m)) a = if a =? msr then org else msrs m a.
Proof.
  apply (read_then_set_msrs msr (fun _ => org)).
  apply log_or_skip_machine.
Qed.

End Operations.

(** ** The HWP request block *)

Lemma writes_to_filter (msr : Z) (t : list Event) :
  writes_to msr (filter isWrite t) = writes_to msr t.
Proof.
  induction t as [|e t IH]; [reflexivity|].
  destruct e; simpl; try exact IH.
  destruct (msr0 =? msr); now rewrite IH.
Qed.

Section HwpRequest.

Context {hdr : Header}.
Variable cpu_info : CPUInfo.

Lemma hwpRequestAtRuntime_msrs this fs m a :
  msrs (machine (hwpRequestAtRuntime cpu_info this fs m)) a =
  match hwpRequested cpu_info this fs with
  | Some v => if a =? MSR_IA32_HWP_REQUEST then v else msrs m a
  | None => msrs m a
  end.
Proof.
  unfold hwpRequestAtRuntime, hwpRequested.
  destruct (supportedHWP cpu_info); [|reflexivity].
  destruct (hwpRequestConfigPath this) as [path|]; [|reflexivity].
  rewrite machine_bind. cbn [readFileNBytes value machine fst snd skipn].
  destruct (fs path) as [content|]; [|reflexivity]. cbn [option_map].
  destruct (hexToInt (firstn 10 content) =? ERANGE); [reflexivity|].
  apply (read_then_set_msrs MSR_IA32_HWP_REQUEST
           (fun _ => to_uint64 (hexToInt (firstn 10 content)))).
  apply log_or_skip_machine.
Qed.

Lemma hwpRequestAtRuntime_writes this fs m :
  filter isWrite (events (hwpRequestAtRuntime cpu_info this fs m)) =
  match hwpRequested cpu_info this fs with
  | Some v =>
      if msrs m MSR_IA32_HWP_REQUEST =? v then []
      else [EvWrmsr MSR_IA32_HWP_REQUEST v]
  | None => []
  end.
Proof.
  unfold hwpRequestAtRuntime, hwpRequested.
  destruct (supportedHWP cpu_info); [|reflexivity].
  destruct (hwpRequestConfigPath this) as [path|]; [|reflexivity].
  rewrite events_bind. cbn [readFileNBytes events value machine fst snd skipn].
  cbn [app filter isWrite].
  destruct (fs path) as [content|]; [|reflexivity]. cbn [option_map].
  destruct (hexToInt (firstn 10 content) =? ERANGE); [reflexivity|].
  apply (read_then_set_writes MSR_IA32_HWP_REQUEST
           (fun _ => to_uint64 (hexToInt (firstn 10 content)))).
  apply log_or_skip_quiet.
Qed.

Lemma readConfigAtRuntime_hwp_writes this fs m :
  writes_to MSR_IA32_HWP_REQUEST (events (readConfigAtRuntime cpu_info this fs m)) =
  match hwpRequested cpu_info this fs with
  | Some v => if msrs m MSR_IA32_HWP_REQUEST =? v then [] else [v]
  | None => []
  end.
Proof.
  unfold readConfigAtRuntime.
  rewrite events_bind, writes_to_app.
  rewrite (Footprint_no_writes notHwpRequest)
    by (try apply Footprint_turboBoostAtRuntime; reflexivity).
  rewrite events_bind, writes_to_app.
  rewrite (Footprint_no_writes notHwpRequest)
    by (try apply Footprint_procHotAtRuntime; reflexivity).
  rewrite events_bind, writes_to_app.
  rewrite events_bind, writes_to_app.
  rewrite (Footprint_no_writes notHwpRequest (speedShiftAtRuntime cpu_info this fs))
    by (try apply Footprint_speedShiftAtRuntime; reflexivity).
  cbn [app]. rewrite app_nil_r.
  rewrite <- writes_to_filter, hwpRequestAtRuntime_writes.
  rewrite (Footprint_preserves notHwpRequest (procHotAtRuntime this fs))
    by (try apply Footprint_procHotAtRuntime; reflexivity).
  rewrite (Footprint_preserves notHwpRequest (turboBoostAtRuntime this fs))
    by (try apply Footprint_turboBoostAtRuntime; reflexivity).
  destruct (hwpRequested cpu_info this fs) as [v|]; [|reflexivity].
  destruct (msrs m MSR_IA32_HWP_REQUEST =? v); [reflexivity|].
  cbn. reflexivity.
Qed.

Lemma readConfigAtRuntime_hwp_msrs this fs m :
  msrs (machine (readConfigAtRuntime cpu_info this fs m)) MSR_IA32_HWP_REQUEST =
  match hwpRequested cpu_info this fs with
  | Some v => v
  | None => msrs m MSR_IA32_HWP_REQUEST
  end.
Proof.
  unfold readConfigAtRuntime.
  rewrite !machine_bind. cbn [setTimeoutMS machine fst snd msrs].
  rewrite (Footprint_preserves notHwpRequest (speedShiftAtRuntime cpu_info this fs))
    by (try apply Footprint_speedShiftAtRuntime; reflexivity).
  rewrite hwpRequestAtRuntime_msrs.
  rewrite (Footprint_preserves notHwpRequest (procHotAtRuntime this fs))
    by (try apply Footprint_procHotAtRuntime; reflexivity).
  rewrite (Footprint_preserves notHwpRequest (turboBoostAtRuntime this fs))
    by (try apply Footprint_turboBoostAtRuntime; reflexivity).
  destruct (hwpRequested cpu_info this fs); reflexivity.
Qed.

End HwpRequest.

(** ** Bounded reads of the external sources *)

Lemma Emits_bind {A B} P (c : M A) (k : A -> M B) :
  Emits P c -> (forall a, Emits P (k a)) -> Emits P (bind c k).
Proof.
  intros Hc Hk m. rewrite events_bind, forallb_app, Hc, Hk. reflexivity.
Qed.

Lemma Emits_setIfNotEqual P current expect msr :
  P (EvWrmsr msr expect) = true ->
  Emits P (setIfNotEqual current expect msr).
Proof.
  intros H m. unfold setIfNotEqual.
  destruct (current =? expect); cbn; [reflexivity|now rewrite H].
Qed.

Ltac emits :=
  repeat first
    [ apply Emits_setIfNotEqual; reflexivity
    | apply Emits_bind; [|intros ?]
    | match goal with
      | |- Emits _ (if ?b then _ else _) => destruct b
      | |- Emits _ (match ?x with _ => _ end) => destruct x
      end
    | solve [intros ?; reflexivity] ].

Lemma readConfigAtRuntime_bounded_reads {hdr : Header} cpu_info this fs :
  Emits (readsAtMost 10) (readConfigAtRuntime cpu_info this fs).
Proof.
  unfold readConfigAtRuntime, turboBoostAtRuntime, procHotAtRuntime,
    hwpRequestAtRuntime, speedShiftAtRuntime.
  emits.
Qed.

Lemma readFileNBytes_length fs path off n m buffer :
  value (readFileNBytes fs path off n m) = Some buffer ->
  (List.length buffer <= n)%nat.
Proof.
  cbn. destruct (fs path) as [content|]; [|discriminate].
  cbn. intros E; injection E as <-. apply firstn_le_length.
Qed.

(** ** Properties of single operations *)

Lemma setIfNotEqual_spec current expect msr m :
  let r := setIfNotEqual current expect msr m in
  (value r = true <-> events r = [EvWrmsr msr expect]) /\
  (value r = false <-> events r = []) /\
  (value r = false <-> current = expect).
Proof.
  unfold setIfNotEqual.
  destruct (current =? expect) eqn:E; cbn.
  - apply Z.eqb_eq in E. repeat split; easy.
  - apply Z.eqb_neq in E. repeat split; easy.
Qed.

(** C4. Every write the engine performs during a process lifetime comes
    directly after a read of the same register that returned a different
    value; [setIfNotEqual] returns true exactly when it wrote, which is
    exactly when the value it was given differs from the desired one; and a
    cycle whose HWP request equals the current contents of HWP_REQUEST
    writes nothing to that register. *)
Theorem writes_follow_reads_and_skip_equal_values {hdr : Header} (cpu_info : CPUInfo) :
  (forall current expect msr m,
     let r := setIfNotEqual current expect msr m in
     (value r = true <-> events r = [EvWrmsr msr expect]) /\
     (value r = false <-> events r = []) /\
     (value r = false <-> current = expect)) /\
  (forall this0 benv dict senv fss m,
     read_before_write (events (lifetime cpu_info this0 benv dict senv fss m))) /\
  (forall this fs m path content,
     hwpRequestConfigPath this = Some path ->
     fs path = Some content ->
     to_uint64 (hexToInt (firstn 10 content)) = msrs m MSR_IA32_HWP_REQUEST ->
     writes_to MSR_IA32_HWP_REQUEST
       (events (readConfigAtRuntime cpu_info this fs m)) = []).
Proof.
  split; [|split].
  - intros. apply setIfNotEqual_spec.
  - intros. apply checked_read_before_write, Disciplined_lifetime.
  - intros this fs m path content Hp Hf Heq.
    rewrite readConfigAtRuntime_hwp_writes. unfold hwpRequested.
    rewrite Hp, Hf.
    destruct (supportedHWP cpu_info); [|reflexivity].
    destruct (hexToInt (firstn 10 content) =? ERANGE); [reflexivity|].
    rewrite Heq, Z.eqb_refl. reflexivity.
Qed.

Lemma cycle_blocks_leave_timer {hdr : Header} cpu_info this fs :
  Emits notTimerEvent (turboBoostAtRuntime this fs) /\
  Emits notTimerEvent (procHotAtRuntime this fs) /\
  Emits notTimerEvent (hwpRequestAtRuntime cpu_info this fs) /\
  Emits notTimerEvent (speedShiftAtRuntime cpu_info this fs).
Proof.
  unfold turboBoostAtRuntime, procHotAtRuntime, hwpRequestAtRuntime,
    speedShiftAtRuntime.
  repeat split; emits.
Qed.

(** C8. Whatever the configuration, the sources and the registers hold, a
    cycle runs to its end; its last act, and its only use of the timer, is
    to arm it with the interval currently stored in the object. *)
Theorem readConfigAtRuntime_completes_and_reschedules {hdr : Header}
  (cpu_info : CPUInfo) (this : CPUTune) (fs : FileSystem) (m : Machine) :
  exists t,
    events (readConfigAtRuntime cpu_info this fs m) =
      t ++ [EvSetTimeoutMS (updateInterval this)] /\
    forallb notTimerEvent t = true /\
    timer (machine (readConfigAtRuntime cpu_info this fs m)) =
      Some (updateInterval this).
Proof.
  destruct (cycle_blocks_leave_timer cpu_info this fs) as (H1 & H2 & H3 & H4).
  unfold readConfigAtRuntime.
  eexists. split; [|split].
  - rewrite !events_bind. cbn [setTimeoutMS events snd].
    rewrite !app_assoc. reflexivity.
  - rewrite !forallb_app, H1, H2, H3, H4. reflexivity.
  - rewrite !machine_bind. reflexivity.
Qed.

(** C10. [enableSpeedShift] leaves PM_ENABLE equal to [kEnableSpeedShiftBit]
    and [disableSpeedShift] leaves it equal to [kDisableSpeedShiftBit],
    whatever the register held: every bit of the result is a bit of the
    constant, none is taken from the prior value. *)
Theorem speedShift_replaces_whole_register {hdr : Header} (m : Machine) :
  msrs (machine (enableSpeedShift m)) MSR_IA32_PM_ENABLE = kEnableSpeedShiftBit /\
  msrs (machine (disableSpeedShift m)) MSR_IA32_PM_ENABLE = kDisableSpeedShiftBit /\
  (forall i,
     Z.testbit (msrs (machine (enableSpeedShift m)) MSR_IA32_PM_ENABLE) i =
       Z.testbit kEnableSpeedShiftBit i /\
     Z.testbit (msrs (machine (disableSpeedShift m)) MSR_IA32_PM_ENABLE) i =
       Z.testbit kDisableSpeedShiftBit i).
Proof.
  assert (He : msrs (machine (enableSpeedShift m)) MSR_IA32_PM_ENABLE = kEnableSpeedShiftBit)
    by (rewrite enableSpeedShift_msrs; reflexivity).
  assert (Hd : msrs (machine (disableSpeedShift m)) MSR_IA32_PM_ENABLE = kDisableSpeedShiftBit)
    by (rewrite disableSpeedShift_msrs; reflexivity).
  repeat split; auto; intros; congruence.
Qed.

(** C9. The TurboBoost operations change no bit of MISC_ENABLE outside the
    TurboBoost mask and the ProcHot operations change no bit of POWER_CTL
    outside the ProcHot mask; none of the four changes any other register. *)
Theorem feature_operations_preserve_unrelated_bits {hdr : Header}
  (m : Machine) (i : Z) :
  (inTurboBoostMask i = false ->
     Z.testbit (msrs (machine (enableTurboBoost m)) MSR_IA32_MISC_ENABLE) i =
       Z.testbit (msrs m MSR_IA32_MISC_ENABLE) i /\
     Z.testbit (msrs (machine (disableTurboBoost m)) MSR_IA32_MISC_ENABLE) i =
       Z.testbit (msrs m MSR_IA32_MISC_ENABLE) i) /\
  (inProcHotMask i = false ->
     Z.testbit (msrs (machine (enableProcHot m)) MSR_IA32_POWER_CTL) i =
       Z.testbit (msrs m MSR_IA32_POWER_CTL) i /\
     Z.testbit (msrs (machine (disableProcHot m)) MSR_IA32_POWER_CTL) i =
       Z.testbit (msrs m MSR_IA32_POWER_CTL) i) /\
  (forall a, a <> MSR_IA32_MISC_ENABLE ->
     msrs (machine (enableTurboBoost m)) a = msrs m a /\
     msrs (machine (disableTurboBoost m)) a = msrs m a) /\
  (forall a, a <> MSR_IA32_POWER_CTL ->
     msrs (machine (enableProcHot m)) a = msrs m a /\
     msrs (machine (disableProcHot m)) a = msrs m a).
Proof.
  repeat split.
  - rewrite enableTurboBoost_msrs. cbn [Z.eqb MSR_IA32_MISC_ENABLE Pos.eqb].
    unfold inTurboBoostMask in H. apply orb_false_iff in H as [H1 H2].
    apply negb_false_iff in H1.
    rewrite Z.land_spec, H1. apply andb_true_r.
  - rewrite disableTurboBoost_msrs. cbn [Z.eqb MSR_IA32_MISC_ENABLE Pos.eqb].
    unfold inTurboBoostMask in H. apply orb_false_iff in H as [H1 H2].
    rewrite Z.lor_spec, H2. apply orb_false_r.
  - rewrite enableProcHot_msrs. cbn [Z.eqb MSR_IA32_POWER_CTL Pos.eqb].
    unfold inProcHotMask in H. apply orb_false_iff in H as [H1 H2].
    rewrite Z.lor_spec, H1. apply orb_false_r.
  - rewrite disableProcHot_msrs. cbn [Z.eqb MSR_IA32_POWER_CTL Pos.eqb].
    unfold inProcHotMask in H. apply orb_false_iff in H as [H1 H2].
    apply negb_false_iff in H2.
    rewrite Z.land_spec, H2. apply andb_true_r.
  - rewrite enableTurboBoost_msrs. apply Z.eqb_neq in H. now rewrite H.
  - rewrite disableTurboBoost_msrs. apply Z.eqb_neq in H. now rewrite H.
  - rewrite enableProcHot_msrs. apply Z.eqb_neq in H. now rewrite H.
  - rewrite disableProcHot_msrs. apply Z.eqb_neq in H. now rewrite H.
Qed.

(** ** C7: running an enable operation twice *)

Section Idempotence.

Context {hdr : Header}.
Variable cpu_info : CPUInfo.

Lemma enableTurboBoost_twice m :
  count_writes (events (enableTurboBoost (machine (enableTurboBoost m)))) = 0%nat /\
  count_writes (events (twice enableTurboBoost m)) =
    if msrs m MSR_IA32_MISC_ENABLE =?
       Z.land (msrs m MSR_IA32_MISC_ENABLE) kEnableTurboBoostBits
    then 0%nat else 1%nat.
Proof.
  assert (Hf : forall x, Z.land (Z.land x kEnableTurboBoostBits) kEnableTurboBoostBits
                         = Z.land x kEnableTurboBoostBits)
    by (intros; now rewrite <- Z.land_assoc, Z.land_diag).
  split.
  - apply (read_then_set_again MSR_IA32_MISC_ENABLE
             (fun cur => Z.land cur kEnableTurboBoostBits));
      auto using log_either_machine, log_either_quiet.
  - apply (read_then_set_twice MSR_IA32_MISC_ENABLE
             (fun cur => Z.land cur kEnableTurboBoostBits));
      auto using log_either_machine, log_either_quiet.
Qed.

Lemma enableProcHot_twice m :
  count_writes (events (enableProcHot (machine (enableProcHot m)))) = 0%nat /\
  count_writes (events (twice enableProcHot m)) =
    if msrs m MSR_IA32_POWER_CTL =?
       Z.lor (msrs m MSR_IA32_POWER_CTL) kEnableProcHotBit
    then 0%nat else 1%nat.
Proof.
  assert (Hf : forall x, Z.lor (Z.lor x kEnableProcHotBit) kEnableProcHotBit
                         = Z.lor x kEnableProcHotBit)
    by (intros; now rewrite <- Z.lor_assoc, Z.lor_diag).
  split.
  - apply (read_then_set_again MSR_IA32_POWER_CTL
             (fun cur => Z.lor cur kEnableProcHotBit));
      auto using log_either_machine, log_either_quiet.
  - apply (read_then_set_twice MSR_IA32_POWER_CTL
             (fun cur => Z.lor cur kEnableProcHotBit));
      auto using log_either_machine, log_either_quiet.
Qed.

Lemma enableSpeedShift_twice m :
  count_writes (events (enableSpeedShift (machine (enableSpeedShift m)))) = 0%nat /\
  count_writes (events (twice enableSpeedShift m)) =
    if msrs m MSR_IA32_PM_ENABLE =? kEnableSpeedShiftBit
    then 0%nat else 1%nat.
Proof.
  split.
  - apply (read_then_set_again MSR_IA32_PM_ENABLE (fun _ => kEnableSpeedShiftBit));
      auto using log_either_machine, log_either_quiet.
  - apply (read_then_set_twice MSR_IA32_PM_ENABLE (fun _ => kEnableSpeedShiftBit));
      auto using log_either_machine, log_either_quiet.
Qed.

Lemma hwpRequestAtRuntime_twice this fs m :
  count_writes (events (hwpRequestAtRuntime cpu_info this fs
                          (machine (hwpRequestAtRuntime cpu_info this fs m)))) = 0%nat /\
  count_writes (events (twice (hwpRequestAtRuntime cpu_info this fs) m)) =
    match hwpRequested cpu_info this fs with
    | Some v => if msrs m MSR_IA32_HWP_REQUEST =? v then 0%nat else 1%nat
    | None => 0%nat
    end.
Proof.
  assert (H2 : count_writes (events (hwpRequestAtRuntime cpu_info this fs
                 (machine (hwpRequestAtRuntime cpu_info this fs m)))) = 0%nat).
  { unfold count_writes.
    rewrite hwpRequestAtRuntime_writes, hwpRequestAtRuntime_msrs.
    destruct (hwpRequested cpu_info this fs) as [v|]; [|reflexivity].
    cbn [Z.eqb MSR_IA32_HWP_REQUEST Pos.eqb]. now rewrite Z.eqb_refl. }
  split; [exact H2|].
  unfold twice. rewrite events_bind, count_writes_app, H2, Nat.add_0_r.
  unfold count_writes. rewrite hwpRequestAtRuntime_writes.
  destruct (hwpRequested cpu_info this fs) as [v|]; [|reflexivity].
  destruct (msrs m MSR_IA32_HWP_REQUEST =? v); reflexivity.
Qed.

End Idempotence.

(** C7, as the code has it. Running a feature's enable logic twice in a row
    writes the register at most once: the second run never writes, and the
    first writes exactly when the register did not already hold the value
    the feature wants. *)
Theorem enable_twice_writes_at_most_once {hdr : Header} (cpu_info : CPUInfo)
  (this : CPUTune) (fs : FileSystem) (m : Machine) :
  (count_writes (events (enableTurboBoost (machine (enableTurboBoost m)))) = 0%nat /\
   count_writes (events (twice enableTurboBoost m)) =
     if msrs m MSR_IA32_MISC_ENABLE =?
        Z.land (msrs m MSR_IA32_MISC_ENABLE) kEnableTurboBoostBits
     then 0%nat else 1%nat) /\
  (count_writes (events (enableProcHot (machine (enableProcHot m)))) = 0%nat /\
   count_writes (events (twice enableProcHot m)) =
     if msrs m MSR_IA32_POWER_CTL =?
        Z.lor (msrs m MSR_IA32_POWER_CTL) kEnableProcHotBit
     then 0%nat else 1%nat) /\
  (count_writes (events (enableSpeedShift (machine (enableSpeedShift m)))) = 0%nat /\
   count_writes (events (twice enableSpeedShift m)) =
     if msrs m MSR_IA32_PM_ENABLE =? kEnableSpeedShiftBit
     then 0%nat else 1%nat) /\
  (count_writes (events (hwpRequestAtRuntime cpu_info this fs
                           (machine (hwpRequestAtRuntime cpu_info this fs m)))) = 0%nat /\
   count_writes (events (twice (hwpRequestAtRuntime cpu_info this fs) m)) =
     match hwpRequested cpu_info this fs with
     | Some v => if msrs m MSR_IA32_HWP_REQUEST =? v then 0%nat else 1%nat
     | None => 0%nat
     end).
Proof.
  split; [exact (enableTurboBoost_twice m)|].
  split; [exact (enableProcHot_twice m)|].
  split; [exact (enableSpeedShift_twice m)|].
  exact (hwpRequestAtRuntime_twice cpu_info this fs m).
Qed.

(** C7, as the spec words it, fails where the feature is already enabled:
    with bit 38 of MISC_ENABLE clear, two runs of [enableTurboBoost] write
    nothing at all. *)
Lemma enable_twice_not_always_one_write :
  count_writes
    (events (twice (enableTurboBoost (hdr := spec_header))
               (machineWith [(MSR_IA32_MISC_ENABLE, 0x850089)]))) = 0%nat /\
  count_writes
    (events (twice (enableTurboBoost (hdr := spec_header))
               (machineWith [(MSR_IA32_MISC_ENABLE, 0x850089)]))) <> 1%nat.
Proof. split; [vm_compute; reflexivity|vm_compute; discriminate]. Qed.

(** ** C6: a malformed HWP request *)

Lemma In_events_bind_l {A B} (c : M A) (k : A -> M B) m e :
  In e (events (c m)) -> In e (events (bind c k m)).
Proof. intros H. rewrite events_bind. apply in_or_app. now left. Qed.

Lemma In_events_bind_r {A B} (c : M A) (k : A -> M B) m e :
  In e (events (k (value (c m)) (machine (c m)))) -> In e (events (bind c k m)).
Proof. intros H. rewrite events_bind. apply in_or_app. now right. Qed.

Section Malformed.

Context {hdr : Header}.
Variable cpu_info : CPUInfo.

Lemma hwpRequestAtRuntime_invalid this fs m path content :
  supportedHWP cpu_info = true ->
  hwpRequestConfigPath this = Some path ->
  fs path = Some content ->
  hexToInt (firstn 10 content) = ERANGE ->
  events (hwpRequestAtRuntime cpu_info this fs m) =
    [EvReadFile path 0 10;
     EvLog "%s: HWP Request %s is not a valid hexadecimal constant at %s"].
Proof.
  intros Hs Hp Hf He. unfold hwpRequestAtRuntime. rewrite Hs, Hp.
  rewrite events_bind. cbn [readFileNBytes events value machine fst snd skipn].
  rewrite Hf. cbn [option_map]. rewrite He. reflexivity.
Qed.

(** When [hexToInt] reports [ERANGE] for the bytes read, the cycle leaves
    HWP_REQUEST alone and logs the rejection. *)
Lemma readConfigAtRuntime_skips_invalid_request this fs m path content :
  hwpRequestConfigPath this = Some path ->
  fs path = Some content ->
  hexToInt (firstn 10 content) = ERANGE ->
  writes_to MSR_IA32_HWP_REQUEST
    (events (readConfigAtRuntime cpu_info this fs m)) = [] /\
  msrs (machine (readConfigAtRuntime cpu_info this fs m)) MSR_IA32_HWP_REQUEST =
    msrs m MSR_IA32_HWP_REQUEST /\
  (supportedHWP cpu_info = true ->
   In (EvLog "%s: HWP Request %s is not a valid hexadecimal constant at %s")
      (events (readConfigAtRuntime cpu_info this fs m))).
Proof.
  intros Hp Hf He.
  assert (Hr : hwpRequested cpu_info this fs = None).
  { unfold hwpRequested. rewrite Hp, Hf, He.
    destruct (supportedHWP cpu_info); reflexivity. }
  split; [|split].
  - rewrite readConfigAtRuntime_hwp_writes, Hr. reflexivity.
  - rewrite readConfigAtRuntime_hwp_msrs, Hr. reflexivity.
  - intros Hs. unfold readConfigAtRuntime.
    apply In_events_bind_r, In_events_bind_r, In_events_bind_l.
    rewrite (hwpRequestAtRuntime_invalid _ _ _ path content) by assumption.
    right; left; reflexivity.
Qed.

End Malformed.

Lemma spec_hexToInt_rejects (l : list byte) :
  SpecHeader.parseHex l = None \/
  (exists v, SpecHeader.parseHex l = Some v /\ SpecHeader.LONG_MAX < v) ->
  SpecHeader.hexToInt l = ERANGE.
Proof.
  unfold SpecHeader.hexToInt. intros [H|[v [H Hv]]]; rewrite H; [reflexivity|].
  destruct (v <=? SpecHeader.LONG_MAX) eqn:E; [|reflexivity].
  apply Z.leb_le in E. lia.
Qed.

(** C6. A cycle asks its sources for at most 10 bytes at a time and the
    buffer handed to the parser holds at most 10 bytes; when those bytes are
    not a hexadecimal integer, or the integer overflows, the cycle writes
    nothing to HWP_REQUEST, leaves its value as it was and logs the
    rejection. *)
Theorem malformed_hwp_request_is_skipped (cpu_info : CPUInfo) (this : CPUTune)
  (fs : FileSystem) (m : Machine) :
  forallb (readsAtMost 10)
    (events (readConfigAtRuntime (hdr := spec_header) cpu_info this fs m)) = true /\
  (forall path content,
     hwpRequestConfigPath this = Some path ->
     fs path = Some content ->
     (forall m' buffer,
        value (readFileNBytes fs path 0 10 m') = Some buffer ->
        (List.length buffer <= 10)%nat /\ buffer = firstn 10 content) /\
     (SpecHeader.parseHex (firstn 10 content) = None \/
      (exists v, SpecHeader.parseHex (firstn 10 content) = Some v /\
                 SpecHeader.LONG_MAX < v) ->
      writes_to MSR_IA32_HWP_REQUEST
        (events (readConfigAtRuntime (hdr := spec_header) cpu_info this fs m)) = [] /\
      msrs (machine (readConfigAtRuntime (hdr := spec_header) cpu_info this fs m))
        MSR_IA32_HWP_REQUEST = msrs m MSR_IA32_HWP_REQUEST /\
      (supportedHWP cpu_info = true ->
       In (EvLog "%s: HWP Request %s is not a valid hexadecimal constant at %s")
          (events (readConfigAtRuntime (hdr := spec_header) cpu_info this fs m))))).
Proof.
  split; [apply readConfigAtRuntime_bounded_reads|].
  intros path content Hp Hf. split.
  - intros m' buffer Hb. split; [exact (readFileNBytes_length _ _ _ _ _ _ Hb)|].
    cbn in Hb. rewrite Hf in Hb. cbn in Hb. now injection Hb as <-.
  - intros Hbad.
    apply (readConfigAtRuntime_skips_invalid_request cpu_info this fs m path content Hp Hf).
    apply spec_hexToInt_rejects, Hbad.
Qed.

(** The cycle of the spec's example: the HWP request source holds the text
    zzzz. *)
Lemma malformed_hwp_request_is_skipped_witness :
  writes_to MSR_IA32_HWP_REQUEST
    (events (readConfigAtRuntime (hdr := spec_header) hwpCpu hwpRequestObject
               (oneFile hwpRequestFile "zzzz")
               (machineWith [(MSR_IA32_HWP_REQUEST, 0x80003F08)]))) = [].
Proof.
  destruct (malformed_hwp_request_is_skipped hwpCpu hwpRequestObject
              (oneFile hwpRequestFile "zzzz")
              (machineWith [(MSR_IA32_HWP_REQUEST, 0x80003F08)])) as [_ H].
  destruct (H hwpRequestFile (bytes "zzzz") eq_refl eq_refl) as [_ H'].
  apply H'. left. reflexivity.
Defined.

(** The request of the spec's third scenario: the source holds 1A2B3C and
    the register already holds that value. *)
Lemma writes_follow_reads_and_skip_equal_values_witness :
  writes_to MSR_IA32_HWP_REQUEST
    (events (readConfigAtRuntime (hdr := spec_header) hwpCpu hwpRequestObject
               (oneFile hwpRequestFile "1A2B3C")
               (machineWith [(MSR_IA32_HWP_REQUEST, 0x1A2B3C)]))) = [].
Proof.
  destruct (writes_follow_reads_and_skip_equal_values (hdr := spec_header) hwpCpu)
    as [_ [_ H]].
  apply (H hwpRequestObject (oneFile hwpRequestFile "1A2B3C") _
           hwpRequestFile (bytes "1A2B3C")); vm_compute; reflexivity.
Defined.

(** ** C9: the masks of the concrete header *)

Lemma spec_header_masks (i : Z) :
  0 <= i < 64 ->
  inTurboBoostMask (hdr := spec_header) i = (i =? 38) /\
  inProcHotMask (hdr := spec_header) i = (i =? 0).
Proof.
  intros Hi.
  assert (H : forallb
                (fun n =>
                   Bool.eqb (inTurboBoostMask (hdr := spec_header) (Z.of_nat n))
                            (Z.of_nat n =? 38) &&
                   Bool.eqb (inProcHotMask (hdr := spec_header) (Z.of_nat n))
                            (Z.of_nat n =? 0))
                (seq 0 64) = true) by (vm_compute; reflexivity).
  rewrite forallb_forall in H.
  specialize (H (Z.to_nat i)).
  rewrite Z2Nat.id in H by lia.
  assert (Hin : In (Z.to_nat i) (seq 0 64)) by (apply in_seq; lia).
  apply H, andb_true_iff in Hin as [H1 H2].
  apply eqb_prop in H1, H2. now split.
Qed.

(** Bit 3 of MISC_ENABLE and of POWER_CTL lies outside both masks. *)
Lemma feature_operations_preserve_unrelated_bits_witness :
  (Z.testbit (msrs (machine (enableTurboBoost (hdr := spec_header) turboProcHotMachine))
                MSR_IA32_MISC_ENABLE) 3 = true /\
   Z.testbit (msrs (machine (disableTurboBoost (hdr := spec_header) turboProcHotMachine))
                MSR_IA32_MISC_ENABLE) 3 = true) /\
  (Z.testbit (msrs (machine (enableProcHot (hdr := spec_header) turboProcHotMachine))
                MSR_IA32_POWER_CTL) 3 = true /\
   Z.testbit (msrs (machine (disableProcHot (hdr := spec_header) turboProcHotMachine))
                MSR_IA32_POWER_CTL) 3 = true).
Proof.
  destruct (feature_operations_preserve_unrelated_bits (hdr := spec_header)
              turboProcHotMachine 3) as [H1 [H2 _]].
  split; [apply H1|apply H2]; reflexivity.
Defined.

(** ** C1: the SpeedShift latch at runtime *)

(** A latched object, or a processor without HWP, makes every cycle leave
    PM_ENABLE alone. *)
Lemma latched_cycle_leaves_PM_ENABLE {hdr : Header} cpu_info this fs m :
  hwpEnableOnceSet this = true \/ supportedHWP cpu_info = false ->
  writes_to MSR_IA32_PM_ENABLE (events (readConfigAtRuntime cpu_info this fs m)) = [].
Proof.
  intros H.
  apply (Footprint_no_writes (fun a => negb (a =? MSR_IA32_PM_ENABLE)));
    [|reflexivity].
  unfold readConfigAtRuntime.
  repeat (apply Footprint_bind; [|intros ?]).
  - apply Footprint_turboBoostAtRuntime; reflexivity.
  - apply Footprint_procHotAtRuntime; reflexivity.
  - apply Footprint_hwpRequestAtRuntime; reflexivity.
  - apply Footprint_speedShiftAtRuntime_gated; exact H.
  - apply Footprint_setTimeoutMS.
Qed.

(** [start] sets the latch when it enables SpeedShift. *)
Lemma startSpeedShift_latches {hdr : Header} cpu_info this m :
  supportedHWP cpu_info = true ->
  hwpEnableOnceSet this = false ->
  enableIntelSpeedShift this = true ->
  hwpEnableOnceSet (value (startSpeedShift cpu_info this m)) = true.
Proof.
  intros Hs Hl He. unfold startSpeedShift. rewrite Hs, Hl, He. cbn [negb andb].
  rewrite value_bind. reflexivity.
Qed.

(** C1 on the code. Starting unlatched with the SpeedShift source reading
    1, 0, 1 over three cycles, the engine writes PM_ENABLE in every cycle,
    the enable pattern twice, and the latch is still clear at the end: the
    runtime path calls [enableSpeedShift] without setting
    [hwpEnableOnceSet]. *)
Theorem runtime_speedShift_enable_is_not_latched :
  writes_to MSR_IA32_PM_ENABLE (events togglingRun) = [1; 0; 1] /\
  hwpEnableOnceSet (value togglingRun) = false.
Proof. split; vm_compute; reflexivity. Qed.

(** ** C2: the ProcHot guard *)

(** At startup the guard uses the configuration flag: with ProcHot not
    requested and TurboBoost requested, POWER_CTL is not even read. *)
Lemma startProcHot_guard {hdr : Header} this m :
  enableIntelProcHot this = false ->
  enableIntelTurboBoost this = true ->
  events (startProcHot this m) =
    [EvLog "start: cannot deactivate PROCHOT while turboboost is active!"] /\
  machine (startProcHot this m) = m.
Proof. intros Hp Ht. unfold startProcHot. rewrite Hp, Ht. split; reflexivity. Qed.

(** At runtime the guard compares MISC_ENABLE masked with
    [kEnableTurboBoostBits] against the mask itself.  Whenever the two
    differ, a disable request for an enabled ProcHot goes through. *)
Lemma procHotAtRuntime_disable_passes {hdr : Header} this fs m path :
  ProcHotPath this = Some path ->
  requestsEnable (value (readFileNBytes fs path 0 1 m)) = false ->
  Z.land (msrs m MSR_IA32_POWER_CTL) kEnableProcHotBit <> 0 ->
  Z.land (msrs m MSR_IA32_MISC_ENABLE) kEnableTurboBoostBits <> kEnableTurboBoostBits ->
  msrs (machine (procHotAtRuntime this fs m)) MSR_IA32_POWER_CTL =
    Z.land (msrs m MSR_IA32_POWER_CTL) kDisableProcHotBit.
Proof.
  intros Hp Hreq Hon Hguard.
  apply Z.eqb_neq in Hon, Hguard.
  unfold procHotAtRuntime. rewrite Hp.
  rewrite machine_bind. cbn [rdmsr64 value machine fst snd].
  rewrite machine_bind.
  change (machine (readFileNBytes fs path 0 1 m)) with m.
  rewrite Hreq, Hon. cbn [negb Bool.eqb].
  rewrite machine_bind. cbn [myLOG emit value machine fst snd].
  rewrite machine_bind. cbn [rdmsr64 value machine fst snd].
  rewrite Hguard. cbn [negb].
  rewrite disableProcHot_msrs. reflexivity.
Qed.

(** C2 on the code. TurboBoost was enabled at start and is enabled in
    MISC_ENABLE (bit 38 clear, the register equal to the masked original),
    ProcHot is enabled, and the ProcHot source asks for disabled: the cycle
    clears the ProcHot bit of POWER_CTL and logs no guard message.  The
    guard compares all of MISC_ENABLE's other bits with the mask instead of
    testing bit 38. *)
Theorem runtime_procHot_disabled_while_turbo_enabled :
  let this := value turboProcHotStarted in
  let m := machine turboProcHotStarted in
  let r := readConfigAtRuntime (hdr := spec_header) hwpCpu this procHotOffFiles m in
  (enableIntelTurboBoost this = true /\
   Z.testbit (msrs m MSR_IA32_MISC_ENABLE) 38 = false /\
   msrs m MSR_IA32_MISC_ENABLE =
     Z.land (org_MSR_IA32_MISC_ENABLE this) SpecHeader.kEnableTurboBoostBits /\
   Z.testbit (msrs m MSR_IA32_POWER_CTL) 0 = true) /\
  events r =
    [EvRdmsr MSR_IA32_MISC_ENABLE 0x850089;
     EvReadFile turboBoostFile 0 1;
     EvRdmsr MSR_IA32_POWER_CTL 0x24005D;
     EvReadFile procHotFile 0 1;
     EvLog "readConfigAtRunTime: %s Intel Proc Hot";
     EvRdmsr MSR_IA32_MISC_ENABLE 0x850089;
     EvRdmsr MSR_IA32_POWER_CTL 0x24005D;
     EvWrmsr MSR_IA32_POWER_CTL 0x24005C;
     EvLog "%s: change 0x%llx to 0x%llx in MSR_IA32_POWERCTL(0x%llx)";
     EvSetTimeoutMS 2000] /\
  Z.testbit (msrs (machine r) MSR_IA32_MISC_ENABLE) 38 = false /\
  Z.testbit (msrs (machine r) MSR_IA32_POWER_CTL) 0 = false.
Proof. repeat split; vm_compute; reflexivity. Qed.

(** ** C5: an absent source *)

(** The SpeedShift block does nothing when its source cannot be read. *)
Lemma speedShiftAtRuntime_absent_source {hdr : Header} cpu_info this fs m path :
  speedShiftPath this = Some path ->
  fs path = None ->
  filter isWrite (events (speedShiftAtRuntime cpu_info this fs m)) = [] /\
  machine (speedShiftAtRuntime cpu_info this fs m) = m.
Proof.
  intros Hp Hf. unfold speedShiftAtRuntime. rewrite Hp.
  destruct (negb (hwpEnableOnceSet this) && supportedHWP cpu_info);
    [|split; reflexivity].
  unfold bind, rdmsr64, readFileNBytes. rewrite Hf. split; reflexivity.
Qed.

(** C5 on the code. TurboBoost and ProcHot are enabled and neither source
    can be read: the cycle sets the TurboBoost disable bit in MISC_ENABLE
    and clears the ProcHot bit in POWER_CTL.  For these two features a null
    buffer counts as a request to disable; only the SpeedShift block tests
    the buffer before acting. *)
Theorem absent_source_disables_turbo_and_procHot :
  let this := value turboProcHotStarted in
  let m := machine turboProcHotStarted in
  let r := readConfigAtRuntime (hdr := spec_header) hwpCpu this noFiles m in
  events r =
    [EvRdmsr MSR_IA32_MISC_ENABLE 0x850089;
     EvReadFile turboBoostFile 0 1;
     EvLog "readConfigAtRuntime: %s Intel Turbo Boost";
     EvRdmsr MSR_IA32_MISC_ENABLE 0x850089;
     EvWrmsr MSR_IA32_MISC_ENABLE 0x4000850089;
     EvLog "%s: change 0x%llx to 0x%llx in MSR_IA32_MISC_ENABLE(0x%llx)";
     EvRdmsr MSR_IA32_POWER_CTL 0x24005D;
     EvReadFile procHotFile 0 1;
     EvLog "readConfigAtRunTime: %s Intel Proc Hot";
     EvRdmsr MSR_IA32_MISC_ENABLE 0x4000850089;
     EvRdmsr MSR_IA32_POWER_CTL 0x24005D;
     EvWrmsr MSR_IA32_POWER_CTL 0x24005C;
     EvLog "%s: change 0x%llx to 0x%llx in MSR_IA32_POWERCTL(0x%llx)";
     EvSetTimeoutMS 2000] /\
  count_writes (events r) = 2%nat /\
  Z.testbit (msrs m MSR_IA32_MISC_ENABLE) 38 = false /\
  Z.testbit (msrs (machine r) MSR_IA32_MISC_ENABLE) 38 = true.
Proof. repeat split; vm_compute; reflexivity. Qed.

(** ** C3: snapshot and restore *)

Section Restore.

Context {hdr : Header}.
Variable cpu_info : CPUInfo.


(** What a successful [init] stores: the four registers it reads, and
    nothing for PM_ENABLE, whose field keeps the value it had. *)
Lemma init_captures this benv dict m :
  fst (value (init this benv dict m)) = true ->
  let this1 := snd (value (init this benv dict m)) in
  org_MSR_IA32_MISC_ENABLE this1 = msrs m MSR_IA32_MISC_ENABLE /\
  org_MSR_IA32_PERF_CTL this1 = msrs m MSR_IA32_PERF_CTL /\
  org_MSR_IA32_POWER_CTL this1 = msrs m MSR_IA32_POWER_CTL /\
  org_HWPRequest this1 = msrs m MSR_IA32_HWP_REQUEST /\
  org_MSR_IA32_PM_ENABLE this1 = org_MSR_IA32_PM_ENABLE this.
Proof.
  unfold init.
  destruct benv as [ku bb kp bs bx bo si];
    cbn [kernelUnsupported bootargBeta kextPanicLastBoot bootargS bootargX
         bootargOff superInit].
  destruct ku, bb, kp, bs, bx, bo, si; try (cbn; discriminate);
    destruct (dict "UpdateInterval") as [[]|]; intros _; repeat split.
Qed.

Lemma startSpeedShift_originals this m :
  let this' := value (startSpeedShift cpu_info this m) in
  org_MSR_IA32_MISC_ENABLE this' = org_MSR_IA32_MISC_ENABLE this /\
  org_MSR_IA32_PERF_CTL this' = org_MSR_IA32_PERF_CTL this /\
  org_MSR_IA32_POWER_CTL this' = org_MSR_IA32_POWER_CTL this /\
  org_HWPRequest this' = org_HWPRequest this /\
  org_MSR_IA32_PM_ENABLE this' = org_MSR_IA32_PM_ENABLE this.
Proof.
  unfold startSpeedShift.
  destruct (supportedHWP cpu_info).
  - destruct (negb (hwpEnableOnceSet this) && enableIntelSpeedShift this).
    + rewrite value_bind. repeat split.
    + repeat split.
  - rewrite value_bind. repeat split.
Qed.

Lemma start_originals this senv m :
  let this' := snd (value (start cpu_info this senv m)) in
  org_MSR_IA32_MISC_ENABLE this' = org_MSR_IA32_MISC_ENABLE this /\
  org_MSR_IA32_PERF_CTL this' = org_MSR_IA32_PERF_CTL this /\
  org_MSR_IA32_POWER_CTL this' = org_MSR_IA32_POWER_CTL this /\
  org_HWPRequest this' = org_HWPRequest this /\
  org_MSR_IA32_PM_ENABLE this' = org_MSR_IA32_PM_ENABLE this.
Proof.
  unfold start.
  destruct (negb (superStart senv) || negb (providerPresent senv));
    [rewrite value_bind; repeat split|].
  rewrite value_bind.
  destruct (negb (timerSource (set_timerSource this (timerCreated senv))));
    [rewrite value_bind; repeat split|].
  destruct (negb (addEventSourceOk senv));
    [rewrite value_bind; repeat split|].
  rewrite !value_bind. cbn [ret value fst snd].
  apply (startSpeedShift_originals (set_timerSource this (timerCreated senv))).
Qed.

(** [stop] leaves each register it restores equal to the stored field. *)
Lemma stop_msrs this m :
  let m' := machine (stop cpu_info this m) in
  msrs m' MSR_IA32_POWER_CTL = org_MSR_IA32_POWER_CTL this /\
  msrs m' MSR_IA32_MISC_ENABLE = org_MSR_IA32_MISC_ENABLE this /\
  msrs m' MSR_IA32_PERF_CTL = org_MSR_IA32_PERF_CTL this /\
  (supportedHWP cpu_info = true ->
   msrs m' MSR_IA32_PM_ENABLE = org_MSR_IA32_PM_ENABLE this /\
   msrs m' MSR_IA32_HWP_REQUEST = org_HWPRequest this) /\
  (supportedHWP cpu_info = false ->
   msrs m' MSR_IA32_PM_ENABLE = msrs m MSR_IA32_PM_ENABLE /\
   msrs m' MSR_IA32_HWP_REQUEST = msrs m MSR_IA32_HWP_REQUEST).
Proof.
  assert (Hc : forall a,
             msrs (machine ((if timerSource this then cancelTimeout else ret tt) m)) a
             = msrs m a) by (intros; destruct (timerSource this); reflexivity).
  unfold stop. cbv zeta.
  rewrite !machine_bind. cbn [ret machine fst snd].
  destruct (supportedHWP cpu_info).
  - rewrite !machine_bind. rewrite !restore_msrs.
    repeat split; try discriminate; reflexivity.
  - cbn [ret machine fst snd]. rewrite !restore_msrs, !Hc.
    repeat split; try discriminate; reflexivity.
Qed.

End Restore.

(** C3 on the code. In a lifetime that ran to [stop] on a processor with
    HWP, MISC_ENABLE, POWER_CTL, PERF_CTL and HWP_REQUEST end at the values
    they had before [init]; PM_ENABLE ends at whatever the field
    [org_MSR_IA32_PM_ENABLE] held before [init], because [init] never
    stores the register in it. *)
Theorem stop_restores_all_but_PM_ENABLE {hdr : Header} (cpu_info : CPUInfo)
  (this0 : CPUTune) (benv : BootEnv) (dict : OSDictionary) (senv : StartEnv)
  (fss : list FileSystem) (m : Machine) :
  supportedHWP cpu_info = true ->
  value (lifetime cpu_info this0 benv dict senv fss m) <> None ->
  let m' := machine (lifetime cpu_info this0 benv dict senv fss m) in
  msrs m' MSR_IA32_MISC_ENABLE = msrs m MSR_IA32_MISC_ENABLE /\
  msrs m' MSR_IA32_POWER_CTL = msrs m MSR_IA32_POWER_CTL /\
  msrs m' MSR_IA32_PERF_CTL = msrs m MSR_IA32_PERF_CTL /\
  msrs m' MSR_IA32_HWP_REQUEST = msrs m MSR_IA32_HWP_REQUEST /\
  msrs m' MSR_IA32_PM_ENABLE = org_MSR_IA32_PM_ENABLE this0.
Proof.
  intros Hs. unfold lifetime.
  rewrite value_bind, machine_bind.
  pose proof (init_captures this0 benv dict m) as Hi.
  destruct (fst (value (init this0 benv dict m))); [|intros H; now elim H].
  specialize (Hi eq_refl). cbv zeta in Hi.
  destruct Hi as (I1 & I2 & I3 & I4 & I5).
  rewrite value_bind, machine_bind.
  set (this1 := snd (value (init this0 benv dict m))) in *.
  set (m1 := machine (init this0 benv dict m)).
  pose proof (start_originals cpu_info this1 senv m1) as Ho.
  cbv zeta in Ho. destruct Ho as (O1 & O2 & O3 & O4 & O5).
  set (r2 := value (start cpu_info this1 senv m1)) in *.
  destruct (fst r2 && timerSource (snd r2)); [|intros H; now elim H].
  intros _. cbv zeta.
  rewrite !machine_bind. cbn [ret machine fst snd].
  match goal with
  | |- context [stop cpu_info ?t ?mm] =>
      pose proof (stop_msrs cpu_info t mm) as Hstop
  end.
  cbv zeta in Hstop. destruct Hstop as (S1 & S2 & S3 & S4 & _).
  destruct (S4 Hs) as [S5 S6].
  rewrite S1, S2, S3, S5, S6, O1, O2, O3, O4, O5, I1, I2, I3, I4, I5.
  repeat split; reflexivity.
Qed.

(** A processor that comes up with PM_ENABLE = 1 leaves the lifetime with
    PM_ENABLE = 0, the field's value before [init]. *)
Lemma stop_restores_all_but_PM_ENABLE_witness :
  msrs hwpOnMachine MSR_IA32_PM_ENABLE = 1 /\
  msrs (machine (lifetime (hdr := spec_header) hwpCpu (freshObject 2000 0)
                   goodBoot emptyDict goodStart [] hwpOnMachine))
       MSR_IA32_PM_ENABLE = 0.
Proof.
  split; [reflexivity|].
  apply (stop_restores_all_but_PM_ENABLE (hdr := spec_header) hwpCpu
           (freshObject 2000 0) goodBoot emptyDict goodStart [] hwpOnMachine).
  - reflexivity.
  - vm_compute. discriminate.
Defined.

(** * Further properties of the code *)

(** ** The timer *)

Lemma KeepsTimer_ret {A} (a : A) : KeepsTimer (ret a).
Proof. intros m; reflexivity. Qed.

Lemma KeepsTimer_emit (e : Event) : KeepsTimer (emit e).
Proof. intros m; reflexivity. Qed.

Lemma KeepsTimer_rdmsr64 (msr : Z) : KeepsTimer (rdmsr64 msr).
Proof. intros m; reflexivity. Qed.

Lemma KeepsTimer_wrmsr64 (msr v : Z) : KeepsTimer (wrmsr64 msr v).
Proof. intros m; reflexivity. Qed.

Lemma KeepsTimer_readFileNBytes fs path off n :
  KeepsTimer (readFileNBytes fs path off n).
Proof. intros m; reflexivity. Qed.

Lemma KeepsTimer_bind {A B} (c : M A) (k : A -> M B) :
  KeepsTimer c -> (forall a, KeepsTimer (k a)) -> KeepsTimer (bind c k).
Proof. intros Hc Hk m. rewrite machine_bind, Hk, Hc. reflexivity. Qed.

Lemma KeepsTimer_setIfNotEqual current expect msr :
  KeepsTimer (setIfNotEqual current expect msr).
Proof.
  intros m. unfold setIfNotEqual. destruct (current =? expect); reflexivity.
Qed.

Ltac keeps_timer :=
  repeat first
    [ apply KeepsTimer_setIfNotEqual
    | apply KeepsTimer_ret
    | apply KeepsTimer_emit
    | apply KeepsTimer_rdmsr64
    | apply KeepsTimer_wrmsr64
    | apply KeepsTimer_readFileNBytes
    | apply KeepsTimer_bind; [|intros ?]
    | match goal with
      | |- KeepsTimer (if ?b then _ else _) => destruct b
      | |- KeepsTimer (match ?x with _ => _ end) => destruct x
      end ].

Lemma KeepsTimer_startTurboBoost {hdr : Header} this :
  KeepsTimer (startTurboBoost this).
Proof. unfold startTurboBoost. keeps_timer. Qed.

Lemma KeepsTimer_startProcHot {hdr : Header} this :
  KeepsTimer (startProcHot this).
Proof. unfold startProcHot. keeps_timer. Qed.

Lemma KeepsTimer_startSpeedShift {hdr : Header} cpu_info this :
  KeepsTimer (startSpeedShift cpu_info this).
Proof. unfold startSpeedShift. keeps_timer. Qed.

Lemma KeepsTimer_restore msr org msg : KeepsTimer (restore msr org msg).
Proof. unfold restore. keeps_timer. Qed.

(** ** [init] *)

Lemma reads_app (t1 t2 : list Event) : reads (t1 ++ t2) = reads t1 ++ reads t2.
Proof.
  induction t1 as [|e t1 IH]; [reflexivity|].
  destruct e; simpl; now rewrite ?IH.
Qed.

Ltac case_boot benv :=
  destruct benv as [ku bb kp bs bx bo si];
  cbn [kernelUnsupported bootargBeta kextPanicLastBoot bootargS bootargX
       bootargOff superInit];
  destruct ku, bb, kp, bs, bx, bo, si.

(** X1. [init] succeeds exactly when the kernel is supported or the beta
    boot argument is given, none of the three disabling boot arguments is
    present and the superclass initialised.  It never changes the machine;
    when it fails it returns the object as it got it and reads no register,
    and when it succeeds it reads MISC_ENABLE, PERF_CTL, POWER_CTL and
    HWP_REQUEST, in that order, and nothing else. *)
Theorem init_outcome (this : CPUTune) (benv : BootEnv)
  (dict : OSDictionary) (m : Machine) :
  let r := init this benv dict m in
  fst (value r) =
    negb (kernelUnsupported benv && negb (bootargBeta benv)) &&
    negb (bootargS benv || bootargX benv || bootargOff benv) &&
    superInit benv /\
  machine r = m /\
  reads (events r) =
    (if fst (value r)
     then [MSR_IA32_MISC_ENABLE; MSR_IA32_PERF_CTL; MSR_IA32_POWER_CTL;
           MSR_IA32_HWP_REQUEST]
     else []) /\
  (fst (value r) = false -> snd (value r) = this).
Proof.
  unfold init. case_boot benv;
    try (repeat split; fail);
    destruct (dict "UpdateInterval") as [[]|]; repeat split; discriminate.
Qed.

(** A boot with the disabling boot argument. *)
Lemma init_outcome_witness :
  snd (value (init (freshObject 2000 0)
                {| kernelUnsupported := false; bootargBeta := false;
                   kextPanicLastBoot := false; bootargS := false;
                   bootargX := false; bootargOff := true; superInit := true |}
                speedShiftDict (machineWith []))) = freshObject 2000 0.
Proof.
  apply (init_outcome (freshObject 2000 0)
           {| kernelUnsupported := false; bootargBeta := false;
              kextPanicLastBoot := false; bootargS := false;
              bootargX := false; bootargOff := true; superInit := true |}
           speedShiftDict (machineWith [])).
  reflexivity.
Defined.

(** X2. [init] sets the NVRAM panic key exactly when the kernel is
    unsupported and the beta boot argument is absent, and clears it exactly
    when that is not the case and the key was found set from the last
    boot; it never does both. *)
Theorem init_panic_key (this : CPUTune) (benv : BootEnv)
  (dict : OSDictionary) (m : Machine) :
  let t := events (init this benv dict m) in
  (In EvSetKextPanicKey t <->
     kernelUnsupported benv && negb (bootargBeta benv) = true) /\
  (In EvClearKextPanicKey t <->
     negb (kernelUnsupported benv && negb (bootargBeta benv)) &&
     kextPanicLastBoot benv = true).
Proof.
  unfold init. case_boot benv;
    try (cbn; split; split; intros H; try discriminate; intuition discriminate);
    destruct (dict "UpdateInterval") as [[]|];
    cbn; split; split; intros H; try discriminate; intuition discriminate.
Qed.

Lemma init_success_value (this : CPUTune) (benv : BootEnv)
  (dict : OSDictionary) (m : Machine) :
  fst (value (init this benv dict m)) = true ->
  snd (value (init this benv dict m)) =
    storeOriginals (loadProperties this dict)
      (msrs m MSR_IA32_MISC_ENABLE) (msrs m MSR_IA32_PERF_CTL)
      (msrs m MSR_IA32_POWER_CTL) (msrs m MSR_IA32_HWP_REQUEST).
Proof.
  unfold init. case_boot benv; try (cbn; discriminate);
    destruct (dict "UpdateInterval") as [[]|]; reflexivity.
Qed.

(** X3. After a successful [init] the update interval is the UpdateInterval
    property reduced to 32 bits when that property is a number, hence a
    value in [0, 2^32), and the interval the object already had when the
    property is missing or of another type. *)
Theorem init_update_interval (this : CPUTune) (benv : BootEnv)
  (dict : OSDictionary) (m : Machine) :
  fst (value (init this benv dict m)) = true ->
  let this1 := snd (value (init this benv dict m)) in
  (forall n, dict "UpdateInterval" = Some (OSNumber n) ->
     updateInterval this1 = n mod two32 /\ 0 <= updateInterval this1 < two32) /\
  ((forall n, dict "UpdateInterval" <> Some (OSNumber n)) ->
     updateInterval this1 = updateInterval this).
Proof.
  intros H. cbv zeta. rewrite (init_success_value _ _ _ _ H).
  cbn [storeOriginals loadProperties updateInterval]. split.
  - intros n Hn. rewrite Hn. split; [reflexivity|].
    apply Z.mod_pos_bound. reflexivity.
  - intros Hn. destruct (dict "UpdateInterval") as [[s|b|n]|]; try reflexivity.
    now elim (Hn n).
Qed.

(** An interval of 2^32 + 500 ms is stored as 500 ms. *)
Lemma init_update_interval_witness :
  updateInterval
    (snd (value (init (freshObject 2000 0) goodBoot
                   (setProperty emptyDict "UpdateInterval" (OSNumber (two32 + 500)))
                   (machineWith [])))) = 500.
Proof.
  destruct (init_update_interval (freshObject 2000 0) goodBoot
              (setProperty emptyDict "UpdateInterval" (OSNumber (two32 + 500)))
              (machineWith []) eq_refl) as [H _].
  destruct (H (two32 + 500) eq_refl) as [H1 _].
  rewrite H1. reflexivity.
Defined.

(** X4. After a successful [init] each source path is set exactly when the
    property table holds a string under its key, and each feature flag is
    set exactly when the table holds the boolean true under its key: a
    missing property, or one of another type, leaves the path null and the
    flag clear. *)
Theorem init_reads_configuration (this : CPUTune) (benv : BootEnv)
  (dict : OSDictionary) (m : Machine) :
  fst (value (init this benv dict m)) = true ->
  let this1 := snd (value (init this benv dict m)) in
  (forall s, ProcHotPath this1 = Some s <->
             dict "ProcHotAtRuntime" = Some (OSString s)) /\
  (forall s, turboBoostPath this1 = Some s <->
             dict "TurboBoostAtRuntime" = Some (OSString s)) /\
  (forall s, speedShiftPath this1 = Some s <->
             dict "SpeedShiftAtRuntime" = Some (OSString s)) /\
  (forall s, hwpRequestConfigPath this1 = Some s <->
             dict "HWPRequestConfigPath" = Some (OSString s)) /\
  (enableIntelTurboBoost this1 = true <->
     dict "EnableTurboBoost" = Some (OSBoolean true)) /\
  (enableIntelProcHot this1 = true <->
     dict "EnableProcHot" = Some (OSBoolean true)) /\
  (enableIntelSpeedShift this1 = true <->
     dict "EnableSpeedShift" = Some (OSBoolean true)) /\
  (allowUnrestrictedFS this1 = true <->
     dict "AllowUnrestrictedFS" = Some (OSBoolean true)).
Proof.
  intros H. cbv zeta. rewrite (init_success_value _ _ _ _ H).
  cbn [storeOriginals loadProperties ProcHotPath turboBoostPath speedShiftPath
       hwpRequestConfigPath enableIntelTurboBoost enableIntelProcHot
       enableIntelSpeedShift allowUnrestrictedFS].
  unfold getStringPropertyOrElse, getBooleanOrElse.
  repeat split; intros;
    match goal with
    | |- context [dict ?k] => destruct (dict k) as [[?|[]|?]|]
    end; congruence.
Qed.

(** A table holding a number under a path key leaves that path null. *)
Lemma init_reads_configuration_witness :
  turboBoostPath
    (snd (value (init (freshObject 2000 0) goodBoot
                   (setProperty emptyDict "TurboBoostAtRuntime" (OSNumber 1))
                   (machineWith [])))) = None.
Proof.
  destruct (turboBoostPath _) as [s|] eqn:E; [|reflexivity].
  destruct (init_reads_configuration (freshObject 2000 0) goodBoot
              (setProperty emptyDict "TurboBoostAtRuntime" (OSNumber 1))
              (machineWith []) eq_refl) as (_ & H & _).
  apply (H s) in E. discriminate.
Defined.

(** ** A cycle without sources *)

(** X5. When no source path is configured a cycle touches no register and
    no file: all it does is arm the timer with the update interval. *)
Theorem readConfigAtRuntime_without_sources {hdr : Header} (cpu_info : CPUInfo)
  (this : CPUTune) (fs : FileSystem) (m : Machine) :
  turboBoostPath this = None ->
  ProcHotPath this = None ->
  hwpRequestConfigPath this = None ->
  speedShiftPath this = None ->
  events (readConfigAtRuntime cpu_info this fs m) =
    [EvSetTimeoutMS (updateInterval this)] /\
  msrs (machine (readConfigAtRuntime cpu_info this fs m)) = msrs m.
Proof.
  intros H1 H2 H3 H4.
  unfold readConfigAtRuntime, turboBoostAtRuntime, procHotAtRuntime,
    hwpRequestAtRuntime, speedShiftAtRuntime.
  rewrite H1, H2, H3, H4.
  destruct (supportedHWP cpu_info), (hwpEnableOnceSet this); split; reflexivity.
Qed.

(** The object as [init] leaves it when the property table is empty. *)
Lemma readConfigAtRuntime_without_sources_witness :
  events (readConfigAtRuntime (hdr := spec_header) hwpCpu
            (loadProperties (freshObject 750 0) emptyDict) noFiles
            turboProcHotMachine) = [EvSetTimeoutMS 750].
Proof.
  apply (readConfigAtRuntime_without_sources (hdr := spec_header) hwpCpu
           (loadProperties (freshObject 750 0) emptyDict) noFiles
           turboProcHotMachine); reflexivity.
Defined.

(** ** [start] *)

Section Start.

Context {hdr : Header}.
Variable cpu_info : CPUInfo.

Lemma startTurboBoost_msrs this m a :
  msrs (machine (startTurboBoost this m)) a =
  if a =? MSR_IA32_MISC_ENABLE then
    if enableIntelTurboBoost this
    then Z.land (msrs m MSR_IA32_MISC_ENABLE) kEnableTurboBoostBits
    else Z.lor (msrs m MSR_IA32_MISC_ENABLE) kDisableTurboBoostBits
  else msrs m a.
Proof.
  unfold startTurboBoost. destruct (enableIntelTurboBoost this).
  - apply enableTurboBoost_msrs.
  - apply disableTurboBoost_msrs.
Qed.

Lemma startProcHot_msrs this m a :
  msrs (machine (startProcHot this m)) a =
  if a =? MSR_IA32_POWER_CTL then
    if enableIntelProcHot this
    then Z.lor (msrs m MSR_IA32_POWER_CTL) kEnableProcHotBit
    else if negb (enableIntelTurboBoost this)
         then Z.land (msrs m MSR_IA32_POWER_CTL) kDisableProcHotBit
         else msrs m MSR_IA32_POWER_CTL
  else msrs m a.
Proof.
  unfold startProcHot. destruct (enableIntelProcHot this).
  - apply enableProcHot_msrs.
  - destruct (enableIntelTurboBoost this); cbn [negb].
    + cbn. destruct (a =? MSR_IA32_POWER_CTL) eqn:E; [|reflexivity].
      apply Z.eqb_eq in E. now subst.
    + apply disableProcHot_msrs.
Qed.

Lemma startSpeedShift_msrs this m a :
  msrs (machine (startSpeedShift cpu_info this m)) a =
  if a =? MSR_IA32_PM_ENABLE then
    if supportedHWP cpu_info && negb (hwpEnableOnceSet this) &&
       enableIntelSpeedShift this
    then kEnableSpeedShiftBit
    else msrs m MSR_IA32_PM_ENABLE
  else msrs m a.
Proof.
  assert (Hid : msrs m a =
                if a =? MSR_IA32_PM_ENABLE then msrs m MSR_IA32_PM_ENABLE
                else msrs m a).
  { destruct (a =? MSR_IA32_PM_ENABLE) eqn:E; [|reflexivity].
    apply Z.eqb_eq in E. now subst. }
  unfold startSpeedShift. destruct (supportedHWP cpu_info); cbn [andb].
  - destruct (negb (hwpEnableOnceSet this) && enableIntelSpeedShift this).
    + rewrite machine_bind. cbn [ret machine fst snd].
      apply enableSpeedShift_msrs.
    + exact Hid.
  - rewrite machine_bind. exact Hid.
Qed.

Lemma startSpeedShift_value this m :
  value (startSpeedShift cpu_info this m) =
  if supportedHWP cpu_info && negb (hwpEnableOnceSet this) &&
     enableIntelSpeedShift this
  then set_hwpEnableOnceSet this true
  else this.
Proof.
  unfold startSpeedShift. destruct (supportedHWP cpu_info); cbn [andb].
  - destruct (negb (hwpEnableOnceSet this) && enableIntelSpeedShift this).
    + rewrite value_bind. reflexivity.
    + reflexivity.
  - rewrite value_bind. reflexivity.
Qed.

Lemma start_msrs this senv m a :
  superStart senv = true -> providerPresent senv = true ->
  timerCreated senv = true -> addEventSourceOk senv = true ->
  msrs (machine (start cpu_info this senv m)) a =
  if a =? MSR_IA32_PM_ENABLE then
    if supportedHWP cpu_info && negb (hwpEnableOnceSet this) &&
       enableIntelSpeedShift this
    then kEnableSpeedShiftBit
    else msrs m MSR_IA32_PM_ENABLE
  else if a =? MSR_IA32_POWER_CTL then
    if enableIntelProcHot this
    then Z.lor (msrs m MSR_IA32_POWER_CTL) kEnableProcHotBit
    else if negb (enableIntelTurboBoost this)
         then Z.land (msrs m MSR_IA32_POWER_CTL) kDisableProcHotBit
         else msrs m MSR_IA32_POWER_CTL
  else if a =? MSR_IA32_MISC_ENABLE then
    if enableIntelTurboBoost this
    then Z.land (msrs m MSR_IA32_MISC_ENABLE) kEnableTurboBoostBits
    else Z.lor (msrs m MSR_IA32_MISC_ENABLE) kDisableTurboBoostBits
  else msrs m a.
Proof.
  intros H1 H2 H3 H4. unfold start. rewrite H1, H2, H4. cbn [negb orb].
  rewrite machine_bind. cbv zeta.
  cbn [set_timerSource timerSource]. rewrite H3. cbn [negb].
  rewrite !machine_bind. cbn [ret emit myLOG machine fst snd].
  rewrite startSpeedShift_msrs, !startProcHot_msrs, !startTurboBoost_msrs.
  cbn [set_timerSource hwpEnableOnceSet enableIntelSpeedShift
       enableIntelProcHot enableIntelTurboBoost].
  cbn [Z.eqb MSR_IA32_PM_ENABLE MSR_IA32_POWER_CTL MSR_IA32_MISC_ENABLE Pos.eqb].
  destruct (allowUnrestrictedFS this); reflexivity.
Qed.

Lemma start_value this senv m :
  superStart senv = true -> providerPresent senv = true ->
  timerCreated senv = true -> addEventSourceOk senv = true ->
  value (start cpu_info this senv m) =
    (true,
     if supportedHWP cpu_info && negb (hwpEnableOnceSet this) &&
        enableIntelSpeedShift this
     then set_hwpEnableOnceSet (set_timerSource this true) true
     else set_timerSource this true).
Proof.
  intros H1 H2 H3 H4. unfold start. rewrite H1, H2, H4. cbn [negb orb].
  rewrite value_bind. cbv zeta.
  cbn [set_timerSource timerSource]. rewrite H3. cbn [negb].
  rewrite !value_bind. cbn [ret value fst snd].
  rewrite startSpeedShift_value.
  cbn [set_timerSource hwpEnableOnceSet enableIntelSpeedShift].
  destruct (supportedHWP cpu_info && negb (hwpEnableOnceSet this) &&
            enableIntelSpeedShift this); reflexivity.
Qed.

Lemma start_timer this senv m :
  superStart senv = true -> providerPresent senv = true ->
  timerCreated senv = true -> addEventSourceOk senv = true ->
  timer (machine (start cpu_info this senv m)) = Some 2000.
Proof.
  intros H1 H2 H3 H4. unfold start. rewrite H1, H2, H4. cbn [negb orb].
  rewrite machine_bind. cbv zeta.
  cbn [set_timerSource timerSource]. rewrite H3. cbn [negb].
  rewrite !machine_bind. cbn [ret emit myLOG machine fst snd].
  rewrite KeepsTimer_startSpeedShift, KeepsTimer_startProcHot,
    KeepsTimer_startTurboBoost.
  reflexivity.
Qed.

End Start.

(** X6. [start] reports success when the superclass started and either the
    provider is null or the timer was created and added to the work loop;
    so a null provider after a successful superclass start is reported as
    success.  Unless all four conditions hold, [start] leaves every
    register and the timer alone and reads no register. *)
Theorem start_outcome {hdr : Header} (cpu_info : CPUInfo) (this : CPUTune)
  (senv : StartEnv) (m : Machine) :
  let r := start cpu_info this senv m in
  fst (value r) =
    superStart senv &&
    (negb (providerPresent senv) || (timerCreated senv && addEventSourceOk senv)) /\
  (superStart senv && providerPresent senv && timerCreated senv &&
   addEventSourceOk senv = false ->
   machine r = m /\ reads (events r) = [] /\ count_writes (events r) = 0%nat /\
   hwpEnableOnceSet (snd (value r)) = hwpEnableOnceSet this).
Proof.
  cbv zeta.
  destruct (superStart senv) eqn:H1, (providerPresent senv) eqn:H2,
    (timerCreated senv) eqn:H3, (addEventSourceOk senv) eqn:H4;
    try (unfold start; rewrite ?H1, ?H2, ?H3, ?H4; cbn [negb orb andb];
         cbv zeta; cbn [set_timerSource timerSource]; rewrite ?H3;
         cbn [negb];
         destruct (allowUnrestrictedFS this); repeat split; discriminate).
  split.
  - rewrite start_value by assumption. reflexivity.
  - discriminate.
Qed.

(** A null provider: success is reported and nothing is touched. *)
Lemma start_outcome_witness :
  fst (value (start (hdr := spec_header) hwpCpu (freshObject 2000 0)
                {| superStart := true; providerPresent := false;
                   timerCreated := true; addEventSourceOk := true |}
                turboProcHotMachine)) = true /\
  machine (start (hdr := spec_header) hwpCpu (freshObject 2000 0)
             {| superStart := true; providerPresent := false;
                timerCreated := true; addEventSourceOk := true |}
             turboProcHotMachine) = turboProcHotMachine.
Proof.
  destruct (start_outcome (hdr := spec_header) hwpCpu (freshObject 2000 0)
              {| superStart := true; providerPresent := false;
                 timerCreated := true; addEventSourceOk := true |}
              turboProcHotMachine) as [H1 H2].
  split; [exact H1|]. apply H2. reflexivity.
Defined.

(** X7. A [start] that gets past IOKit arms the timer with 2000 ms whatever
    update interval is configured, so the first cycle runs two seconds
    after start; it returns true and an object that owns the timer. *)
Theorem start_arms_timer {hdr : Header} (cpu_info : CPUInfo) (this : CPUTune)
  (senv : StartEnv) (m : Machine) :
  superStart senv = true -> providerPresent senv = true ->
  timerCreated senv = true -> addEventSourceOk senv = true ->
  let r := start cpu_info this senv m in
  timer (machine r) = Some 2000 /\
  fst (value r) = true /\
  timerSource (snd (value r)) = true /\
  updateInterval (snd (value r)) = updateInterval this.
Proof.
  intros H1 H2 H3 H4. cbv zeta.
  rewrite start_timer, start_value by assumption.
  destruct (supportedHWP cpu_info && negb (hwpEnableOnceSet this) &&
            enableIntelSpeedShift this); repeat split.
Qed.

(** An object configured for 100 ms cycles still starts with 2000 ms. *)
Lemma start_arms_timer_witness :
  timer (machine (start (hdr := spec_header) hwpCpu (freshObject 100 0)
                    goodStart turboProcHotMachine)) = Some 2000.
Proof.
  destruct (start_arms_timer (hdr := spec_header) hwpCpu (freshObject 100 0)
              goodStart turboProcHotMachine eq_refl eq_refl eq_refl eq_refl)
    as (H & _).
  exact H.
Defined.

(** X8. What a [start] that gets past IOKit does to the registers.
    MISC_ENABLE is masked with the enable mask when TurboBoost is requested
    and has the disable mask set otherwise.  POWER_CTL has the ProcHot bit
    set when ProcHot is requested, is masked with the disable mask when
    neither ProcHot nor TurboBoost is requested, and is left alone when
    only TurboBoost is.  PM_ENABLE becomes the enable pattern when the
    processor has HWP, the latch is clear and SpeedShift is requested, and
    is left alone otherwise.  No other register changes. *)
Theorem start_register_effects {hdr : Header} (cpu_info : CPUInfo)
  (this : CPUTune) (senv : StartEnv) (m : Machine) :
  superStart senv = true -> providerPresent senv = true ->
  timerCreated senv = true -> addEventSourceOk senv = true ->
  let m' := machine (start cpu_info this senv m) in
  msrs m' MSR_IA32_MISC_ENABLE =
    (if enableIntelTurboBoost this
     then Z.land (msrs m MSR_IA32_MISC_ENABLE) kEnableTurboBoostBits
     else Z.lor (msrs m MSR_IA32_MISC_ENABLE) kDisableTurboBoostBits) /\
  msrs m' MSR_IA32_POWER_CTL =
    (if enableIntelProcHot this
     then Z.lor (msrs m MSR_IA32_POWER_CTL) kEnableProcHotBit
     else if negb (enableIntelTurboBoost this)
          then Z.land (msrs m MSR_IA32_POWER_CTL) kDisableProcHotBit
          else msrs m MSR_IA32_POWER_CTL) /\
  msrs m' MSR_IA32_PM_ENABLE =
    (if supportedHWP cpu_info && negb (hwpEnableOnceSet this) &&
        enableIntelSpeedShift this
     then kEnableSpeedShiftBit
     else msrs m MSR_IA32_PM_ENABLE) /\
  (forall a, a <> MSR_IA32_MISC_ENABLE -> a <> MSR_IA32_POWER_CTL ->
             a <> MSR_IA32_PM_ENABLE -> msrs m' a = msrs m a).
Proof.
  intros H1 H2 H3 H4. cbv zeta. split; [|split; [|split]].
  - rewrite start_msrs by assumption. reflexivity.
  - rewrite start_msrs by assumption. reflexivity.
  - rewrite start_msrs by assumption. reflexivity.
  - intros a Ha Hb Hc. rewrite start_msrs by assumption.
    apply Z.eqb_neq in Ha, Hb, Hc. now rewrite Ha, Hb, Hc.
Qed.

(** TurboBoost requested, ProcHot not: POWER_CTL keeps its value. *)
Lemma start_register_effects_witness :
  msrs (machine (start (hdr := spec_header) hwpCpu
                   (loadProperties (freshObject 2000 0)
                      (setProperty emptyDict "EnableTurboBoost" (OSBoolean true)))
                   goodStart turboProcHotMachine))
       MSR_IA32_POWER_CTL = 0x24005D.
Proof.
  destruct (start_register_effects (hdr := spec_header) hwpCpu
              (loadProperties (freshObject 2000 0)
                 (setProperty emptyDict "EnableTurboBoost" (OSBoolean true)))
              goodStart turboProcHotMachine eq_refl eq_refl eq_refl eq_refl)
    as (_ & H & _).
  exact H.
Defined.

Lemma latched_cycles_leave_PM_ENABLE {hdr : Header} cpu_info this fss m :
  hwpEnableOnceSet this = true \/ supportedHWP cpu_info = false ->
  writes_to MSR_IA32_PM_ENABLE (events (cycles cpu_info this fss m)) = [].
Proof.
  intros H. revert m. induction fss as [|fs fss IH]; intros m; [reflexivity|].
  cbn [cycles]. rewrite events_bind, writes_to_app, IH.
  rewrite latched_cycle_leaves_PM_ENABLE by exact H. reflexivity.
Qed.

(** X9. When [start] enables SpeedShift (HWP processor, latch clear,
    SpeedShift requested) it returns a latched object, and with that object
    no run of cycles writes PM_ENABLE again, whatever the sources say. *)
Theorem start_latch_silences_cycles {hdr : Header} (cpu_info : CPUInfo)
  (this : CPUTune) (senv : StartEnv) (m : Machine)
  (fss : list FileSystem) (m' : Machine) :
  superStart senv = true -> providerPresent senv = true ->
  timerCreated senv = true -> addEventSourceOk senv = true ->
  supportedHWP cpu_info = true ->
  hwpEnableOnceSet this = false ->
  enableIntelSpeedShift this = true ->
  let this' := snd (value (start cpu_info this senv m)) in
  hwpEnableOnceSet this' = true /\
  msrs (machine (start cpu_info this senv m)) MSR_IA32_PM_ENABLE =
    kEnableSpeedShiftBit /\
  writes_to MSR_IA32_PM_ENABLE (events (cycles cpu_info this' fss m')) = [].
Proof.
  intros H1 H2 H3 H4 Hs Hl He. cbv zeta.
  assert (L : hwpEnableOnceSet (snd (value (start cpu_info this senv m))) = true).
  { rewrite start_value by assumption. rewrite Hs, Hl, He. reflexivity. }
  split; [exact L|split].
  - rewrite start_msrs by assumption. rewrite Hs, Hl, He. reflexivity.
  - apply latched_cycles_leave_PM_ENABLE. left. exact L.
Qed.

(** SpeedShift enabled at start, then the source toggles 1, 0, 1. *)
Lemma start_latch_silences_cycles_witness :
  writes_to MSR_IA32_PM_ENABLE
    (events (cycles (hdr := spec_header) hwpCpu
               (snd (value (start (hdr := spec_header) hwpCpu
                              (loadProperties (freshObject 2000 0)
                                 (setProperty speedShiftDict "EnableSpeedShift"
                                    (OSBoolean true)))
                              goodStart (machineWith []))))
               toggling (machineWith [(MSR_IA32_PM_ENABLE, 1)]))) = [].
Proof.
  destruct (start_latch_silences_cycles (hdr := spec_header) hwpCpu
              (loadProperties (freshObject 2000 0)
                 (setProperty speedShiftDict "EnableSpeedShift" (OSBoolean true)))
              goodStart (machineWith []) toggling
              (machineWith [(MSR_IA32_PM_ENABLE, 1)])
              eq_refl eq_refl eq_refl eq_refl eq_refl eq_refl eq_refl)
    as (_ & _ & H).
  exact H.
Defined.

(** ** The blocks of a cycle, one register each *)

Lemma ActsAt_quiet {A} (reg : Z) (c : M A) (m : Machine) :
  machine (c m) = m ->
  filter isWrite (events (c m)) = [] ->
  ActsAt reg (msrs m reg) c m.
Proof.
  intros Hm Hq. split.
  - intros a. rewrite Hm. destruct (a =? reg) eqn:E; [|reflexivity].
    apply Z.eqb_eq in E. now subst.
  - rewrite Hq, Z.eqb_refl. reflexivity.
Qed.

Lemma ActsAt_bind_quiet {A B} (reg v : Z) (c : M A) (k : A -> M B) (m : Machine) :
  machine (c m) = m ->
  filter isWrite (events (c m)) = [] ->
  ActsAt reg v (k (value (c m))) m ->
  ActsAt reg v (bind c k) m.
Proof.
  intros Hm Hq [H1 H2]. split.
  - intros a. rewrite machine_bind, Hm. apply H1.
  - rewrite events_bind, filter_app, Hq, Hm. exact H2.
Qed.

Lemma ActsAt_readThenSet {A} (msr : Z) (f : Z -> Z) (k : bool -> M A) (m : Machine) :
  (forall b m', machine (k b m') = m') ->
  (forall b m', filter isWrite (events (k b m')) = []) ->
  ActsAt msr (f (msrs m msr)) (readThenSet msr f k) m.
Proof.
  intros Hk1 Hk2. split.
  - intros a. now apply read_then_set_msrs.
  - now apply read_then_set_writes.
Qed.

Ltac acts_quiet := apply ActsAt_bind_quiet; [reflexivity|reflexivity|].

Section Blocks.

Context {hdr : Header}.
Variable cpu_info : CPUInfo.

Lemma ActsAt_enableTurboBoost m :
  ActsAt MSR_IA32_MISC_ENABLE
    (Z.land (msrs m MSR_IA32_MISC_ENABLE) kEnableTurboBoostBits)
    enableTurboBoost m.
Proof.
  apply (ActsAt_readThenSet MSR_IA32_MISC_ENABLE
           (fun cur => Z.land cur kEnableTurboBoostBits));
    auto using log_either_machine, log_either_quiet.
Qed.

Lemma ActsAt_disableTurboBoost m :
  ActsAt MSR_IA32_MISC_ENABLE
    (Z.lor (msrs m MSR_IA32_MISC_ENABLE) kDisableTurboBoostBits)
    disableTurboBoost m.
Proof.
  apply (ActsAt_readThenSet MSR_IA32_MISC_ENABLE
           (fun cur => Z.lor cur kDisableTurboBoostBits));
    auto using log_either_machine, log_either_quiet.
Qed.

Lemma ActsAt_enableProcHot m :
  ActsAt MSR_IA32_POWER_CTL
    (Z.lor (msrs m MSR_IA32_POWER_CTL) kEnableProcHotBit) enableProcHot m.
Proof.
  apply (ActsAt_readThenSet MSR_IA32_POWER_CTL
           (fun cur => Z.lor cur kEnableProcHotBit));
    auto using log_either_machine, log_either_quiet.
Qed.

Lemma ActsAt_disableProcHot m :
  ActsAt MSR_IA32_POWER_CTL
    (Z.land (msrs m MSR_IA32_POWER_CTL) kDisableProcHotBit) disableProcHot m.
Proof.
  apply (ActsAt_readThenSet MSR_IA32_POWER_CTL
           (fun cur => Z.land cur kDisableProcHotBit));
    auto using log_either_machine, log_either_quiet.
Qed.

Lemma ActsAt_enableSpeedShift m :
  ActsAt MSR_IA32_PM_ENABLE kEnableSpeedShiftBit enableSpeedShift m.
Proof.
  apply (ActsAt_readThenSet MSR_IA32_PM_ENABLE (fun _ => kEnableSpeedShiftBit));
    auto using log_either_machine, log_either_quiet.
Qed.

Lemma ActsAt_disableSpeedShift m :
  ActsAt MSR_IA32_PM_ENABLE kDisableSpeedShiftBit disableSpeedShift m.
Proof.
  apply (ActsAt_readThenSet MSR_IA32_PM_ENABLE (fun _ => kDisableSpeedShiftBit));
    auto using log_either_machine, log_either_quiet.
Qed.

Lemma ActsAt_turboBoostAtRuntime this fs m :
  ActsAt MSR_IA32_MISC_ENABLE
    (turboBoostNext this fs (msrs m MSR_IA32_MISC_ENABLE))
    (turboBoostAtRuntime this fs) m.
Proof.
  unfold turboBoostAtRuntime, turboBoostNext.
  destruct (turboBoostPath this) as [path|];
    [|apply ActsAt_quiet; reflexivity].
  acts_quiet. cbn [rdmsr64 value fst snd].
  acts_quiet.
  change (value (readFileNBytes fs path 0 1 m))
    with (option_map (firstn 1) (fs path)).
  fold (requested fs path). cbv zeta.
  destruct (negb (Bool.eqb (requested fs path)
              (msrs m MSR_IA32_MISC_ENABLE =?
               Z.land (org_MSR_IA32_MISC_ENABLE this) kEnableTurboBoostBits))).
  - acts_quiet. destruct (requested fs path).
    + apply ActsAt_enableTurboBoost.
    + apply ActsAt_disableTurboBoost.
  - apply ActsAt_quiet; reflexivity.
Qed.

Lemma ActsAt_procHotAtRuntime this fs m :
  ActsAt MSR_IA32_POWER_CTL
    (procHotNext this fs (msrs m MSR_IA32_MISC_ENABLE) (msrs m MSR_IA32_POWER_CTL))
    (procHotAtRuntime this fs) m.
Proof.
  unfold procHotAtRuntime, procHotNext.
  destruct (ProcHotPath this) as [path|];
    [|apply ActsAt_quiet; reflexivity].
  acts_quiet. cbn [rdmsr64 value fst snd].
  acts_quiet.
  change (value (readFileNBytes fs path 0 1 m))
    with (option_map (firstn 1) (fs path)).
  fold (requested fs path). cbv zeta.
  destruct (negb (Bool.eqb (requested fs path)
              (negb (Z.land (msrs m MSR_IA32_POWER_CTL) kEnableProcHotBit =? 0)))).
  - acts_quiet. destruct (requested fs path).
    + apply ActsAt_enableProcHot.
    + acts_quiet. cbn [rdmsr64 value fst snd].
      destruct (negb (Z.land (msrs m MSR_IA32_MISC_ENABLE) kEnableTurboBoostBits
                      =? kEnableTurboBoostBits)).
      * apply ActsAt_disableProcHot.
      * apply ActsAt_quiet; reflexivity.
  - apply ActsAt_quiet; reflexivity.
Qed.

Lemma ActsAt_speedShiftAtRuntime this fs m :
  ActsAt MSR_IA32_PM_ENABLE
    (speedShiftNext cpu_info this fs (msrs m MSR_IA32_PM_ENABLE))
    (speedShiftAtRuntime cpu_info this fs) m.
Proof.
  unfold speedShiftAtRuntime, speedShiftNext.
  destruct (negb (hwpEnableOnceSet this) && supportedHWP cpu_info);
    [|apply ActsAt_quiet; reflexivity].
  destruct (speedShiftPath this) as [path|];
    [|apply ActsAt_quiet; reflexivity].
  acts_quiet. cbn [rdmsr64 value fst snd].
  acts_quiet.
  change (value (readFileNBytes fs path 0 1 m))
    with (option_map (firstn 1) (fs path)).
  fold (requested fs path). cbv zeta.
  replace (nonNull (option_map (firstn 1) (fs path))) with (nonNull (fs path))
    by (destruct (fs path); reflexivity).
  destruct (nonNull (fs path) &&
            negb (Bool.eqb (requested fs path)
                    (msrs m MSR_IA32_PM_ENABLE =? kEnableSpeedShiftBit))).
  - acts_quiet. destruct (requested fs path).
    + apply ActsAt_enableSpeedShift.
    + apply ActsAt_disableSpeedShift.
  - apply ActsAt_quiet; reflexivity.
Qed.

Lemma ActsAt_hwpRequestAtRuntime this fs m :
  ActsAt MSR_IA32_HWP_REQUEST
    (hwpRequestNext cpu_info this fs (msrs m MSR_IA32_HWP_REQUEST))
    (hwpRequestAtRuntime cpu_info this fs) m.
Proof.
  unfold hwpRequestNext. split.
  - intros a. rewrite hwpRequestAtRuntime_msrs.
    destruct (hwpRequested cpu_info this fs); [reflexivity|].
    destruct (a =? MSR_IA32_HWP_REQUEST) eqn:E; [|reflexivity].
    apply Z.eqb_eq in E. now subst.
  - rewrite hwpRequestAtRuntime_writes.
    destruct (hwpRequested cpu_info this fs); [reflexivity|].
    now rewrite Z.eqb_refl.
Qed.

End Blocks.

(** ** What each block of a cycle does *)

(** X10. The TurboBoost block, when its source is configured, compares
    MISC_ENABLE with the original value masked by the enable mask.  A
    request to enable acts only when the two differ and leaves the register
    masked with the enable mask; anything else in the source (or no source
    data) acts only when the two are equal and sets the disable mask.  In
    the two remaining cases, among them a disable request arriving while
    the register differs from the masked original, the block writes
    nothing.  No other register changes. *)
Theorem turboBoostAtRuntime_contract {hdr : Header} (this : CPUTune)
  (fs : FileSystem) (m : Machine) (path : string) :
  turboBoostPath this = Some path ->
  let cur := msrs m MSR_IA32_MISC_ENABLE in
  let base := Z.land (org_MSR_IA32_MISC_ENABLE this) kEnableTurboBoostBits in
  let r := turboBoostAtRuntime this fs m in
  (requested fs path = true -> cur <> base ->
     msrs (machine r) MSR_IA32_MISC_ENABLE = Z.land cur kEnableTurboBoostBits) /\
  (requested fs path = false -> cur = base ->
     msrs (machine r) MSR_IA32_MISC_ENABLE = Z.lor cur kDisableTurboBoostBits) /\
  (requested fs path = true -> cur = base ->
     msrs (machine r) MSR_IA32_MISC_ENABLE = cur /\ count_writes (events r) = 0%nat) /\
  (requested fs path = false -> cur <> base ->
     msrs (machine r) MSR_IA32_MISC_ENABLE = cur /\ count_writes (events r) = 0%nat) /\
  (forall a, a <> MSR_IA32_MISC_ENABLE -> msrs (machine r) a = msrs m a).
Proof.
  intros Hp. cbv zeta.
  destruct (ActsAt_turboBoostAtRuntime this fs m) as [Hm Hw].
  unfold count_writes. rewrite Hw, !Hm. clear Hm Hw.
  unfold turboBoostNext. rewrite Hp. cbv zeta.
  cbn [Z.eqb MSR_IA32_MISC_ENABLE Pos.eqb].
  repeat apply conj.
  - intros -> Hne. apply Z.eqb_neq in Hne. now rewrite Hne.
  - intros -> He. apply Z.eqb_eq in He. now rewrite He.
  - intros -> He. apply Z.eqb_eq in He. rewrite He. cbn.
    now rewrite Z.eqb_refl.
  - intros -> Hne. apply Z.eqb_neq in Hne. rewrite Hne. cbn.
    now rewrite Z.eqb_refl.
  - intros a Ha.
    destruct (ActsAt_turboBoostAtRuntime this fs m) as [Hm _].
    rewrite Hm. apply Z.eqb_neq in Ha. now rewrite Ha.
Qed.

(** The spec's first scenario: the source holds 1 and MISC_ENABLE has the
    disable bit set. *)
Lemma turboBoostAtRuntime_contract_witness :
  msrs (machine (turboBoostAtRuntime (hdr := spec_header)
                   (value turboProcHotStarted) (oneFile turboBoostFile "1")
                   (machineWith [(MSR_IA32_MISC_ENABLE, 0x4000850089)])))
       MSR_IA32_MISC_ENABLE = 0x850089.
Proof.
  destruct (turboBoostAtRuntime_contract (hdr := spec_header)
              (value turboProcHotStarted) (oneFile turboBoostFile "1")
              (machineWith [(MSR_IA32_MISC_ENABLE, 0x4000850089)])
              turboBoostFile eq_refl) as (H & _).
  rewrite H; [reflexivity|reflexivity|vm_compute; discriminate].
Defined.

(** X11. The ProcHot block, when its source is configured.  A request to
    enable acts when the ProcHot bit is clear and sets it.  Any other
    source content acts when the bit is set: if MISC_ENABLE masked with the
    TurboBoost enable mask differs from that mask the register is masked
    with the ProcHot disable mask, and if it equals the mask the register
    is left alone and the refusal is logged.  In the other cases nothing
    is written.  No other register changes. *)
Theorem procHotAtRuntime_contract {hdr : Header} (this : CPUTune)
  (fs : FileSystem) (m : Machine) (path : string) :
  ProcHotPath this = Some path ->
  let cur := msrs m MSR_IA32_POWER_CTL in
  let misc := msrs m MSR_IA32_MISC_ENABLE in
  let r := procHotAtRuntime this fs m in
  (requested fs path = true -> Z.land cur kEnableProcHotBit = 0 ->
     msrs (machine r) MSR_IA32_POWER_CTL = Z.lor cur kEnableProcHotBit) /\
  (requested fs path = false -> Z.land cur kEnableProcHotBit <> 0 ->
   Z.land misc kEnableTurboBoostBits <> kEnableTurboBoostBits ->
     msrs (machine r) MSR_IA32_POWER_CTL = Z.land cur kDisableProcHotBit) /\
  (requested fs path = false -> Z.land cur kEnableProcHotBit <> 0 ->
   Z.land misc kEnableTurboBoostBits = kEnableTurboBoostBits ->
     msrs (machine r) MSR_IA32_POWER_CTL = cur /\
     count_writes (events r) = 0%nat /\
     In (EvLog "readConfigAtRuntime: Cannot disable PROCHOT while turboboost is active!")
        (events r)) /\
  (requested fs path = true -> Z.land cur kEnableProcHotBit <> 0 ->
     msrs (machine r) MSR_IA32_POWER_CTL = cur /\ count_writes (events r) = 0%nat) /\
  (requested fs path = false -> Z.land cur kEnableProcHotBit = 0 ->
     msrs (machine r) MSR_IA32_POWER_CTL = cur /\ count_writes (events r) = 0%nat) /\
  (forall a, a <> MSR_IA32_POWER_CTL -> msrs (machine r) a = msrs m a).
Proof.
  intros Hp. cbv zeta.
  destruct (ActsAt_procHotAtRuntime this fs m) as [Hm Hw].
  assert (Hlog :
    requested fs path = false ->
    Z.land (msrs m MSR_IA32_POWER_CTL) kEnableProcHotBit <> 0 ->
    Z.land (msrs m MSR_IA32_MISC_ENABLE) kEnableTurboBoostBits = kEnableTurboBoostBits ->
    In (EvLog "readConfigAtRuntime: Cannot disable PROCHOT while turboboost is active!")
       (events (procHotAtRuntime this fs m))).
  { intros Hr Hon Hg. apply Z.eqb_neq in Hon. apply Z.eqb_eq in Hg.
    unfold procHotAtRuntime. rewrite Hp.
    apply In_events_bind_r. cbn [rdmsr64 value machine fst snd].
    apply In_events_bind_r.
    change (value (readFileNBytes fs path 0 1 m))
      with (option_map (firstn 1) (fs path)).
    change (machine (readFileNBytes fs path 0 1 m)) with m.
    fold (requested fs path). rewrite Hr, Hon. cbn [negb Bool.eqb].
    apply In_events_bind_r. cbn [myLOG emit value machine fst snd].
    apply In_events_bind_r. cbn [rdmsr64 value machine fst snd].
    rewrite Hg. left. reflexivity. }
  unfold count_writes. rewrite Hw, !Hm. clear Hw.
  unfold procHotNext. rewrite Hp. cbv zeta.
  cbn [Z.eqb MSR_IA32_POWER_CTL Pos.eqb].
  repeat apply conj.
  - intros -> He. apply Z.eqb_eq in He. now rewrite He.
  - intros -> Hne Hg. apply Z.eqb_neq in Hne, Hg. now rewrite Hne, Hg.
  - intros Hr Hne Hg. split; [|split; [|now apply Hlog]].
    + rewrite Hr. apply Z.eqb_neq in Hne. apply Z.eqb_eq in Hg.
      now rewrite Hne, Hg.
    + rewrite Hr. apply Z.eqb_neq in Hne. apply Z.eqb_eq in Hg.
      rewrite Hne, Hg. cbn. now rewrite Z.eqb_refl.
  - intros -> Hne. apply Z.eqb_neq in Hne. rewrite Hne. cbn.
    now rewrite Z.eqb_refl.
  - intros -> He. apply Z.eqb_eq in He. rewrite He. cbn.
    now rewrite Z.eqb_refl.
  - intros a Ha. rewrite Hm. apply Z.eqb_neq in Ha. now rewrite Ha.
Qed.

(** ProcHot is off and the source asks for it. *)
Lemma procHotAtRuntime_contract_witness :
  msrs (machine (procHotAtRuntime (hdr := spec_header)
                   (value turboProcHotStarted) (oneFile procHotFile "1")
                   (machineWith [(MSR_IA32_POWER_CTL, 0x24005C)])))
       MSR_IA32_POWER_CTL = 0x24005D.
Proof.
  destruct (procHotAtRuntime_contract (hdr := spec_header)
              (value turboProcHotStarted) (oneFile procHotFile "1")
              (machineWith [(MSR_IA32_POWER_CTL, 0x24005C)])
              procHotFile eq_refl) as (H & _).
  rewrite H; reflexivity.
Defined.

(** X12. The SpeedShift block.  It touches nothing at all when the object
    is latched, the processor lacks HWP, no source is configured or the
    source cannot be read.  Otherwise a request to enable acts when
    PM_ENABLE differs from the enable pattern and stores that pattern, any
    other content acts when PM_ENABLE equals the enable pattern and stores
    the disable pattern, and in the remaining cases nothing is written.
    No other register changes. *)
Theorem speedShiftAtRuntime_contract {hdr : Header} (cpu_info : CPUInfo)
  (this : CPUTune) (fs : FileSystem) (m : Machine) :
  let cur := msrs m MSR_IA32_PM_ENABLE in
  let r := speedShiftAtRuntime cpu_info this fs m in
  (hwpEnableOnceSet this = true \/ supportedHWP cpu_info = false \/
   speedShiftPath this = None \/
   (exists path, speedShiftPath this = Some path /\ fs path = None) ->
     msrs (machine r) = msrs m /\ count_writes (events r) = 0%nat) /\
  (forall path content,
     hwpEnableOnceSet this = false -> supportedHWP cpu_info = true ->
     speedShiftPath this = Some path -> fs path = Some content ->
     (requested fs path = true -> cur <> kEnableSpeedShiftBit ->
        msrs (machine r) MSR_IA32_PM_ENABLE = kEnableSpeedShiftBit) /\
     (requested fs path = false -> cur = kEnableSpeedShiftBit ->
        msrs (machine r) MSR_IA32_PM_ENABLE = kDisableSpeedShiftBit) /\
     (Bool.eqb (requested fs path) (cur =? kEnableSpeedShiftBit) = true ->
        msrs (machine r) MSR_IA32_PM_ENABLE = cur /\
        count_writes (events r) = 0%nat)) /\
  (forall a, a <> MSR_IA32_PM_ENABLE -> msrs (machine r) a = msrs m a).
Proof.
  cbv zeta. split; [|split].
  - intros H. unfold speedShiftAtRuntime.
    destruct (negb (hwpEnableOnceSet this) && supportedHWP cpu_info) eqn:G;
      [|split; reflexivity].
    apply andb_true_iff in G as [G1 G2]. apply negb_true_iff in G1.
    destruct H as [H|[H|[H|[path [H1 H2]]]]]; try congruence.
    + rewrite H. split; reflexivity.
    + rewrite H1. unfold bind, rdmsr64, readFileNBytes. rewrite H2.
      split; reflexivity.
  - intros path content Hl Hs Hp Hf.
    destruct (ActsAt_speedShiftAtRuntime cpu_info this fs m) as [Hm Hw].
    unfold count_writes. rewrite Hw, !Hm. clear Hm Hw.
    unfold speedShiftNext. rewrite Hl, Hs, Hp, Hf. cbv zeta.
    cbn [negb andb nonNull Z.eqb MSR_IA32_PM_ENABLE Pos.eqb].
    repeat apply conj.
    + intros -> Hne. apply Z.eqb_neq in Hne. now rewrite Hne.
    + intros -> He. apply Z.eqb_eq in He. now rewrite He.
    + intros ->. cbn. now rewrite Z.eqb_refl.
  - intros a Ha.
    destruct (ActsAt_speedShiftAtRuntime cpu_info this fs m) as [Hm _].
    rewrite Hm. apply Z.eqb_neq in Ha. now rewrite Ha.
Qed.

(** An unlatched object whose SpeedShift source cannot be read. *)
Lemma speedShiftAtRuntime_contract_witness :
  count_writes
    (events (speedShiftAtRuntime (hdr := spec_header) hwpCpu
               (value togglingRun) noFiles hwpOnMachine)) = 0%nat.
Proof.
  destruct (speedShiftAtRuntime_contract (hdr := spec_header) hwpCpu
              (value togglingRun) noFiles hwpOnMachine) as (H & _).
  apply H. right; right; right. exists speedShiftFile. split; reflexivity.
Defined.

(** X13. The HWP request in a cycle.  On a processor with HWP, with the
    source configured and readable, a parse result other than [ERANGE]
    leaves HWP_REQUEST holding that result as an unsigned 64-bit value
    (a negative result wraps around), written once if it is new and not
    at all if the register already holds it. *)
Theorem readConfigAtRuntime_applies_hwp_request {hdr : Header}
  (cpu_info : CPUInfo) (this : CPUTune) (fs : FileSystem) (m : Machine)
  (path : string) (content : list byte) :
  supportedHWP cpu_info = true ->
  hwpRequestConfigPath this = Some path ->
  fs path = Some content ->
  hexToInt (firstn 10 content) <> ERANGE ->
  let v := hexToInt (firstn 10 content) mod two64 in
  let r := readConfigAtRuntime cpu_info this fs m in
  msrs (machine r) MSR_IA32_HWP_REQUEST = v /\
  0 <= v < two64 /\
  writes_to MSR_IA32_HWP_REQUEST (events r) =
    (if msrs m MSR_IA32_HWP_REQUEST =? v then [] else [v]).
Proof.
  intros Hs Hp Hf Hne. cbv zeta.
  assert (Hr : hwpRequested cpu_info this fs =
               Some (hexToInt (firstn 10 content) mod two64)).
  { unfold hwpRequested. rewrite Hs, Hp, Hf. apply Z.eqb_neq in Hne.
    now rewrite Hne. }
  rewrite readConfigAtRuntime_hwp_msrs, readConfigAtRuntime_hwp_writes, Hr.
  repeat split; try reflexivity; apply Z.mod_pos_bound; reflexivity.
Qed.

(** The source holds 80003F08 and the register holds something else. *)
Lemma readConfigAtRuntime_applies_hwp_request_witness :
  msrs (machine (readConfigAtRuntime (hdr := spec_header) hwpCpu hwpRequestObject
                   (oneFile hwpRequestFile "80003F08") (machineWith [])))
       MSR_IA32_HWP_REQUEST = 0x80003F08.
Proof.
  destruct (readConfigAtRuntime_applies_hwp_request (hdr := spec_header) hwpCpu
              hwpRequestObject (oneFile hwpRequestFile "80003F08")
              (machineWith []) hwpRequestFile (bytes "80003F08")
              eq_refl eq_refl eq_refl) as (H & _).
  - vm_compute. discriminate.
  - rewrite H. vm_compute. reflexivity.
Defined.

(** ** A cycle reaches a fixed point *)

Ltac prune_msr :=
  cbn [Z.eqb MSR_IA32_PM_ENABLE MSR_IA32_HWP_REQUEST MSR_IA32_POWER_CTL
       MSR_IA32_MISC_ENABLE MSR_IA32_PERF_CTL Pos.eqb].

Section FixedPoint.

Context {hdr : Header}.
Variable cpu_info : CPUInfo.
Variable this : CPUTune.
Variable fs : FileSystem.

Lemma turboBoostNext_idem x :
  turboBoostNext this fs (turboBoostNext this fs x) = turboBoostNext this fs x.
Proof.
  unfold turboBoostNext. destruct (turboBoostPath this) as [path|]; [|reflexivity].
  cbv zeta.
  set (c := Z.land (org_MSR_IA32_MISC_ENABLE this) kEnableTurboBoostBits).
  destruct (requested fs path); destruct (x =? c) eqn:E; cbn [Bool.eqb negb];
    rewrite ?E; cbn [Bool.eqb negb]; try reflexivity.
  - destruct (Z.land x kEnableTurboBoostBits =? c); cbn [negb]; [reflexivity|].
    now rewrite <- Z.land_assoc, Z.land_diag.
  - destruct (Z.lor x kDisableTurboBoostBits =? c); cbn [negb]; [|reflexivity].
    now rewrite <- Z.lor_assoc, Z.lor_diag.
Qed.

Lemma procHotNext_idem misc x :
  procHotNext this fs misc (procHotNext this fs misc x) = procHotNext this fs misc x.
Proof.
  unfold procHotNext. destruct (ProcHotPath this) as [path|]; [|reflexivity].
  cbv zeta.
  destruct (requested fs path);
    destruct (Z.land x kEnableProcHotBit =? 0) eqn:E; cbn [Bool.eqb negb];
    rewrite ?E; cbn [Bool.eqb negb]; try reflexivity.
  - destruct (Z.land (Z.lor x kEnableProcHotBit) kEnableProcHotBit =? 0);
      cbn [negb]; [|reflexivity].
    now rewrite <- Z.lor_assoc, Z.lor_diag.
  - destruct (negb (Z.land misc kEnableTurboBoostBits =? kEnableTurboBoostBits));
      [|rewrite E; reflexivity].
    destruct (Z.land (Z.land x kDisableProcHotBit) kEnableProcHotBit =? 0);
      cbn [negb]; [reflexivity|].
    now rewrite <- Z.land_assoc, Z.land_diag.
Qed.

Lemma hwpRequestNext_idem x :
  hwpRequestNext cpu_info this fs (hwpRequestNext cpu_info this fs x) =
  hwpRequestNext cpu_info this fs x.
Proof. unfold hwpRequestNext. destruct (hwpRequested cpu_info this fs); reflexivity. Qed.

Lemma speedShiftNext_idem x :
  speedShiftNext cpu_info this fs (speedShiftNext cpu_info this fs x) =
  speedShiftNext cpu_info this fs x.
Proof.
  unfold speedShiftNext.
  destruct (negb (hwpEnableOnceSet this) && supportedHWP cpu_info); [|reflexivity].
  destruct (speedShiftPath this) as [path|]; [|reflexivity].
  cbv zeta. destruct (nonNull (fs path)); [|reflexivity]. cbn [andb].
  destruct (requested fs path);
    destruct (x =? kEnableSpeedShiftBit) eqn:E; cbn [Bool.eqb negb];
    rewrite ?E; cbn [Bool.eqb negb]; try reflexivity.
  - now rewrite Z.eqb_refl.
  - destruct (kDisableSpeedShiftBit =? kEnableSpeedShiftBit); reflexivity.
Qed.

(** The registers after a cycle, from the registers before it. *)
Lemma readConfigAtRuntime_msrs m :
  let r := readConfigAtRuntime cpu_info this fs m in
  msrs (machine r) MSR_IA32_MISC_ENABLE =
    turboBoostNext this fs (msrs m MSR_IA32_MISC_ENABLE) /\
  msrs (machine r) MSR_IA32_POWER_CTL =
    procHotNext this fs (turboBoostNext this fs (msrs m MSR_IA32_MISC_ENABLE))
      (msrs m MSR_IA32_POWER_CTL) /\
  msrs (machine r) MSR_IA32_HWP_REQUEST =
    hwpRequestNext cpu_info this fs (msrs m MSR_IA32_HWP_REQUEST) /\
  msrs (machine r) MSR_IA32_PM_ENABLE =
    speedShiftNext cpu_info this fs (msrs m MSR_IA32_PM_ENABLE) /\
  (forall a, managed a = false -> msrs (machine r) a = msrs m a) /\
  msrs (machine r) MSR_IA32_PERF_CTL = msrs m MSR_IA32_PERF_CTL.
Proof.
  cbv zeta. unfold readConfigAtRuntime.
  rewrite !machine_bind. cbn [setTimeoutMS machine fst snd msrs].
  pose proof (fun m' => proj1 (ActsAt_speedShiftAtRuntime cpu_info this fs m')) as H4.
  pose proof (fun m' => proj1 (ActsAt_hwpRequestAtRuntime cpu_info this fs m')) as H3.
  pose proof (fun m' => proj1 (ActsAt_procHotAtRuntime this fs m')) as H2.
  pose proof (fun m' => proj1 (ActsAt_turboBoostAtRuntime this fs m')) as H1.
  repeat apply conj.
  - rewrite H4; prune_msr. rewrite H3; prune_msr. rewrite H2; prune_msr.
    rewrite H1; prune_msr. reflexivity.
  - rewrite H4; prune_msr. rewrite H3; prune_msr. rewrite H2; prune_msr.
    rewrite !H1; prune_msr. reflexivity.
  - rewrite H4; prune_msr. rewrite H3; prune_msr. rewrite H2; prune_msr.
    rewrite H1; prune_msr. reflexivity.
  - rewrite !H4; prune_msr. rewrite H3; prune_msr. rewrite H2; prune_msr.
    rewrite H1; prune_msr. reflexivity.
  - intros a Ha. unfold managed in Ha.
    apply orb_false_iff in Ha as [Ha E5].
    apply orb_false_iff in Ha as [Ha E4].
    apply orb_false_iff in Ha as [Ha E3].
    apply orb_false_iff in Ha as [E1 E2].
    rewrite H4, E4, H3, E5, H2, E2, H1, E1. reflexivity.
  - rewrite H4; prune_msr. rewrite H3; prune_msr. rewrite H2; prune_msr.
    rewrite H1; prune_msr. reflexivity.
Qed.

(** The number of writes of a cycle: one for each block whose register is
    not yet what the block wants. *)
Lemma readConfigAtRuntime_count m :
  count_writes (events (readConfigAtRuntime cpu_info this fs m)) =
  ((if (msrs m MSR_IA32_MISC_ENABLE =?
        turboBoostNext this fs (msrs m MSR_IA32_MISC_ENABLE))%Z
    then 0 else 1) +
   (if (msrs m MSR_IA32_POWER_CTL =?
        procHotNext this fs (turboBoostNext this fs (msrs m MSR_IA32_MISC_ENABLE))
          (msrs m MSR_IA32_POWER_CTL))%Z
    then 0 else 1) +
   (if (msrs m MSR_IA32_HWP_REQUEST =?
        hwpRequestNext cpu_info this fs (msrs m MSR_IA32_HWP_REQUEST))%Z
    then 0 else 1) +
   (if (msrs m MSR_IA32_PM_ENABLE =?
        speedShiftNext cpu_info this fs (msrs m MSR_IA32_PM_ENABLE))%Z
    then 0 else 1))%nat.
Proof.
  pose proof (fun m' => proj1 (ActsAt_hwpRequestAtRuntime cpu_info this fs m')) as H3.
  pose proof (fun m' => proj1 (ActsAt_procHotAtRuntime this fs m')) as H2.
  pose proof (fun m' => proj1 (ActsAt_turboBoostAtRuntime this fs m')) as H1.
  unfold readConfigAtRuntime.
  rewrite !events_bind, !count_writes_app. unfold count_writes.
  rewrite (proj2 (ActsAt_turboBoostAtRuntime this fs m)).
  rewrite (proj2 (ActsAt_procHotAtRuntime this fs _)).
  rewrite (proj2 (ActsAt_hwpRequestAtRuntime cpu_info this fs _)).
  rewrite (proj2 (ActsAt_speedShiftAtRuntime cpu_info this fs _)).
  repeat (rewrite ?H3, ?H2, ?H1; prune_msr).
  cbn [setTimeoutMS events snd filter isWrite List.length].
  repeat match goal with
         | |- context [if ?b then [] else [_]] => destruct b
         end; reflexivity.
Qed.

End FixedPoint.

(** X14. A cycle settles in one step: run again from the state it left,
    with the same object and the same sources, it performs no register
    write at all. *)
Theorem readConfigAtRuntime_settles {hdr : Header} (cpu_info : CPUInfo)
  (this : CPUTune) (fs : FileSystem) (m : Machine) :
  count_writes
    (events (readConfigAtRuntime cpu_info this fs
               (machine (readConfigAtRuntime cpu_info this fs m)))) = 0%nat.
Proof.
  rewrite readConfigAtRuntime_count.
  destruct (readConfigAtRuntime_msrs cpu_info this fs m) as (E1 & E2 & E3 & E4 & _).
  cbv zeta in *. rewrite E1, E2, E3, E4.
  rewrite !turboBoostNext_idem, procHotNext_idem, hwpRequestNext_idem,
    speedShiftNext_idem, !Z.eqb_refl.
  reflexivity.
Qed.

(** ** Registers stay 64-bit values *)

Lemma land_range a b :
  0 <= a < two64 -> 0 <= b -> 0 <= Z.land a b < two64.
Proof.
  intros [Ha1 Ha2] Hb.
  assert (H0 : 0 <= Z.land a b) by (apply Z.land_nonneg; now left).
  split; [exact H0|].
  destruct (Z.eq_dec (Z.land a b) 0) as [E|E]; [rewrite E; reflexivity|].
  assert (Hpos : 0 < Z.land a b) by lia.
  assert (Hapos : 0 < a).
  { destruct (Z.eq_dec a 0) as [Ea|Ea]; [|lia].
    subst a. rewrite Z.land_0_l in E. now elim E. }
  unfold two64 in *. apply Z.log2_lt_pow2; [exact Hpos|].
  pose proof (Z.log2_land a b Ha1 Hb) as Hl.
  assert (Z.log2 a < 64) by (apply Z.log2_lt_pow2; assumption).
  lia.
Qed.

Lemma lor_range a b :
  0 <= a < two64 -> 0 <= b < two64 -> 0 <= Z.lor a b < two64.
Proof.
  intros [Ha1 Ha2] [Hb1 Hb2].
  assert (H0 : 0 <= Z.lor a b) by (apply Z.lor_nonneg; now split).
  split; [exact H0|].
  destruct (Z.eq_dec (Z.lor a b) 0) as [E|E]; [rewrite E; reflexivity|].
  unfold two64 in *. apply Z.log2_lt_pow2; [lia|].
  rewrite Z.log2_lor by assumption.
  assert (Z.log2 a < 64).
  { destruct (Z.eq_dec a 0) as [->|]; [reflexivity|].
    apply Z.log2_lt_pow2; lia. }
  assert (Z.log2 b < 64).
  { destruct (Z.eq_dec b 0) as [->|]; [reflexivity|].
    apply Z.log2_lt_pow2; lia. }
  lia.
Qed.

Section Range.

Context {hdr : Header}.
Variable cpu_info : CPUInfo.
Variable this : CPUTune.
Variable fs : FileSystem.
Hypothesis hdr_ok : HeaderInRange.

Lemma turboBoostNext_range x :
  0 <= x < two64 -> 0 <= turboBoostNext this fs x < two64.
Proof.
  destruct hdr_ok as (K1 & K2 & _).
  intros Hx. unfold turboBoostNext.
  destruct (turboBoostPath this); [|exact Hx]. cbv zeta.
  destruct (negb _); [|exact Hx].
  destruct (requested fs s); [apply land_range|apply lor_range]; tauto.
Qed.

Lemma procHotNext_range misc x :
  0 <= x < two64 -> 0 <= procHotNext this fs misc x < two64.
Proof.
  destruct hdr_ok as (_ & _ & K3 & K4 & _).
  intros Hx. unfold procHotNext.
  destruct (ProcHotPath this); [|exact Hx]. cbv zeta.
  destruct (negb (Bool.eqb _ _)); [|exact Hx].
  destruct (requested fs s); [apply lor_range; tauto|].
  destruct (negb _); [apply land_range; tauto|exact Hx].
Qed.

Lemma hwpRequestNext_range x :
  0 <= x < two64 -> 0 <= hwpRequestNext cpu_info this fs x < two64.
Proof.
  intros Hx. unfold hwpRequestNext, hwpRequested.
  destruct (supportedHWP cpu_info); [|exact Hx].
  destruct (hwpRequestConfigPath this); [|exact Hx].
  destruct (fs s); [|exact Hx]. cbv zeta.
  destruct (_ =? ERANGE); [exact Hx|].
  apply Z.mod_pos_bound. reflexivity.
Qed.

Lemma speedShiftNext_range x :
  0 <= x < two64 -> 0 <= speedShiftNext cpu_info this fs x < two64.
Proof.
  destruct hdr_ok as (_ & _ & _ & _ & K5 & K6).
  intros Hx. unfold speedShiftNext.
  destruct (negb _ && _); [|exact Hx].
  destruct (speedShiftPath this); [|exact Hx]. cbv zeta.
  destruct (nonNull _ && _); [|exact Hx].
  destruct (requested fs s); assumption.
Qed.

Lemma readConfigAtRuntime_range m :
  InRange m -> InRange (machine (readConfigAtRuntime cpu_info this fs m)).
Proof.
  intros Hm a.
  destruct (readConfigAtRuntime_msrs cpu_info this fs m)
    as (E1 & E2 & E3 & E4 & E5 & E6).
  cbv zeta in *.
  destruct (managed a) eqn:Ma; [|rewrite (E5 a Ma); apply Hm].
  unfold managed in Ma.
  repeat (apply orb_true_iff in Ma as [Ma|Ma]);
    apply Z.eqb_eq in Ma; subst a.
  - rewrite E1. apply turboBoostNext_range, Hm.
  - rewrite E2. apply procHotNext_range, Hm.
  - rewrite E6. apply Hm.
  - rewrite E4. apply speedShiftNext_range, Hm.
  - rewrite E3. apply hwpRequestNext_range, Hm.
Qed.

End Range.

(** X15. When the masks of the header are 64-bit values, a run of cycles
    started with every register holding a 64-bit value ends with every
    register holding a 64-bit value, whatever the sources held. *)
Theorem cycles_keep_registers_in_range {hdr : Header} (cpu_info : CPUInfo)
  (this : CPUTune) (fss : list FileSystem) (m : Machine) :
  HeaderInRange -> InRange m ->
  InRange (machine (cycles cpu_info this fss m)).
Proof.
  intros Hh. revert m. induction fss as [|fs fss IH]; intros m Hm.
  - exact Hm.
  - cbn [cycles]. rewrite machine_bind. apply IH.
    now apply readConfigAtRuntime_range.
Qed.

Lemma spec_header_in_range : HeaderInRange (hdr := spec_header).
Proof. unfold HeaderInRange. cbn. repeat split; vm_compute; congruence. Qed.

Lemma machineWith_in_range regs :
  Forall (fun kv => 0 <= snd kv < two64) regs -> InRange (machineWith regs).
Proof.
  intros H a. cbn. destruct (find _ regs) as [kv|] eqn:E.
  - apply find_some in E as [E _].
    rewrite Forall_forall in H. exact (H kv E).
  - split; [reflexivity|reflexivity].
Qed.

(** The toggling SpeedShift source on a machine with two registers set. *)
Lemma cycles_keep_registers_in_range_witness :
  InRange (machine (cycles (hdr := spec_header) hwpCpu (value togglingRun)
                      toggling turboProcHotMachine)).
Proof.
  apply (cycles_keep_registers_in_range (hdr := spec_header) hwpCpu
           (value togglingRun) toggling turboProcHotMachine).
  - exact spec_header_in_range.
  - apply machineWith_in_range. repeat constructor; vm_compute; congruence.
Defined.

(** ** Which registers a lifetime can write *)

Section LifetimeFootprint.

Context {hdr : Header}.
Variable cpu_info : CPUInfo.
Variable W : Z -> bool.

Lemma Footprint_init this benv dict : Footprint W (init this benv dict).
Proof. unfold init. footprint. Qed.

Lemma Footprint_restore msr org msg :
  W msr = true -> Footprint W (restore msr org msg).
Proof.
  intros H. unfold restore.
  apply Footprint_bind; [apply Footprint_rdmsr64|intros cur].
  apply Footprint_bind; [now apply Footprint_setIfNotEqual|intros b].
  destruct b; [apply Footprint_myLOG|apply Footprint_ret].
Qed.

(** The registers the configured processor lets the driver write. *)
Hypothesis W_misc : W MSR_IA32_MISC_ENABLE = true.
Hypothesis W_power : W MSR_IA32_POWER_CTL = true.
Hypothesis W_hwp :
  supportedHWP cpu_info = true ->
  W MSR_IA32_PM_ENABLE = true /\ W MSR_IA32_HWP_REQUEST = true.

Lemma Footprint_start this senv : Footprint W (start cpu_info this senv).
Proof.
  unfold start, startTurboBoost, startProcHot, startSpeedShift.
  destruct (supportedHWP cpu_info) eqn:Hs.
  - destruct (W_hwp eq_refl) as [W1 W2].
    footprint; now apply Footprint_setIfNotEqual.
  - footprint; now apply Footprint_setIfNotEqual.
Qed.

Lemma Footprint_readConfigAtRuntime this fs :
  Footprint W (readConfigAtRuntime cpu_info this fs).
Proof.
  unfold readConfigAtRuntime.
  repeat (apply Footprint_bind; [|intros ?]).
  - now apply Footprint_turboBoostAtRuntime.
  - now apply Footprint_procHotAtRuntime.
  - destruct (supportedHWP cpu_info) eqn:Hs.
    + apply Footprint_hwpRequestAtRuntime. now apply W_hwp.
    + now apply Footprint_hwpRequestAtRuntime_unsupported.
  - destruct (supportedHWP cpu_info) eqn:Hs.
    + apply Footprint_speedShiftAtRuntime. now apply W_hwp.
    + apply Footprint_speedShiftAtRuntime_gated. now right.
  - apply Footprint_setTimeoutMS.
Qed.

Lemma Footprint_cycles this fss : Footprint W (cycles cpu_info this fss).
Proof.
  induction fss as [|fs fss IH]; cbn [cycles].
  - apply Footprint_ret.
  - apply Footprint_bind; [apply Footprint_readConfigAtRuntime|intros _; exact IH].
Qed.

Hypothesis W_perf : W MSR_IA32_PERF_CTL = true.

Lemma Footprint_stop this : Footprint W (stop cpu_info this).
Proof.
  unfold stop.
  apply Footprint_bind;
    [destruct (timerSource this);
     [apply Footprint_cancelTimeout|apply Footprint_ret]|intros _].
  cbv zeta.
  repeat (apply Footprint_bind; [now apply Footprint_restore|intros _]).
  apply Footprint_bind; [|intros _; apply Footprint_ret].
  destruct (supportedHWP cpu_info) eqn:Hs; [|apply Footprint_ret].
  destruct (W_hwp eq_refl) as [W1 W2].
  apply Footprint_bind; [now apply Footprint_restore|intros _].
  now apply Footprint_restore.
Qed.

Lemma Footprint_lifetime this0 benv dict senv fss :
  Footprint W (lifetime cpu_info this0 benv dict senv fss).
Proof.
  unfold lifetime.
  apply Footprint_bind; [apply Footprint_init|intros r1].
  destruct (fst r1); [|apply Footprint_ret].
  apply Footprint_bind; [apply Footprint_start|intros r2].
  destruct (fst r2 && timerSource (snd r2)); [|apply Footprint_ret].
  apply Footprint_bind; [apply Footprint_cycles|intros _].
  apply Footprint_bind; [apply Footprint_stop|intros ?; apply Footprint_ret].
Qed.

End LifetimeFootprint.

(** X16. Over a whole lifetime the driver writes none but the five managed
    registers, and on a processor without HWP none but MISC_ENABLE,
    POWER_CTL and PERF_CTL: every other register is never written and
    holds at the end the value it held at the start. *)
Theorem lifetime_writes_only_managed_registers {hdr : Header}
  (cpu_info : CPUInfo) (this0 : CPUTune) (benv : BootEnv)
  (dict : OSDictionary) (senv : StartEnv) (fss : list FileSystem)
  (m : Machine) (a : Z) :
  let r := lifetime cpu_info this0 benv dict senv fss m in
  (managed a = false \/
   (supportedHWP cpu_info = false /\
    (a = MSR_IA32_PM_ENABLE \/ a = MSR_IA32_HWP_REQUEST))) ->
  writes_to a (events r) = [] /\ msrs (machine r) a = msrs m a.
Proof.
  cbv zeta. intros H.
  set (W := fun x : Z =>
              if supportedHWP cpu_info then managed x
              else (x =? MSR_IA32_MISC_ENABLE) || (x =? MSR_IA32_POWER_CTL) ||
                   (x =? MSR_IA32_PERF_CTL)).
  assert (F : Footprint W (lifetime cpu_info this0 benv dict senv fss)).
  { apply Footprint_lifetime; unfold W;
      try (destruct (supportedHWP cpu_info); reflexivity).
    intros ->. split; reflexivity. }
  assert (Wa : W a = false).
  { unfold W. destruct H as [H|[Hs [-> | ->]]].
    - destruct (supportedHWP cpu_info); [exact H|].
      unfold managed in H.
      apply orb_false_iff in H as [H _]. apply orb_false_iff in H as [H _].
      exact H.
    - rewrite Hs. reflexivity.
    - rewrite Hs. reflexivity. }
  split.
  - exact (Footprint_no_writes W _ a m F Wa).
  - exact (Footprint_preserves W _ a m F Wa).
Qed.

(** A processor without HWP whose SpeedShift source toggles. *)
Lemma lifetime_writes_only_managed_registers_witness :
  writes_to MSR_IA32_PM_ENABLE
    (events (lifetime (hdr := spec_header)
               {| supportedHWP := false; model := 0x3A |}
               (freshObject 2000 0) goodBoot speedShiftDict goodStart
               toggling hwpOnMachine)) = [].
Proof.
  apply (lifetime_writes_only_managed_registers (hdr := spec_header)
           {| supportedHWP := false; model := 0x3A |}
           (freshObject 2000 0) goodBoot speedShiftDict goodStart
           toggling hwpOnMachine MSR_IA32_PM_ENABLE).
  right. split; [reflexivity|left; reflexivity].
Defined.

(** ** [stop] *)

Lemma restore_count msr org msg m :
  count_writes (events (restore msr org msg m)) =
  if msrs m msr =? org then 0%nat else 1%nat.
Proof.
  apply (read_then_set_count msr (fun _ => org)).
  apply log_or_skip_quiet.
Qed.


Section Stop.

Variable cpu_info : CPUInfo.

Lemma stop_value this m :
  value (stop cpu_info this m) = set_timerSource this false.
Proof. unfold stop. rewrite !value_bind. reflexivity. Qed.

Lemma stop_timer this m :
  timer (machine (stop cpu_info this m)) =
  if timerSource this then None else timer m.
Proof.
  unfold stop. cbv zeta. rewrite !machine_bind. cbn [ret machine fst snd].
  assert (Hh : KeepsTimer
                 (if supportedHWP cpu_info
                  then
                   restore MSR_IA32_PM_ENABLE
                     (org_MSR_IA32_PM_ENABLE (set_timerSource this false))
                     "stop: restore MSR_IA32_PM_ENABLE from 0x%llx to 0x%llx" ;;;
                   restore MSR_IA32_HWP_REQUEST
                     (org_HWPRequest (set_timerSource this false))
                     "%s: restore MSR_IA32_HWP_REQUEST(0x%llx) from 0x%llx to 0x%llx"
                  else ret tt)).
  { destruct (supportedHWP cpu_info); [|apply KeepsTimer_ret].
    apply KeepsTimer_bind; [apply KeepsTimer_restore|intros _].
    apply KeepsTimer_restore. }
  rewrite Hh, !KeepsTimer_restore.
  destruct (timerSource this); reflexivity.
Qed.

(** The writes of [stop]: one for each restored register that differs from
    the stored original. *)
Lemma stop_count this m :
  count_writes (events (stop cpu_info this m)) =
  ((if (msrs m MSR_IA32_POWER_CTL =? org_MSR_IA32_POWER_CTL this)%Z
    then 0 else 1) +
   (if (msrs m MSR_IA32_MISC_ENABLE =? org_MSR_IA32_MISC_ENABLE this)%Z
    then 0 else 1) +
   (if (msrs m MSR_IA32_PERF_CTL =? org_MSR_IA32_PERF_CTL this)%Z
    then 0 else 1) +
   (if supportedHWP cpu_info then
      (if (msrs m MSR_IA32_PM_ENABLE =? org_MSR_IA32_PM_ENABLE this)%Z
       then 0 else 1) +
      (if (msrs m MSR_IA32_HWP_REQUEST =? org_HWPRequest this)%Z
       then 0 else 1)
    else 0))%nat.
Proof.
  assert (Hc : forall a,
             msrs (machine ((if timerSource this then cancelTimeout else ret tt) m)) a
             = msrs m a) by (intros; destruct (timerSource this); reflexivity).
  assert (Hq : count_writes
                 (events ((if timerSource this then cancelTimeout else ret tt) m))
               = 0%nat) by (destruct (timerSource this); reflexivity).
  unfold stop. cbv zeta.
  rewrite !events_bind, !count_writes_app, Hq.
  cbn [ret events snd]. rewrite !restore_count.
  destruct (supportedHWP cpu_info).
  - rewrite !events_bind, !count_writes_app, !restore_count.
    repeat (rewrite ?restore_msrs, ?Hc; prune_msr).
    cbn [set_timerSource org_MSR_IA32_POWER_CTL org_MSR_IA32_MISC_ENABLE
         org_MSR_IA32_PERF_CTL org_MSR_IA32_PM_ENABLE org_HWPRequest].
    change (count_writes []) with 0%nat.
    repeat match goal with
           | |- context [if ?b then 0%nat else 1%nat] => destruct b
           end; reflexivity.
  - repeat (rewrite ?restore_msrs, ?Hc; prune_msr).
    cbn [set_timerSource org_MSR_IA32_POWER_CTL org_MSR_IA32_MISC_ENABLE
         org_MSR_IA32_PERF_CTL].
    change (count_writes []) with 0%nat.
    repeat match goal with
           | |- context [if ?b then 0%nat else 1%nat] => destruct b
           end; reflexivity.
Qed.

End Stop.

(** X17. [stop] performs exactly one write for each register it restores
    whose value differs from the stored original (POWER_CTL, MISC_ENABLE,
    PERF_CTL, and with HWP also PM_ENABLE and HWP_REQUEST) and no other
    write; in particular it writes nothing when the registers already hold
    the stored values. *)
Theorem stop_writes_only_differences (cpu_info : CPUInfo) (this : CPUTune)
  (m : Machine) :
  count_writes (events (stop cpu_info this m)) =
  ((if (msrs m MSR_IA32_POWER_CTL =? org_MSR_IA32_POWER_CTL this)%Z
    then 0 else 1) +
   (if (msrs m MSR_IA32_MISC_ENABLE =? org_MSR_IA32_MISC_ENABLE this)%Z
    then 0 else 1) +
   (if (msrs m MSR_IA32_PERF_CTL =? org_MSR_IA32_PERF_CTL this)%Z
    then 0 else 1) +
   (if supportedHWP cpu_info then
      (if (msrs m MSR_IA32_PM_ENABLE =? org_MSR_IA32_PM_ENABLE this)%Z
       then 0 else 1) +
      (if (msrs m MSR_IA32_HWP_REQUEST =? org_HWPRequest this)%Z
       then 0 else 1)
    else 0))%nat /\
  (msrs m MSR_IA32_POWER_CTL = org_MSR_IA32_POWER_CTL this ->
   msrs m MSR_IA32_MISC_ENABLE = org_MSR_IA32_MISC_ENABLE this ->
   msrs m MSR_IA32_PERF_CTL = org_MSR_IA32_PERF_CTL this ->
   (supportedHWP cpu_info = true ->
    msrs m MSR_IA32_PM_ENABLE = org_MSR_IA32_PM_ENABLE this /\
    msrs m MSR_IA32_HWP_REQUEST = org_HWPRequest this) ->
   count_writes (events (stop cpu_info this m)) = 0%nat).
Proof.
  split; [apply stop_count|].
  intros H1 H2 H3 H4. rewrite stop_count, H1, H2, H3, !Z.eqb_refl.
  destruct (supportedHWP cpu_info); [|reflexivity].
  destruct (H4 eq_refl) as [H5 H6]. now rewrite H5, H6, !Z.eqb_refl.
Qed.

(** A fresh object on a machine whose registers are all zero. *)
Lemma stop_writes_only_differences_witness :
  count_writes (events (stop hwpCpu (freshObject 2000 0) (machineWith []))) = 0%nat.
Proof.
  apply (stop_writes_only_differences hwpCpu (freshObject 2000 0) (machineWith []));
    try reflexivity.
  intros _. split; reflexivity.
Defined.

(** X18. [stop] is complete in one call: a second [stop], on the object the
    first returned, writes no register, finds no timer to cancel and leaves
    every register where the first put it. *)
Theorem stop_twice_writes_nothing (cpu_info : CPUInfo) (this : CPUTune)
  (m : Machine) :
  let r1 := stop cpu_info this m in
  let r2 := stop cpu_info (value r1) (machine r1) in
  count_writes (events r2) = 0%nat /\
  ~ In EvCancelTimeout (events r2) /\
  (forall a, managed a = true -> msrs (machine r2) a = msrs (machine r1) a).
Proof.
  cbv zeta.
  pose proof (stop_msrs cpu_info this m) as H. cbv zeta in H.
  destruct H as (S1 & S2 & S3 & S4 & S5).
  rewrite stop_value.
  pose proof (stop_msrs cpu_info (set_timerSource this false)
                (machine (stop cpu_info this m))) as H'. cbv zeta in H'.
  destruct H' as (T1 & T2 & T3 & T4 & T5).
  cbn [set_timerSource org_MSR_IA32_POWER_CTL org_MSR_IA32_MISC_ENABLE
       org_MSR_IA32_PERF_CTL org_MSR_IA32_PM_ENABLE org_HWPRequest] in *.
  split; [|split].
  - rewrite stop_count.
    cbn [set_timerSource org_MSR_IA32_POWER_CTL org_MSR_IA32_MISC_ENABLE
         org_MSR_IA32_PERF_CTL org_MSR_IA32_PM_ENABLE org_HWPRequest].
    rewrite S1, S2, S3, !Z.eqb_refl.
    destruct (supportedHWP cpu_info); [|reflexivity].
    destruct (S4 eq_refl) as [S6 S7]. now rewrite S6, S7, !Z.eqb_refl.
  - unfold stop. cbn [set_timerSource timerSource]. cbv zeta.
    rewrite !events_bind. cbn [ret events snd app].
    intros Hin.
    assert (Hr : forall msr org msg m', ~ In EvCancelTimeout (events (restore msr org msg m'))).
    { intros msr org msg m' Hx. unfold restore, bind, rdmsr64, setIfNotEqual in Hx.
      destruct (msrs m' msr =? org); cbn in Hx; intuition discriminate. }
    repeat (apply in_app_or in Hin as [Hin|Hin]; [now apply Hr in Hin|]).
    apply in_app_or in Hin as [Hin|[]].
    destruct (supportedHWP cpu_info); [|destruct Hin].
    rewrite events_bind in Hin.
    apply in_app_or in Hin as [Hin|Hin]; now apply Hr in Hin.
  - intros a Ha. unfold managed in Ha.
    destruct (supportedHWP cpu_info).
    + destruct (S4 eq_refl) as [S6 S7]. destruct (T4 eq_refl) as [T6 T7].
      repeat (apply orb_true_iff in Ha as [Ha|Ha]);
        apply Z.eqb_eq in Ha; subst a; congruence.
    + destruct (S5 eq_refl) as [S6 S7]. destruct (T5 eq_refl) as [T6 T7].
      repeat (apply orb_true_iff in Ha as [Ha|Ha]);
        apply Z.eqb_eq in Ha; subst a; congruence.
Qed.

(** ** Whole lifetimes *)

Section Lifetime.

Context {hdr : Header}.
Variable cpu_info : CPUInfo.

(** A lifetime that reached [stop], stage by stage. *)
Lemma lifetime_completed this0 benv dict senv fss m :
  value (lifetime cpu_info this0 benv dict senv fss m) <> None ->
  let r1 := init this0 benv dict m in
  let r2 := start cpu_info (snd (value r1)) senv (machine r1) in
  let r3 := cycles cpu_info (snd (value r2)) fss (machine r2) in
  let r4 := stop cpu_info (snd (value r2)) (machine r3) in
  fst (value r1) = true /\
  fst (value r2) = true /\
  timerSource (snd (value r2)) = true /\
  machine (lifetime cpu_info this0 benv dict senv fss m) = machine r4 /\
  events (lifetime cpu_info this0 benv dict senv fss m) =
    events r1 ++ events r2 ++ events r3 ++ events r4 /\
  value (lifetime cpu_info this0 benv dict senv fss m) = Some (value r4).
Proof.
  cbv zeta. unfold lifetime.
  rewrite value_bind, machine_bind, events_bind.
  destruct (fst (value (init this0 benv dict m))); [|intros H; now elim H].
  rewrite value_bind, machine_bind, events_bind.
  set (r2 := start cpu_info (snd (value (init this0 benv dict m))) senv
               (machine (init this0 benv dict m))).
  destruct (fst (value r2)); [|intros H; now elim H].
  destruct (timerSource (snd (value r2))); [|intros H; now elim H].
  intros _. cbn [andb].
  rewrite !machine_bind, !events_bind, !value_bind.
  cbn [ret machine events value fst snd].
  rewrite app_nil_r. repeat split.
Qed.


End Lifetime.


(** X20. On a processor without HWP a lifetime that reached [stop] leaves
    all five managed registers at the values they had before [init]:
    MISC_ENABLE, POWER_CTL and PERF_CTL are restored, PM_ENABLE and
    HWP_REQUEST were never changed. *)
Theorem lifetime_without_hwp_restores_everything {hdr : Header}
  (cpu_info : CPUInfo) (this0 : CPUTune) (benv : BootEnv)
  (dict : OSDictionary) (senv : StartEnv) (fss : list FileSystem)
  (m : Machine) :
  supportedHWP cpu_info = false ->
  value (lifetime cpu_info this0 benv dict senv fss m) <> None ->
  forall a, managed a = true ->
    msrs (machine (lifetime cpu_info this0 benv dict senv fss m)) a = msrs m a.
Proof.
  intros Hs Hv a Ha.
  set (W := fun x : Z =>
              (x =? MSR_IA32_MISC_ENABLE) || (x =? MSR_IA32_POWER_CTL) ||
              (x =? MSR_IA32_PERF_CTL)).
  assert (F : Footprint W (lifetime cpu_info this0 benv dict senv fss))
    by (apply Footprint_lifetime; try reflexivity; congruence).
  destruct (lifetime_completed cpu_info this0 benv dict senv fss m Hv)
    as (L1 & L2 & L3 & L4 & _).
  cbv zeta in *.
  destruct (init_captures this0 benv dict m L1) as (I1 & I2 & I3 & _).
  set (this1 := snd (value (init this0 benv dict m))) in *.
  set (m1 := machine (init this0 benv dict m)) in *.
  pose proof (start_originals cpu_info this1 senv m1) as Ho. cbv zeta in Ho.
  destruct Ho as (O1 & O2 & O3 & _).
  set (r2 := start cpu_info this1 senv m1) in *.
  pose proof (stop_msrs cpu_info (snd (value r2))
                (machine (cycles cpu_info (snd (value r2)) fss (machine r2))))
    as Hst.
  cbv zeta in Hst. destruct Hst as (S1 & S2 & S3 & _).
  unfold managed in Ha.
  repeat (apply orb_true_iff in Ha as [Ha|Ha]);
    apply Z.eqb_eq in Ha; subst a.
  - rewrite L4, S2, O1, I1. reflexivity.
  - rewrite L4, S1, O3, I3. reflexivity.
  - rewrite L4, S3, O2, I2. reflexivity.
  - exact (Footprint_preserves W _ MSR_IA32_PM_ENABLE m F eq_refl).
  - exact (Footprint_preserves W _ MSR_IA32_HWP_REQUEST m F eq_refl).
Qed.

(** Without HWP, PM_ENABLE = 1 survives the lifetime that loses it on an
    HWP processor. *)
Lemma lifetime_without_hwp_restores_everything_witness :
  msrs (machine (lifetime (hdr := spec_header)
                   {| supportedHWP := false; model := 0x3A |}
                   (freshObject 2000 0) goodBoot turboProcHotDict goodStart
                   [procHotOffFiles; noFiles] hwpOnMachine))
       MSR_IA32_PM_ENABLE = 1.
Proof.
  apply (lifetime_without_hwp_restores_everything (hdr := spec_header)
           {| supportedHWP := false; model := 0x3A |}
           (freshObject 2000 0) goodBoot turboProcHotDict goodStart
           [procHotOffFiles; noFiles] hwpOnMachine).
  - reflexivity.
  - vm_compute. discriminate.
  - reflexivity.
Defined.

Lemma readConfigAtRuntime_timer {hdr : Header} cpu_info this fs m :
  timer (machine (readConfigAtRuntime cpu_info this fs m)) =
  Some (updateInterval this).
Proof. unfold readConfigAtRuntime. rewrite !machine_bind. reflexivity. Qed.

(** X21. After any non-empty run of cycles the timer is armed with the
    object's update interval; an empty run leaves the timer as it was. *)
Theorem cycles_leave_timer_armed {hdr : Header} (cpu_info : CPUInfo)
  (this : CPUTune) (fss : list FileSystem) (m : Machine) :
  timer (machine (cycles cpu_info this fss m)) =
  match fss with
  | [] => timer m
  | _ :: _ => Some (updateInterval this)
  end.
Proof.
  revert m. induction fss as [|fs fss IH]; intros m; [reflexivity|].
  cbn [cycles]. rewrite machine_bind, IH.
  destruct fss; [|reflexivity].
  apply readConfigAtRuntime_timer.
Qed.

(** X22. A lifetime that reached [stop] ends with no timer pending and
    returns an object that no longer owns a timer. *)
Theorem lifetime_ends_with_timer_cancelled {hdr : Header} (cpu_info : CPUInfo)
  (this0 : CPUTune) (benv : BootEnv) (dict : OSDictionary) (senv : StartEnv)
  (fss : list FileSystem) (m : Machine) (this' : CPUTune) :
  value (lifetime cpu_info this0 benv dict senv fss m) = Some this' ->
  timer (machine (lifetime cpu_info this0 benv dict senv fss m)) = None /\
  timerSource this' = false /\
  In EvCancelTimeout (events (lifetime cpu_info this0 benv dict senv fss m)).
Proof.
  intros Hv.
  assert (Hn : value (lifetime cpu_info this0 benv dict senv fss m) <> None)
    by congruence.
  destruct (lifetime_completed cpu_info this0 benv dict senv fss m Hn)
    as (L1 & L2 & L3 & L4 & L5 & L6).
  cbv zeta in *.
  rewrite L6 in Hv. injection Hv as <-.
  rewrite L4, L5, stop_timer, stop_value, L3. repeat split.
  apply in_or_app; right. apply in_or_app; right. apply in_or_app; right.
  unfold stop. rewrite L3. apply In_events_bind_l. left. reflexivity.
Qed.

(** The toggling lifetime. *)
Lemma lifetime_ends_with_timer_cancelled_witness :
  timer (machine (lifetime (hdr := spec_header) hwpCpu (freshObject 2000 0)
                    goodBoot speedShiftDict goodStart toggling
                    (machineWith []))) = None.
Proof.
  destruct (value (lifetime (hdr := spec_header) hwpCpu (freshObject 2000 0)
                     goodBoot speedShiftDict goodStart toggling
                     (machineWith []))) as [this'|] eqn:E.
  - exact (proj1 (lifetime_ends_with_timer_cancelled (hdr := spec_header) hwpCpu
                    (freshObject 2000 0) goodBoot speedShiftDict goodStart
                    toggling (machineWith []) this' E)).
  - vm_compute in E. discriminate.
Defined.

(** ** Registers that are never accessed *)

Lemma Emits_cycles {hdr : Header} P cpu_info this fss :
  (forall fs, Emits P (readConfigAtRuntime cpu_info this fs)) ->
  Emits P (cycles cpu_info this fss).
Proof.
  intros H. induction fss as [|fs fss IH]; cbn [cycles].
  - intros m; reflexivity.
  - apply Emits_bind; [apply H|intros _; exact IH].
Qed.

(** X23. On a processor without HWP neither [start], nor any run of
    cycles, nor [stop] reads or writes PM_ENABLE or HWP_REQUEST; and with a
    latched object no run of cycles reads or writes PM_ENABLE. *)
Theorem hwp_registers_are_not_accessed {hdr : Header} (cpu_info : CPUInfo)
  (this : CPUTune) (senv : StartEnv) (fss : list FileSystem) (m : Machine) :
  (supportedHWP cpu_info = false ->
   forallb (avoids MSR_IA32_PM_ENABLE MSR_IA32_HWP_REQUEST)
     (events (start cpu_info this senv m)) = true /\
   forallb (avoids MSR_IA32_PM_ENABLE MSR_IA32_HWP_REQUEST)
     (events (cycles cpu_info this fss m)) = true /\
   forallb (avoids MSR_IA32_PM_ENABLE MSR_IA32_HWP_REQUEST)
     (events (stop cpu_info this m)) = true) /\
  (hwpEnableOnceSet this = true ->
   forallb (avoids MSR_IA32_PM_ENABLE MSR_IA32_PM_ENABLE)
     (events (cycles cpu_info this fss m)) = true).
Proof.
  split.
  - intros Hs. split; [|split].
    + revert m. change (Emits (avoids MSR_IA32_PM_ENABLE MSR_IA32_HWP_REQUEST)
                          (start cpu_info this senv)).
      unfold start, startTurboBoost, startProcHot, startSpeedShift.
      rewrite Hs. emits.
    + revert m. apply Emits_cycles. intros fs.
      unfold readConfigAtRuntime, turboBoostAtRuntime, procHotAtRuntime,
        hwpRequestAtRuntime, speedShiftAtRuntime.
      rewrite Hs, andb_false_r. emits.
    + revert m. change (Emits (avoids MSR_IA32_PM_ENABLE MSR_IA32_HWP_REQUEST)
                          (stop cpu_info this)).
      unfold stop, restore. rewrite Hs. emits.
  - intros Hl. revert m. apply Emits_cycles. intros fs.
    unfold readConfigAtRuntime, turboBoostAtRuntime, procHotAtRuntime,
      hwpRequestAtRuntime, speedShiftAtRuntime.
    rewrite Hl. cbn [negb andb]. emits.
Qed.

(** A latched object and a toggling SpeedShift source. *)
Lemma hwp_registers_are_not_accessed_witness :
  forallb (avoids MSR_IA32_PM_ENABLE MSR_IA32_PM_ENABLE)
    (events (cycles (hdr := spec_header) hwpCpu
               (set_hwpEnableOnceSet (value togglingRun) true) toggling
               hwpOnMachine)) = true.
Proof.
  destruct (hwp_registers_are_not_accessed (hdr := spec_header) hwpCpu
              (set_hwpEnableOnceSet (value togglingRun) true) goodStart
              toggling hwpOnMachine) as [_ H].
  apply H. reflexivity.
Defined.

(** ** [start] and the runtime detection of TurboBoost agree *)

Lemma readConfigAtRuntime_writes_to_MISC_ENABLE {hdr : Header} cpu_info this fs m :
  writes_to MSR_IA32_MISC_ENABLE (events (readConfigAtRuntime cpu_info this fs m)) =
  if msrs m MSR_IA32_MISC_ENABLE =?
     turboBoostNext this fs (msrs m MSR_IA32_MISC_ENABLE)
  then []
  else [turboBoostNext this fs (msrs m MSR_IA32_MISC_ENABLE)].
Proof.
  set (W := fun a : Z => negb (a =? MSR_IA32_MISC_ENABLE)).
  unfold readConfigAtRuntime.
  rewrite events_bind, writes_to_app.
  rewrite <- (writes_to_filter _ (events (turboBoostAtRuntime this fs m))).
  rewrite (proj2 (ActsAt_turboBoostAtRuntime this fs m)).
  rewrite events_bind, writes_to_app.
  rewrite (Footprint_no_writes W)
    by (try apply Footprint_procHotAtRuntime; reflexivity).
  rewrite events_bind, writes_to_app.
  rewrite (Footprint_no_writes W)
    by (try apply Footprint_hwpRequestAtRuntime; reflexivity).
  rewrite events_bind, writes_to_app.
  rewrite (Footprint_no_writes W (speedShiftAtRuntime cpu_info this fs))
    by (try apply Footprint_speedShiftAtRuntime; reflexivity).
  cbn [app setTimeoutMS events snd writes_to]. rewrite app_nil_r.
  destruct (_ =? _); [reflexivity|]. cbn. reflexivity.
Qed.

(** X24. When the stored original of MISC_ENABLE is the register's value,
    as [init] leaves it, and [start] gets past IOKit, a following cycle
    whose TurboBoost source asks for what the start-up flag asked for does
    not write MISC_ENABLE: the runtime test recognises the state [start]
    produced. *)
Theorem start_then_agreeing_source_leaves_MISC_ENABLE {hdr : Header}
  (cpu_info : CPUInfo) (this : CPUTune) (senv : StartEnv) (m : Machine)
  (fs : FileSystem) (path : string) :
  superStart senv = true -> providerPresent senv = true ->
  timerCreated senv = true -> addEventSourceOk senv = true ->
  org_MSR_IA32_MISC_ENABLE this = msrs m MSR_IA32_MISC_ENABLE ->
  turboBoostPath this = Some path ->
  requested fs path = enableIntelTurboBoost this ->
  let r := start cpu_info this senv m in
  writes_to MSR_IA32_MISC_ENABLE
    (events (readConfigAtRuntime cpu_info (snd (value r)) fs (machine r))) = [].
Proof.
  intros H1 H2 H3 H4 Ho Hp Hr. cbv zeta.
  rewrite readConfigAtRuntime_writes_to_MISC_ENABLE.
  rewrite start_msrs by assumption. prune_msr.
  rewrite start_value by assumption. cbn [snd].
  assert (E : forall this',
             this' = set_hwpEnableOnceSet (set_timerSource this true) true \/
             this' = set_timerSource this true ->
             turboBoostNext this' fs
               (if enableIntelTurboBoost this
                then Z.land (msrs m MSR_IA32_MISC_ENABLE) kEnableTurboBoostBits
                else Z.lor (msrs m MSR_IA32_MISC_ENABLE) kDisableTurboBoostBits)
             = (if enableIntelTurboBoost this
                then Z.land (msrs m MSR_IA32_MISC_ENABLE) kEnableTurboBoostBits
                else Z.lor (msrs m MSR_IA32_MISC_ENABLE) kDisableTurboBoostBits)).
  { intros this' Ht. unfold turboBoostNext.
    assert (P : turboBoostPath this' = Some path)
      by (destruct Ht as [-> | ->]; exact Hp).
    assert (O : org_MSR_IA32_MISC_ENABLE this' = msrs m MSR_IA32_MISC_ENABLE)
      by (destruct Ht as [-> | ->]; exact Ho).
    rewrite P, O, Hr. cbv zeta.
    destruct (enableIntelTurboBoost this).
    - rewrite Z.eqb_refl. reflexivity.
    - destruct (_ =? _); cbn [Bool.eqb negb]; [|reflexivity].
      now rewrite <- Z.lor_assoc, Z.lor_diag. }
  destruct (supportedHWP cpu_info && negb (hwpEnableOnceSet this) &&
            enableIntelSpeedShift this);
    (rewrite E by auto); now rewrite Z.eqb_refl.
Qed.

(** TurboBoost enabled at start and the source reading 1. *)
Lemma start_then_agreeing_source_leaves_MISC_ENABLE_witness :
  writes_to MSR_IA32_MISC_ENABLE
    (events (readConfigAtRuntime (hdr := spec_header) hwpCpu
               (snd (value (start (hdr := spec_header) hwpCpu
                              (snd (value (init (freshObject 2000 0) goodBoot
                                             turboProcHotDict turboProcHotMachine)))
                              goodStart turboProcHotMachine)))
               (oneFile turboBoostFile "1")
               (machine (start (hdr := spec_header) hwpCpu
                           (snd (value (init (freshObject 2000 0) goodBoot
                                          turboProcHotDict turboProcHotMachine)))
                           goodStart turboProcHotMachine)))) = [].
Proof.
  apply (start_then_agreeing_source_leaves_MISC_ENABLE (hdr := spec_header)
           hwpCpu
           (snd (value (init (freshObject 2000 0) goodBoot turboProcHotDict
                          turboProcHotMachine)))
           goodStart turboProcHotMachine (oneFile turboBoostFile "1")
           turboBoostFile); reflexivity.
Defined.

(** ** Further examples *)

(** An unsupported kernel without the beta boot argument. *)
Lemma init_panic_key_witness :
  In EvSetKextPanicKey
    (events (init (freshObject 2000 0)
               {| kernelUnsupported := true; bootargBeta := false;
                  kextPanicLastBoot := true; bootargS := false;
                  bootargX := false; bootargOff := false; superInit := true |}
               emptyDict (machineWith []))).
Proof.
  apply (init_panic_key (freshObject 2000 0)
           {| kernelUnsupported := true; bootargBeta := false;
              kextPanicLastBoot := true; bootargS := false;
              bootargX := false; bootargOff := false; superInit := true |}
           emptyDict (machineWith [])).
  reflexivity.
Defined.

(** Stopping twice after the ProcHot cycle: POWER_CTL stays restored. *)
Lemma stop_twice_writes_nothing_witness :
  msrs (machine (stop hwpCpu
                   (value (stop hwpCpu (value turboProcHotStarted)
                             (machineWith [(MSR_IA32_POWER_CTL, 0x24005C)])))
                   (machine (stop hwpCpu (value turboProcHotStarted)
                               (machineWith [(MSR_IA32_POWER_CTL, 0x24005C)])))))
       MSR_IA32_POWER_CTL =
  msrs (machine (stop hwpCpu (value turboProcHotStarted)
                   (machineWith [(MSR_IA32_POWER_CTL, 0x24005C)])))
       MSR_IA32_POWER_CTL.
Proof.
  destruct (stop_twice_writes_nothing hwpCpu (value turboProcHotStarted)
              (machineWith [(MSR_IA32_POWER_CTL, 0x24005C)])) as (_ & _ & H).
  apply H. reflexivity.
Defined.
